(** * Resume screening and scoring pipeline of the ATS backend

    A shallow embedding of the deterministic part of the pipeline:
    - [services/ai_engine.py]: [_fuzzy_match_skill],
      [calculate_deterministic_score], the failure paths of
      [extract_candidate_facts];
    - [main.py] ([process_resumes_background]) and
      [routers/applicants.py] ([apply_for_job]): the knockout filter and
      the per-resume sequencing;
    - [services/tasks.py]: [process_resume], [process_public_resume]
      and [_build_results_payload].

    Conventions of the embedding.
    - Python [str] is [string]; [str.lower] and [str.split] are modelled
      on 7-bit ASCII text (characters above 127 are left unchanged and are
      not white space).
    - Python [float] is modelled by exact rationals [Q]: NaN, infinities
      and binary rounding error are outside the model.  [int] is [Z].
      The rounding of the final score is therefore stated on the summed
      value itself ([AiEngine.final_score_of_raw]), whatever float the
      code has reached.
    - A Python [dict] is an association list in insertion order with
      unique keys; a Python [set] of strings is a [gset string].
    - The external collaborators (PDF parser, regex e-mail scan, Vertex
      AI call, database) are inputs of the functions that use them. *)

From Stdlib Require Import ZArith QArith Qround Qabs Lqa Lia.
From Stdlib Require Import List String Ascii Bool.
From Stdlib Require Import Sorting.Sorted Sorting.Permutation.
From stdpp Require Import gmap strings.
Import ListNotations.

Set Warnings "-register-all".
Local Open Scope string_scope.
Local Open Scope list_scope.

(** ** Python strings *)

Module PyStr.

(** [c.lower()] for one ASCII character. *)
Definition lower_ascii (c : ascii) : ascii :=
  let n := nat_of_ascii c in
  if (Nat.leb 65 n && Nat.leb n 90)%bool then ascii_of_nat (n + 32) else c.

(** [s.lower()]. *)
Fixpoint lower (s : string) : string :=
  match s with
  | EmptyString => EmptyString
  | String c s' => String (lower_ascii c) (lower s')
  end.

(** [a in b] on strings: [a] occurs in [b] as a contiguous substring. *)
Fixpoint str_in (a b : string) : bool :=
  (String.prefix a b ||
   match b with
   | EmptyString => false
   | String _ b' => str_in a b'
   end)%bool.

(** The ASCII characters for which [str.isspace] holds: tab, line feed,
    vertical tab, form feed, carriage return, the four separators
    0x1c-0x1f and the space. *)
Definition is_space (c : ascii) : bool :=
  let n := nat_of_ascii c in
  ((Nat.leb 9 n && Nat.leb n 13) || (Nat.leb 28 n && Nat.leb n 32))%bool.

Definition is_empty (s : string) : bool :=
  match s with EmptyString => true | _ => false end.

(** [s.split()] with no argument: the maximal runs of non-space
    characters; [acc] is the word being read. *)
Fixpoint split_acc (acc s : string) : list string :=
  match s with
  | EmptyString => if is_empty acc then [] else [acc]
  | String c s' =>
      if is_space c
      then (if is_empty acc then split_acc EmptyString s'
            else acc :: split_acc EmptyString s')
      else split_acc (acc ++ String c EmptyString) s'
  end.

Definition split (s : string) : list string := split_acc EmptyString s.

(** [" ".join(s.split()).lower()], the normalisation of the verifier. *)
Definition normalize (s : string) : string :=
  lower (String.concat " " (split s)).

(** [s.lstrip()], [s.rstrip()] and [s.strip()] with no argument. *)
Fixpoint lstrip (s : string) : string :=
  match s with
  | EmptyString => EmptyString
  | String c s' => if is_space c then lstrip s' else s
  end.

Fixpoint rstrip (s : string) : string :=
  match s with
  | EmptyString => EmptyString
  | String c s' =>
      match rstrip s' with
      | EmptyString => if is_space c then EmptyString
                       else String c EmptyString
      | r => String c r
      end
  end.

Definition strip (s : string) : string := rstrip (lstrip s).

(** Truthiness of a string: non-empty. *)
Definition truthy (s : string) : bool := negb (is_empty s).

End PyStr.

(** ** Python numbers *)

Module PyNum.

Definition Qltb (x y : Q) : bool := negb (Qle_bool y x).

(** [max(a, b)]: the first argument unless the second is strictly
    greater. *)
Definition py_max (a b : Q) : Q := if Qltb a b then b else a.

(** [min(a, b)]: the first argument unless the second is strictly
    smaller. *)
Definition py_min (a b : Q) : Q := if Qltb b a then b else a.

(** [round(x)] with one argument: nearest integer, ties to the even
    one. *)
Definition py_round (x : Q) : Z :=
  let f := Qfloor x in
  match Qcompare (x - inject_Z f)%Q (1 # 2)%Q with
  | Lt => f
  | Gt => (f + 1)%Z
  | Eq => if Z.even f then f else (f + 1)%Z
  end.

(** [round(x, 1)]: nearest multiple of one tenth, ties to even. *)
Definition py_round1 (x : Q) : Q :=
  (inject_Z (py_round (x * 10)) / 10)%Q.

(** [sum(l)] on a list of floats. *)
Definition py_sum (l : list Q) : Q := fold_left Qplus l 0%Q.

End PyNum.

(** ** Python dictionaries with string keys *)

Module PyDict.

Definition dict (V : Type) : Type := list (string * V).

(** [d[k] = v]: an existing key keeps its position, a new key is
    appended. *)
Fixpoint set {V} (k : string) (v : V) (d : dict V) : dict V :=
  match d with
  | [] => [(k, v)]
  | (k', v') :: d' =>
      if String.eqb k k' then (k, v) :: d' else (k', v') :: set k v d'
  end.

(** [d.get(k)]. *)
Fixpoint get {V} (k : string) (d : dict V) : option V :=
  match d with
  | [] => None
  | (k', v') :: d' => if String.eqb k k' then Some v' else get k d'
  end.

(** [k in d]. *)
Definition mem {V} (k : string) (d : dict V) : bool :=
  match get k d with Some _ => true | None => false end.

Definition keys {V} (d : dict V) : list string := map fst d.

(** [{f(k): v for k, v in d.items()}]. *)
Definition map_keys {V} (f : string -> string) (d : dict V) : dict V :=
  fold_left (fun acc kv => set (f (fst kv)) (snd kv) acc) d [].

End PyDict.

(** ** services/ai_engine.py: the deterministic scorer *)

Module AiEngine.
Import PyStr PyNum.

(** One entry of [jd_requirement_matches] after sanitisation. *)
Record RequirementMatch : Type := mkMatch {
  requirement : string;
  is_met : bool;
  citation_quote : option string   (* [None] is Python's [None] *)
}.

(** The candidate dictionary returned by [extract_candidate_facts]. *)
Record CandidateFacts : Type := mkFacts {
  name : string;
  email : string;
  phone : string;
  total_years_experience : Q;
  recent_job_titles : list string;
  skills_with_years : PyDict.dict Q;
  metrics_bullet_count : Z;
  jd_requirement_matches : list RequirementMatch
}.

Inductive Status : Type := shortlisted | review | rejected.

Definition status_str (s : Status) : string :=
  match s with
  | shortlisted => "shortlisted"
  | review => "review"
  | rejected => "rejected"
  end.

Record ScoreBreakdown : Type := mkBreakdown {
  skill_depth : Q;
  jd_requirements : Q;
  experience : Q;
  impact : Q
}.

(** The dictionary returned by [calculate_deterministic_score], without
    its [summary] text. *)
Record ScoringResult : Type := mkResult {
  final_score : Z;
  status : Status;
  matched_skills_count : Z;
  matched_skills : list string;
  verified_requirements : Z;
  total_requirements : Z;
  hallucination_count : Z;
  breakdown : ScoreBreakdown
}.

(** The test [req in key or key in req] of the substring loop. *)
Definition substring_either (req key : string) : bool :=
  (str_in req key || str_in key req)%bool.

(** [_fuzzy_match_skill(required, candidate_skills_lower)]: the exact
    key first, then the first key in iteration order that contains
    [req] or is contained in it. *)
Definition _fuzzy_match_skill (required : string)
    (candidate_skills_lower : PyDict.dict Q) : option string * Q :=
  let req := lower required in
  match PyDict.get req candidate_skills_lower with
  | Some yrs => (Some req, yrs)
  | None =>
      match find (fun kv => substring_either req (fst kv))
                 candidate_skills_lower with
      | Some (key, yrs) => (Some key, yrs)
      | None => (None, 0%Q)
      end
  end.

(** Body of the skill-depth loop; the state is
    [(skill_depth_parts, matched_skills)]. *)
Definition skill_depth_step (candidate_skills_lower : PyDict.dict Q)
    (effective_min : Q) (st : list Q * list string) (req_skill : string)
    : list Q * list string :=
  match _fuzzy_match_skill req_skill candidate_skills_lower with
  | (Some _, candidate_yrs) =>
      (fst st ++ [py_min 1 (candidate_yrs / effective_min)],
       snd st ++ [req_skill])
  | (None, _) => (fst st ++ [0%Q], snd st)
  end.

(** Truthiness of [citation_quote]: neither [None] nor empty. *)
Definition quote_truthy (q : option string) : bool :=
  match q with Some c => truthy c | None => false end.

(** [str(citation_quote)]. *)
Definition quote_str (q : option string) : string :=
  match q with Some c => c | None => "None" end.

(** Body of the verification loop; the state is
    [(verified_requirements, hallucination_count)]. *)
Definition verify_step (normalized_resume : string) (st : Z * Z)
    (m : RequirementMatch) : Z * Z :=
  if (is_met m && quote_truthy (citation_quote m))%bool then
    if str_in (normalize (quote_str (citation_quote m))) normalized_resume
    then (fst st + 1, snd st)%Z
    else (fst st, snd st + 1)%Z
  else if (is_met m && negb (quote_truthy (citation_quote m)))%bool then
    (fst st, snd st + 1)%Z
  else st.

(** Section 2 of the scorer: the anti-hallucination verifier.  Returns
    [(verified_requirements, hallucination_count)]; the loop runs only
    when there are matches and the resume text is non-empty. *)
Definition verify_requirements (matches : list RequirementMatch)
    (raw_resume_text : string) : Z * Z :=
  if ((0 <? Z.of_nat (length matches))%Z && truthy raw_resume_text)%bool
  then fold_left (verify_step (normalize raw_resume_text)) matches (0, 0)%Z
  else (0, 0)%Z.

Definition status_of_score (final_score : Z) : Status :=
  if (80 <=? final_score)%Z then shortlisted
  else if (60 <=? final_score)%Z then review
  else rejected.

(** The four components before rounding, in the order skill depth,
    JD requirements, experience, impact, with the matched skills and
    the verifier's counters. *)
Record Components : Type := mkComponents {
  skill_depth_points : Q;
  jd_requirements_points : Q;
  experience_points : Q;
  impact_points : Q;
  c_matched_skills : list string;
  c_verified : Z;
  c_total : Z;
  c_hallucinations : Z
}.

Definition score_components (candidate : CandidateFacts)
    (required_skills : list string) (min_experience : Q)
    (raw_resume_text : string) : Components :=
  let candidate_skills_lower :=
    PyDict.map_keys lower (skills_with_years candidate) in
  let required_skills_lower := map lower required_skills in
  let effective_min := py_max min_experience 1 in
  let '(skill_depth_parts, matched) :=
    fold_left (skill_depth_step candidate_skills_lower effective_min)
              required_skills_lower ([], []) in
  let avg_depth :=
    match skill_depth_parts with
    | [] => 0%Q
    | _ => (py_sum skill_depth_parts
            / inject_Z (Z.of_nat (length skill_depth_parts)))%Q
    end in
  let total := Z.of_nat (length (jd_requirement_matches candidate)) in
  let '(verified, hallucinations) :=
    verify_requirements (jd_requirement_matches candidate)
                        raw_resume_text in
  let jd_points :=
    if ((0 <? total)%Z && truthy raw_resume_text)%bool
    then (inject_Z verified / inject_Z total * 30)%Q
    else 0%Q in
  let exp_points :=
    if Qle_bool min_experience (total_years_experience candidate)
    then 20%Q
    else (total_years_experience candidate / py_max min_experience 1
          * 20)%Q in
  let imp_points :=
    py_min 10 (inject_Z (metrics_bullet_count candidate) / 5 * 10) in
  {| skill_depth_points := (avg_depth * 40)%Q;
     jd_requirements_points := jd_points;
     experience_points := exp_points;
     impact_points := imp_points;
     c_matched_skills := matched;
     c_verified := verified;
     c_total := total;
     c_hallucinations := hallucinations |}.

(** The sum [raw] that is rounded into [final_score]. *)
Definition raw_score (c : Components) : Q :=
  (skill_depth_points c + jd_requirements_points c
   + experience_points c + impact_points c)%Q.

(** [calculate_deterministic_score(candidate, required_skills,
    min_experience, job_title, raw_resume_text)]; [job_title] is not
    read by the function. *)
Definition calculate_deterministic_score (candidate : CandidateFacts)
    (required_skills : list string) (min_experience : Q)
    (job_title raw_resume_text : string) : ScoringResult :=
  let c := score_components candidate required_skills min_experience
                            raw_resume_text in
  let final := py_round (raw_score c) in
  {| final_score := final;
     status := status_of_score final;
     matched_skills_count := Z.of_nat (length (c_matched_skills c));
     matched_skills := c_matched_skills c;
     verified_requirements := c_verified c;
     total_requirements := c_total c;
     hallucination_count := c_hallucinations c;
     breakdown :=
       {| skill_depth := py_round1 (skill_depth_points c);
          jd_requirements := py_round1 (jd_requirements_points c);
          experience := py_round1 (experience_points c);
          impact := py_round1 (impact_points c) |} |}.

(** The last step of the scorer, [final_score = int(round(raw))], as a
    function of the float [raw] that the code has added up:
    [round] is exact on a float, whatever rounding errors went into
    it.  [calculate_deterministic_score] above applies it to
    [raw_score], the sum in exact arithmetic; the float sum of the code
    can differ from that one by rounding errors, so one of the two can
    be exactly halfway between two integers when the other is not. *)
Definition final_score_of_raw (raw : Q) : Z := py_round raw.

End AiEngine.

(** ** Python lists *)

Module PyList.

(** Insertion of [x] in front of a list sorted in descending key
    order: [x] passes only the elements with a strictly larger key, so
    it stays in front of the elements with the same key. *)
Fixpoint insert_desc {A} (key : A -> Z) (x : A) (l : list A) : list A :=
  match l with
  | [] => [x]
  | y :: l' =>
      if (key x <? key y)%Z then y :: insert_desc key x l'
      else x :: y :: l'
  end.

(** [l.sort(key=key, reverse=True)]: a stable sort in descending key
    order (elements with equal keys keep their original order). *)
Definition sort_reverse {A} (key : A -> Z) (l : list A) : list A :=
  fold_right (insert_desc key) [] l.

(** [a] may stand before [b] in descending key order. *)
Definition desc {A} (key : A -> Z) (a b : A) : Prop := (key b <= key a)%Z.

(** [sum(1 for x in l if p(x))]. *)
Definition count {A} (p : A -> bool) (l : list A) : Z :=
  Z.of_nat (length (List.filter p l)).

(** The shortlist of both aggregations:
    [candidates[:max(1, len(candidates) // 10)]] when [candidates] is
    non-empty, and the empty list otherwise. *)
Definition top_10_percent {A} (candidates : list A) : list A :=
  match candidates with
  | [] => []
  | _ => firstn (Nat.max 1 (length candidates / 10)) candidates
  end.

End PyList.

(** ** The persistence store and the steps of one pipeline run *)

Module Store.
Import AiEngine.

(** A row of the [jobs] table, with the columns the pipeline reads.
    [min_experience] is an integer column; nullable columns are
    options. *)
Record Job : Type := mkJob {
  job_id : Z;
  job_company_id : Z;
  job_title : option string;
  job_min_experience : option Z;
  job_required_skills : option (list string);
  jd_requirements : option (list string);
  processed_resumes : option Z
}.

(** A row of the [applicants] table, without the binary and free-text
    columns ([resume_pdf], [resume_text], [summary]) and the
    database-assigned [id]. *)
Record Applicant : Type := mkApplicant {
  a_job_id : Z;
  a_company_id : Z;
  a_name : string;
  a_email : string;
  a_phone : string;
  a_years_experience : Z;
  a_skills : PyDict.dict Q;
  a_match_score : option Z;
  a_status : string;
  a_breakdown : option ScoreBreakdown
}.

(** [db.query(Applicant).filter(job_id == j, email == e).first()]. *)
Definition find_applicant (db : list Applicant) (j : Z) (e : string)
    : option Applicant :=
  find (fun a => (Z.eqb (a_job_id a) j && String.eqb (a_email a) e)%bool)
       db.

(** [db.add(row); db.commit()] under the constraint
    [uq_applicants_job_email]: [None] is the [IntegrityError]. *)
Definition insert_applicant (db : list Applicant) (row : Applicant)
    : option (list Applicant) :=
  match find_applicant db (a_job_id row) (a_email row) with
  | Some _ => None
  | None => Some (db ++ [row])
  end.

(** [int(x)] on a float: truncation towards zero. *)
Definition int_of_float (x : Q) : Z := Z.quot (Qnum x) (Zpos (Qden x)).

(** What one run of the per-resume code does, in order. *)
Inductive Event : Type :=
| EvDedupLookup
| EvExtractFacts
| EvKnockoutFilter (knocked_out : bool)
| EvScorer
| EvPersist (match_score : Z) (status : string)
| EvPersistConflict
| EvAdvanceProgress.

Definition is_scorer (e : Event) : bool :=
  match e with EvScorer => true | _ => false end.

Definition is_knockout_filter (e : Event) : bool :=
  match e with EvKnockoutFilter _ => true | _ => false end.

(** The pre-AI duplicate check on the regex-scanned e-mail. *)
Definition is_duplicate (db : list Applicant) (j : Z)
    (pre_scan_email : option string) : bool :=
  match pre_scan_email with
  | Some e =>
      match find_applicant db j e with
      | Some _ => true
      | None => false
      end
  | None => false
  end.

Definition dedup_events (pre_scan_email : option string) : list Event :=
  match pre_scan_email with
  | Some _ => [EvDedupLookup]
  | None => []
  end.

End Store.

(** ** main.py: the knockout filter and the in-process batch pipeline *)

Module Main.
Import PyStr PyNum AiEngine Store.

Inductive KnockoutReason : Type :=
| NoReason
| InsufficientExperience (years floor : Q)
| SkillFloorNotMet (matched required : nat).

(** The membership test of the skill floor:
    [any(s in k or k in s for k in candidate_skill_keys)]. *)
Definition skill_present (candidate_skill_keys : gset string)
    (s : string) : bool :=
  existsb (fun k => (str_in s k || str_in k s)%bool)
          (elements candidate_skill_keys).

(** [{k.lower() for k in skills_with_years}]. *)
Definition lowered_key_set (skills_with_years : PyDict.dict Q)
    : gset string :=
  list_to_set (map lower (PyDict.keys skills_with_years)).

(** [matched_ko]: the lower-cased required skills present among the
    candidate's lower-cased skill keys. *)
Definition matched_ko (skills_with_years : PyDict.dict Q)
    (required_skills : list string) : list string :=
  List.filter (skill_present (lowered_key_set skills_with_years))
              (map lower required_skills).

(** [coverage = len(matched_ko) / len(required_lower)]. *)
Definition coverage (skills_with_years : PyDict.dict Q)
    (required_skills : list string) : Q :=
  (inject_Z (Z.of_nat (length (matched_ko skills_with_years
                                          required_skills)))
   / inject_Z (Z.of_nat (length (map lower required_skills))))%Q.

(** Stage 3, the two knockout rules, as the two successive [if]
    statements that update [(knocked_out, knockout_reason)]. *)
Definition knockout_stage (total_years_experience : Q)
    (skills_with_years : PyDict.dict Q) (required_skills : list string)
    (min_experience : Q) : bool * KnockoutReason :=
  let st0 := (false, NoReason) in
  let st1 :=
    if Qltb total_years_experience (min_experience - (1 # 2))%Q
    then (true, InsufficientExperience total_years_experience
                  (min_experience - (1 # 2))%Q)
    else st0 in
  if (negb (fst st1)
      && negb (Nat.eqb (length required_skills) 0))%bool
  then
    if Qltb (coverage skills_with_years required_skills) (1 # 2)%Q
    then (true,
          SkillFloorNotMet
            (length (matched_ko skills_with_years required_skills))
            (length (map lower required_skills)))
    else st1
  else st1.

(** An entry of the in-memory [candidates] list. *)
Record CandidateRow : Type := mkRow {
  cr_filename : string;
  cr_name : string;
  cr_email : string;
  cr_years_experience : Q;
  cr_skills : PyDict.dict Q;
  cr_match_score : Z;
  cr_status : Status;
  cr_breakdown : option ScoreBreakdown
}.

Record Stats : Type := mkStats {
  total_processed : Z;
  duplicates_skipped : Z;
  knocked_out : Z;
  scored : Z;
  n_shortlisted : Z;
  n_review : Z;
  n_rejected : Z
}.

(** One PDF of the archive, as the loop body sees it: its name, the
    text of the PDF parser, the result of the e-mail regex scan, and
    what the extraction service answers for that text. *)
Record ResumeFile : Type := mkFile {
  filename : string;
  resume_text : string;
  pre_scan_email : option string;
  extracted : CandidateFacts
}.

(** Stages 3 and 4 for one candidate: the knockout filter, then either
    the fixed rejection or the scorer.  Returns the events and
    [(final_score, assessment_status, breakdown)]. *)
Definition screen_candidate (candidate_data : CandidateFacts)
    (required_skills : list string) (min_experience : Q)
    (title text : string)
    : list Event * (Z * Status * option ScoreBreakdown) :=
  let ko := knockout_stage (total_years_experience candidate_data)
              (skills_with_years candidate_data) required_skills
              min_experience in
  if fst ko
  then ([EvKnockoutFilter true], (0%Z, rejected, None))
  else
    let result := calculate_deterministic_score candidate_data
                    required_skills min_experience title text in
    ([EvKnockoutFilter false; EvScorer],
     (final_score result, status result, Some (breakdown result))).

Definition set_counts (s : Stats) (ko sc sh rv rj : Z) : Stats :=
  mkStats (total_processed s) (duplicates_skipped s) ko sc sh rv rj.

(** [stats[assessment_status] += 1]. *)
Definition bump_status (a : Status) (s : Stats) : Stats :=
  match a with
  | shortlisted =>
      set_counts s (knocked_out s) (scored s) (n_shortlisted s + 1)
                 (n_review s) (n_rejected s)
  | review =>
      set_counts s (knocked_out s) (scored s) (n_shortlisted s)
                 (n_review s + 1) (n_rejected s)
  | rejected =>
      set_counts s (knocked_out s) (scored s) (n_shortlisted s)
                 (n_review s) (n_rejected s + 1)
  end.

(** The counters after stages 3 and 4. *)
Definition count_outcome (a : Status) (bd : option ScoreBreakdown)
    (s : Stats) : Stats :=
  match bd with
  | None =>
      set_counts s (knocked_out s + 1) (scored s) (n_shortlisted s)
                 (n_review s) (n_rejected s + 1)
  | Some _ =>
      bump_status a
        (set_counts s (knocked_out s) (scored s + 1) (n_shortlisted s)
                    (n_review s) (n_rejected s))
  end.

(** State of the loop over the PDF files. *)
Record LoopState : Type := mkLoop {
  db : list Applicant;
  candidates : list CandidateRow;
  stats : Stats;
  trace : list Event
}.

(** Body of the loop of [process_resumes_background] for one file.  An
    [IntegrityError] at persist time is caught by the loop's
    [except Exception]: nothing is saved, the counters already updated
    stay, and progress advances. *)
Definition process_file (db_job_id company_id : Z) (title : string)
    (min_experience : Q) (required_skills : list string)
    (st : LoopState) (f : ResumeFile) : LoopState :=
  if Nat.ltb (String.length (resume_text f)) 50
  then mkLoop (db st) (candidates st) (stats st)
              (trace st ++ [EvAdvanceProgress])
  else if is_duplicate (db st) db_job_id (pre_scan_email f)
  then
    let s := stats st in
    mkLoop (db st) (candidates st)
           (mkStats (total_processed s) (duplicates_skipped s + 1)
                    (knocked_out s) (scored s) (n_shortlisted s)
                    (n_review s) (n_rejected s))
           (trace st ++ dedup_events (pre_scan_email f)
            ++ [EvAdvanceProgress])
  else
    let candidate_data := extracted f in
    let screened :=
      screen_candidate candidate_data required_skills min_experience
                       title (resume_text f) in
    let score := fst (fst (snd screened)) in
    let assessment := snd (fst (snd screened)) in
    let bd := snd (snd screened) in
    let s1 := count_outcome assessment bd (stats st) in
    let row :=
      {| a_job_id := db_job_id;
         a_company_id := company_id;
         a_name := name candidate_data;
         a_email := email candidate_data;
         a_phone := phone candidate_data;
         a_years_experience :=
           int_of_float (total_years_experience candidate_data);
         a_skills := skills_with_years candidate_data;
         a_match_score := Some score;
         a_status := status_str assessment;
         a_breakdown := bd |} in
    let cand :=
      {| cr_filename := filename f;
         cr_name := name candidate_data;
         cr_email := email candidate_data;
         cr_years_experience := total_years_experience candidate_data;
         cr_skills := skills_with_years candidate_data;
         cr_match_score := score;
         cr_status := assessment;
         cr_breakdown := bd |} in
    let evs := trace st ++ dedup_events (pre_scan_email f)
               ++ [EvExtractFacts] ++ fst screened in
    match insert_applicant (db st) row with
    | None =>
        mkLoop (db st) (candidates st) s1
               (evs ++ [EvPersistConflict; EvAdvanceProgress])
    | Some db' =>
        mkLoop db' (candidates st ++ [cand])
               (mkStats (total_processed s1 + 1) (duplicates_skipped s1)
                        (knocked_out s1) (scored s1) (n_shortlisted s1)
                        (n_review s1) (n_rejected s1))
               (evs ++ [EvPersist score (status_str assessment);
                        EvAdvanceProgress])
    end.

Definition is_status (a : Status) (c : CandidateRow) : bool :=
  match a, cr_status c with
  | shortlisted, shortlisted | review, review | rejected, rejected => true
  | _, _ => false
  end.

(** The [results] dictionary of a finished batch (without the echoed
    [criteria]). *)
Record BatchResult : Type := mkBatch {
  r_total_processed : Z;
  r_duplicates_skipped : Z;
  r_knocked_out : Z;
  r_scored : Z;
  r_shortlisted_count : Z;
  r_review_count : Z;
  r_rejected_count : Z;
  r_shortlisted : list CandidateRow;
  r_all_candidates : list CandidateRow
}.

(** The code after the loop: sort, shortlist, counts. *)
Definition build_results (st : LoopState) : BatchResult :=
  let sorted := PyList.sort_reverse cr_match_score (candidates st) in
  let shortlist := PyList.top_10_percent sorted in
  {| r_total_processed := total_processed (stats st);
     r_duplicates_skipped := duplicates_skipped (stats st);
     r_knocked_out := knocked_out (stats st);
     r_scored := scored (stats st);
     r_shortlisted_count := Z.of_nat (length shortlist);
     r_review_count := PyList.count (is_status review) sorted;
     r_rejected_count := PyList.count (is_status rejected) sorted;
     r_shortlisted := shortlist;
     r_all_candidates := sorted |}.

(** [process_resumes_background]: [None] is the failed job (the
    extraction service is unavailable or the job row is missing). *)
Definition process_resumes_background (ai_available job_found : bool)
    (db0 : list Applicant) (db_job_id company_id : Z) (title : string)
    (min_experience : Q) (required_skills : list string)
    (files : list ResumeFile) : option (BatchResult * LoopState) :=
  if negb ai_available then None
  else if negb job_found then None
  else
    let st :=
      fold_left (process_file db_job_id company_id title min_experience
                              required_skills)
                files
                (mkLoop db0 [] (mkStats 0 0 0 0 0 0 0) []) in
    Some (build_results st, st).

End Main.

(** ** routers/applicants.py: stages 3 and 4 of [apply_for_job] *)

Module Applicants.
Import PyStr PyNum AiEngine Store.

(** Stage 3 of [apply_for_job]; [min_experience] is the integer column
    [job.min_experience] and [required_skills] is
    [job.required_skills or []]. *)
Definition apply_for_job_knockout (total_years_experience : Q)
    (skills_with_years : PyDict.dict Q) (required_skills : list string)
    (min_experience : Z) : bool * Main.KnockoutReason :=
  let st0 := (false, Main.NoReason) in
  let st1 :=
    if Qltb total_years_experience (inject_Z min_experience - (1 # 2))%Q
    then (true, Main.InsufficientExperience total_years_experience
                  (inject_Z min_experience - (1 # 2))%Q)
    else st0 in
  if (negb (fst st1)
      && negb (Nat.eqb (length required_skills) 0))%bool
  then
    let candidate_skill_keys : gset string :=
      list_to_set (map lower (PyDict.keys skills_with_years)) in
    let required_lower := map lower required_skills in
    let matched_ko :=
      List.filter
        (fun s => existsb (fun k => (str_in s k || str_in k s)%bool)
                          (elements candidate_skill_keys))
        required_lower in
    let coverage :=
      (inject_Z (Z.of_nat (length matched_ko))
       / inject_Z (Z.of_nat (length required_lower)))%Q in
    if Qltb coverage (1 # 2)%Q
    then (true, Main.SkillFloorNotMet (length matched_ko)
                  (length required_lower))
    else st1
  else st1.

(** Stages 3 and 4 of [apply_for_job] for the extracted facts: the
    events and [(final_score, assessment_status, breakdown)]. *)
Definition apply_for_job_screen (candidate_data : CandidateFacts)
    (required_skills : list string) (min_experience : Z)
    (title : option string) (text : string)
    : list Event * (Z * Status * option ScoreBreakdown) :=
  let ko := apply_for_job_knockout
              (total_years_experience candidate_data)
              (skills_with_years candidate_data) required_skills
              min_experience in
  if fst ko
  then ([EvKnockoutFilter true], (0%Z, rejected, None))
  else
    let result :=
      calculate_deterministic_score candidate_data required_skills
        (inject_Z min_experience)
        (match title with Some t => t | None => "" end) text in
    ([EvKnockoutFilter false; EvScorer],
     (final_score result, status result, Some (breakdown result))).

End Applicants.

(** ** services/tasks.py: the queued per-resume task and the aggregation *)

Module Tasks.
Import PyStr PyNum AiEngine Store.

(** [x or d] on a nullable column. *)
Definition or_default {A} (x : option A) (d : A) : A :=
  match x with Some v => v | None => d end.

(** The sort key of [_build_results_payload]:
    [x.get("match_score") or 0]. *)
Definition sort_key (a : Applicant) : Z := or_default (a_match_score a) 0%Z.

Record Payload : Type := mkPayload {
  p_total_processed : Z;
  p_duplicates_skipped : Z;
  p_knocked_out : Z;
  p_scored : Z;
  p_shortlisted_count : Z;
  p_review_count : Z;
  p_rejected_count : Z;
  p_shortlisted : list Applicant;
  p_all_candidates : list Applicant
}.

(** [_build_results_payload(job, applicants)] (without the echoed
    [criteria]); each applicant row is copied field by field into
    [candidates]. *)
Definition _build_results_payload (job : Job)
    (applicants : list Applicant) : Payload :=
  let candidates := PyList.sort_reverse sort_key applicants in
  let shortlist := PyList.top_10_percent candidates in
  let processed := or_default (processed_resumes job) 0%Z in
  let total_saved := Z.of_nat (length candidates) in
  {| p_total_processed := total_saved;
     p_duplicates_skipped := Z.max 0 (processed - total_saved);
     p_knocked_out := 0;
     p_scored := total_saved;
     p_shortlisted_count := Z.of_nat (length shortlist);
     p_review_count :=
       PyList.count (fun c => String.eqb (a_status c) "review") candidates;
     p_rejected_count :=
       PyList.count (fun c => String.eqb (a_status c) "rejected")
                    candidates;
     p_shortlisted := shortlist;
     p_all_candidates := candidates |}.

(** [process_resume(file_path, job_id, company_id)], the task queued
    once per PDF by [bulk_screen_resumes].  [job] is the result of the
    job query, [text] the output of the PDF parser, [pre_scan_email]
    the result of the regex scan and [extraction] the outcome of
    [extract_candidate_facts(resume_text, job.jd_requirements)].  The
    task leaves [fail_on_unavailable] at its default [True], so in a
    worker without a model the call raises [AIServiceUnavailableError]
    ([None]); the task catches [IntegrityError] only, so the error
    leaves the task once the [finally] block has run, and nothing is
    scored or stored.  Returns the events and the new table.  The
    [finally] block advances the progress counter on every path, after
    the explicit advance of the two skip paths. *)
Definition process_resume_task (job : option Job) (db : list Applicant)
    (text : string) (pre_scan_email : option string)
    (extraction : option CandidateFacts) : list Event * list Applicant :=
  match job with
  | None => ([EvAdvanceProgress], db)
  | Some job =>
      if (negb (truthy text)
          || Nat.ltb (String.length (strip text)) 50)%bool
      then ([EvAdvanceProgress; EvAdvanceProgress], db)
      else if is_duplicate db (job_id job) pre_scan_email
      then (dedup_events pre_scan_email
            ++ [EvAdvanceProgress; EvAdvanceProgress], db)
      else
        match extraction with
        | None =>
            (dedup_events pre_scan_email
             ++ [EvExtractFacts; EvAdvanceProgress], db)
        | Some candidate_data =>
            let result :=
              calculate_deterministic_score candidate_data
                (or_default (job_required_skills job) [])
                (inject_Z (or_default (job_min_experience job) 0%Z))
                (or_default (job_title job) "") text in
            let applicant :=
              {| a_job_id := job_id job;
                 a_company_id := job_company_id job;
                 a_name := name candidate_data;
                 a_email := email candidate_data;
                 a_phone := phone candidate_data;
                 a_years_experience :=
                   int_of_float (total_years_experience candidate_data);
                 a_skills := skills_with_years candidate_data;
                 a_match_score := Some (final_score result);
                 a_status := status_str (status result);
                 a_breakdown := Some (breakdown result) |} in
            let evs := dedup_events pre_scan_email
                       ++ [EvExtractFacts; EvScorer] in
            match insert_applicant db applicant with
            | None => (evs ++ [EvPersistConflict; EvAdvanceProgress], db)
            | Some db' =>
                (evs ++ [EvPersist (final_score result)
                                   (status_str (status result));
                         EvAdvanceProgress], db')
            end
        end
  end.

(** The run of the task in which the extraction call returns
    [candidate_data]. *)
Definition process_resume (job : option Job) (db : list Applicant)
    (text : string) (pre_scan_email : option string)
    (candidate_data : CandidateFacts) : list Event * list Applicant :=
  process_resume_task job db text pre_scan_email (Some candidate_data).

End Tasks.

(** ** services/ai_engine.py: [extract_candidate_facts] *)

Module Extraction.
Import PyStr.

(** A value produced by [json.loads]. *)
Inductive Json : Type :=
| JNull
| JBool (b : bool)
| JInt (z : Z)
| JFloat (q : Q)
| JStr (s : string)
| JArr (items : list Json)
| JObj (fields : list (string * Json)).

(** Truthiness of a value, as tested by [x or default] and [bool(x)]. *)
Definition json_truthy (v : Json) : bool :=
  match v with
  | JNull => false
  | JBool b => b
  | JInt z => negb (Z.eqb z 0)
  | JFloat q => negb (Qeq_bool q 0)
  | JStr s => truthy s
  | JArr items => negb (Nat.eqb (length items) 0)
  | JObj fields => negb (Nat.eqb (length fields) 0)
  end.

(** [d.get(k) or default]. *)
Definition get_or (d : PyDict.dict Json) (k : string) (default : Json)
    : Json :=
  match PyDict.get k d with
  | Some v => if json_truthy v then v else default
  | None => default
  end.

(** [d.setdefault(k, v)]. *)
Definition setdefault (k : string) (v : Json) (d : PyDict.dict Json)
    : PyDict.dict Json :=
  if PyDict.mem k d then d else PyDict.set k v d.

(** [s.split(sep)] for a one-character separator; the result is never
    empty. *)
Fixpoint split_char (sep : ascii) (s : string) : list string :=
  match s with
  | EmptyString => [EmptyString]
  | String a s' =>
      if Ascii.eqb a sep then EmptyString :: split_char sep s'
      else match split_char sep s' with
           | w :: ws => String a w :: ws
           | [] => [String a EmptyString]
           end
  end.

Definition newline : ascii := ascii_of_nat 10.
Definition fence : string := "```".

(** [clean_json_string(text)]; [None] is the [IndexError] of
    [lines[-1]] on an empty list. *)
Definition clean_json_string (text : string) : option string :=
  let text := strip text in
  if String.prefix fence text then
    let lines := split_char newline text in
    let lines :=
      match lines with
      | l0 :: rest => if String.prefix fence l0 then rest else lines
      | [] => lines
      end in
    match lines with
    | [] => None
    | _ =>
        let lines :=
          if String.prefix fence (List.last lines EmptyString)
          then List.removelast lines else lines in
        Some (String.concat (String newline EmptyString) lines)
    end
  else Some text.

(** The dictionary returned on both silent failure paths. *)
Definition sentinel : PyDict.dict Json :=
  [ ("name", JStr "Unknown Candidate");
    ("email", JStr "unknown@error.com");
    ("phone", JStr "");
    ("total_years_experience", JFloat 0);
    ("recent_job_titles", JArr []);
    ("skills_with_years", JObj []);
    ("metrics_bullet_count", JInt 0) ].

Inductive Outcome : Type :=
| RaiseAIServiceUnavailable
| Return (data : PyDict.dict Json).

(** What [model.generate_content(...)] followed by [response.text]
    does: it raises, or yields the text of the response. *)
Inductive CallResult : Type :=
| CallRaises
| ResponseText (text : string).

Section WithBuiltins.

(** Python built-ins applied to strings and values: [json.loads]
    ([None] is [JSONDecodeError]), [float] and [int] on a string
    ([None] is [ValueError]), and [str] on a value that is not a
    string. *)
Variable json_loads : string -> option Json.
Variable float_of_str : string -> option Q.
Variable int_of_str : string -> option Z.
Variable str_of_value : Json -> string.

(** [float(v)]; [None] is [TypeError] or [ValueError]. *)
Definition py_float (v : Json) : option Q :=
  match v with
  | JBool b => Some (if b then 1%Q else 0%Q)
  | JInt z => Some (inject_Z z)
  | JFloat q => Some q
  | JStr s => float_of_str s
  | JNull | JArr _ | JObj _ => None
  end.

(** [int(v)]; [None] is [TypeError] or [ValueError]. *)
Definition py_int (v : Json) : option Z :=
  match v with
  | JBool b => Some (if b then 1%Z else 0%Z)
  | JInt z => Some z
  | JFloat q => Some (Store.int_of_float q)
  | JStr s => int_of_str s
  | JNull | JArr _ | JObj _ => None
  end.

(** [str(v)]. *)
Definition py_str (v : Json) : string :=
  match v with JStr s => s | _ => str_of_value v end.

(** [{k: float(v) for k, v in skills.items()}]. *)
Fixpoint float_values (acc skills : PyDict.dict Json)
    : option (PyDict.dict Json) :=
  match skills with
  | [] => Some acc
  | (k, v) :: rest =>
      q ← py_float v;
      float_values (PyDict.set k (JFloat q) acc) rest
  end.

(** The loop that keeps the three typed fields of every match that
    is a dictionary. *)
Definition sanitize_match (m : Json) : list Json :=
  match m with
  | JObj fields =>
      [JObj
         [ ("requirement",
            JStr (py_str (match PyDict.get "requirement" fields with
                          | Some v => v
                          | None => JStr ""
                          end)));
           ("is_met",
            JBool (match PyDict.get "is_met" fields with
                   | Some v => json_truthy v
                   | None => false
                   end));
           ("citation_quote",
            match PyDict.get "citation_quote" fields with
            | Some v => v
            | None => JNull
            end) ]]
  | _ => []
  end.

Definition sanitize_matches (data : PyDict.dict Json)
    : PyDict.dict Json :=
  if PyDict.mem "jd_requirement_matches" data then
    let matches :=
      match get_or data "jd_requirement_matches" (JArr []) with
      | JArr items => items
      | _ => []
      end in
    PyDict.set "jd_requirement_matches"
               (JArr (flat_map sanitize_match matches)) data
  else data.

(** The type sanitisation between [json.loads] and [return data];
    [None] is an exception raised on the way. *)
Definition sanitize (payload : Json) : option (PyDict.dict Json) :=
  match payload with
  | JObj data =>
      years ← py_float (get_or data "total_years_experience" (JInt 0));
      let data := PyDict.set "total_years_experience" (JFloat years)
                             data in
      let titles :=
        match get_or data "recent_job_titles" (JArr []) with
        | JArr items => JArr items
        | _ => JArr []
        end in
      let data := PyDict.set "recent_job_titles" titles data in
      let skills :=
        match get_or data "skills_with_years" (JObj []) with
        | JObj fields => fields
        | _ => []
        end in
      let data := PyDict.set "skills_with_years" (JObj skills) data in
      skills' ← float_values [] skills;
      let data := PyDict.set "skills_with_years" (JObj skills') data in
      bullets ← py_int (get_or data "metrics_bullet_count" (JInt 0));
      let data := PyDict.set "metrics_bullet_count" (JInt bullets)
                             data in
      let data := setdefault "name" (JStr "Unknown Candidate") data in
      let data := setdefault "email" (JStr "unknown@error.com") data in
      let data := setdefault "phone" (JStr "") data in
      Some (sanitize_matches data)
  | _ => None
  end.

(** The body of the [try] block: the call, the cleaning of the
    response, the parse and the sanitisation. *)
Definition try_extract (call : CallResult)
    : option (PyDict.dict Json) :=
  match call with
  | CallRaises => None
  | ResponseText text =>
      json_text ← clean_json_string text;
      payload ← json_loads json_text;
      sanitize payload
  end.

(** [extract_candidate_facts(resume_text, jd_requirements,
    fail_on_unavailable)]; [model_ready] tells whether [_get_model()]
    returned a model, and [call] is what the service does with the
    prompt. *)
Definition extract_candidate_facts (model_ready : bool)
    (fail_on_unavailable : bool) (call : CallResult) : Outcome :=
  if negb model_ready then
    if fail_on_unavailable then RaiseAIServiceUnavailable
    else Return sentinel
  else
    match try_extract call with
    | Some data => Return data
    | None => Return sentinel
    end.

End WithBuiltins.

End Extraction.

(** ** The verifier's counts as predicates on one match *)

Module VerifierSpec.
Import PyStr AiEngine.

(** A match the code counts as verified: claimed, with a citation that
    is neither null nor empty and occurs, normalised, in the normalised
    resume. *)
Definition verified_b (resume : string) (m : RequirementMatch) : bool :=
  (is_met m
   && match citation_quote m with
      | Some c => truthy c && str_in (normalize c) (normalize resume)
      | None => false
      end)%bool.

(** A match the code counts as a hallucination: claimed and not
    verified. *)
Definition hallucination_b (resume : string) (m : RequirementMatch)
    : bool :=
  (is_met m && negb (verified_b resume m))%bool.

(** The verified test in the words of the specification: claimed,
    with a non-null citation that occurs, normalised, in the
    normalised resume. *)
Definition spec_verified_b (resume : string) (m : RequirementMatch)
    : bool :=
  (is_met m
   && match citation_quote m with
      | Some c => str_in (normalize c) (normalize resume)
      | None => false
      end)%bool.

Definition b2z (b : bool) : Z := if b then 1%Z else 0%Z.

End VerifierSpec.

(** ** The skill floor as a count over the required skills *)

Module KnockoutSpec.
Import PyStr AiEngine.

(** A required skill is covered when, lower-cased, it is a substring of
    some lower-cased skill key of the candidate, or some such key is a
    substring of it. *)
Definition covered (skills_with_years : PyDict.dict Q) (r : string)
    : bool :=
  existsb (fun k => substring_either (lower r) (lower k))
          (PyDict.keys skills_with_years).

Definition matched_count (skills_with_years : PyDict.dict Q)
    (required_skills : list string) : nat :=
  length (List.filter (covered skills_with_years) required_skills).

(** [matched_count / required_count]. *)
Definition covered_fraction (skills_with_years : PyDict.dict Q)
    (required_skills : list string) : Q :=
  (inject_Z (Z.of_nat (matched_count skills_with_years required_skills))
   / inject_Z (Z.of_nat (length required_skills)))%Q.

End KnockoutSpec.

(** ** Rounding as the specification words it *)

Module ScorerSpec.


(** A depth: a rational between 0 and 1. *)
Definition in01 (q : Q) : Prop := (0 <= q)%Q /\ (q <= 1)%Q.

End ScorerSpec.

(** ** What a fully sanitised extraction result looks like *)

Module ExtractionSpec.
Import Extraction.

Definition is_float (v : Json) : bool :=
  match v with JFloat _ => true | _ => false end.

(** The typed fields are all in place: a float for the years, a list
    of titles, a mapping to floats for the skills, an integer bullet
    count, and the three identity keys. *)
Definition well_sanitized (data : PyDict.dict Json) : Prop :=
  (exists q, PyDict.get "total_years_experience" data = Some (JFloat q))
  /\ (exists items,
        PyDict.get "recent_job_titles" data = Some (JArr items))
  /\ (exists fields,
        PyDict.get "skills_with_years" data = Some (JObj fields)
        /\ Forall (fun kv => is_float (snd kv) = true) fields)
  /\ (exists z, PyDict.get "metrics_bullet_count" data = Some (JInt z))
  /\ PyDict.mem "name" data = true
  /\ PyDict.mem "email" data = true
  /\ PyDict.mem "phone" data = true.

(** A response wrapped in a Markdown fence, and built-ins that parse
    nothing: enough to run the failure paths. *)
Definition no_json (s : string) : option Json := None.
Definition no_float (s : string) : option Q := None.
Definition no_int (s : string) : option Z := None.
Definition any_str (v : Json) : string := "".

(** A parser that knows one payload. *)
Definition one_json (s : string) : option Json :=
  if String.eqb s "{}" then Some (JObj []) else None.

End ExtractionSpec.

(** ** Concrete inputs *)

Module Examples.
Import AiEngine Store.

(** Scenario A of the specification and of the unit tests. *)
Definition perfect_candidate : CandidateFacts :=
  {| name := "Alice"; email := "alice@example.com"; phone := "";
     total_years_experience := 5;
     recent_job_titles := ["Backend Engineer"];
     skills_with_years :=
       [("python", 5%Q); ("fastapi", 5%Q); ("postgresql", 5%Q)];
     metrics_bullet_count := 5;
     jd_requirement_matches :=
       [mkMatch "Must have Python experience" true
                (Some "5 years Python")] |}.

Definition perfect_resume : string :=
  "Candidate has 5 years Python and strong backend ownership.".

(** Four years of experience for a four-year job, the one required
    skill held for a quarter of a year: the components are 2.5, 0, 20
    and 0. *)
Definition tie_candidate : CandidateFacts :=
  {| name := "Tia"; email := "tia@example.com"; phone := "";
     total_years_experience := 4;
     recent_job_titles := [];
     skills_with_years := [("Python", (1 # 4)%Q)];
     metrics_bullet_count := 0;
     jd_requirement_matches := [] |}.


(** Half a year of experience for a five-year job (scenario B). *)
Definition rookie_candidate : CandidateFacts :=
  {| name := "Bob"; email := "bob.rookie@example.com"; phone := "";
     total_years_experience := 1 # 2;
     recent_job_titles := ["Intern"];
     skills_with_years := [("Python", (1 # 2)%Q)];
     metrics_bullet_count := 0;
     jd_requirement_matches := [] |}.

Definition rookie_resume : string :=
  "Bob Rookie <bob.rookie@example.com> Six months as intern using Python.".

(** Unrelated skills with enough experience (scenario C), five
    quantified bullets and one citation found in the resume. *)
Definition designer_candidate : CandidateFacts :=
  {| name := "Carol"; email := "carol.designer@example.com"; phone := "";
     total_years_experience := 6;
     recent_job_titles := ["Designer"];
     skills_with_years := [("Photoshop", 6%Q); ("Illustrator", 6%Q)];
     metrics_bullet_count := 5;
     jd_requirement_matches :=
       [mkMatch "Must have 3 years of experience" true
                (Some "six years as designer")] |}.

Definition designer_resume : string :=
  "Carol Designer <carol.designer@example.com> Six years as designer.".

Definition backend_job : Job :=
  {| job_id := 14; job_company_id := 1;
     job_title := Some "Backend Engineer";
     job_min_experience := Some 5%Z;
     job_required_skills := Some ["Python"; "FastAPI"; "PostgreSQL"];
     jd_requirements := Some ["Must have 3 years of experience"];
     processed_resumes := Some 0%Z |}.

(** A persisted applicant of job 14 with the given e-mail and score. *)
Definition applicant_scored (e : string) (score : option Z) : Applicant :=
  {| a_job_id := 14; a_company_id := 1; a_name := e; a_email := e;
     a_phone := ""; a_years_experience := 3; a_skills := [];
     a_match_score := score; a_status := "review";
     a_breakdown := None |}.

Definition three_applicants : list Applicant :=
  [applicant_scored "a" (Some 61%Z); applicant_scored "b" None;
   applicant_scored "c" (Some 75%Z)].

End Examples.

(** ** Auxiliary notions for the properties of the pipeline *)

Module PipelineSpec.
Import PyStr AiEngine Store.

(** The matcher found a key. *)
Definition matches (d : PyDict.dict Q) (s : string) : bool :=
  match fst (_fuzzy_match_skill s d) with
  | Some _ => true
  | None => false
  end.

(** A string made of white space only. *)
Fixpoint all_space (s : string) : bool :=
  match s with
  | EmptyString => true
  | String c s' => (is_space c && all_space s')%bool
  end.

(** [{f(k): v for k, v in d.items()}] read as a list of pairs, without
    merging the keys that collide. *)
Definition rename_keys {V} (f : string -> string) (d : PyDict.dict V)
    : PyDict.dict V :=
  map (fun kv => (f (fst kv), snd kv)) d.

(** The pair the constraint [uq_applicants_job_email] is about. *)
Definition job_email (a : Applicant) : Z * string :=
  (a_job_id a, a_email a).

(** No two rows share a job and an e-mail. *)
Definition unique_job_email (db : list Applicant) : Prop :=
  List.NoDup (map job_email db).

(** The candidate with another list of requirement matches. *)
Definition set_matches (c : CandidateFacts) (ms : list RequirementMatch)
    : CandidateFacts :=
  {| name := name c; email := email c; phone := phone c;
     total_years_experience := total_years_experience c;
     recent_job_titles := recent_job_titles c;
     skills_with_years := skills_with_years c;
     metrics_bullet_count := metrics_bullet_count c;
     jd_requirement_matches := ms |}.

(** The candidate with another skill dictionary. *)
Definition set_skills (c : CandidateFacts) (d : PyDict.dict Q)
    : CandidateFacts :=
  {| name := name c; email := email c; phone := phone c;
     total_years_experience := total_years_experience c;
     recent_job_titles := recent_job_titles c;
     skills_with_years := d;
     metrics_bullet_count := metrics_bullet_count c;
     jd_requirement_matches := jd_requirement_matches c |}.

Definition is_progress (e : Event) : bool :=
  match e with EvAdvanceProgress => true | _ => false end.

Definition is_conflict (e : Event) : bool :=
  match e with EvPersistConflict => true | _ => false end.

Definition is_extract (e : Event) : bool :=
  match e with EvExtractFacts => true | _ => false end.

(** What the loop keeps true after [n] files, for a table that had
    [n0] rows at the start. *)
Definition loop_invariant (n0 n : nat) (st : Main.LoopState) : Prop :=
  let s := Main.stats st in
  Main.total_processed s = Z.of_nat (length (Main.candidates st))
  /\ length (Main.db st) = n0 + length (Main.candidates st)
  /\ PyList.count is_progress (Main.trace st) = Z.of_nat n
  /\ (Main.knocked_out s + Main.scored s
      = Main.total_processed s + PyList.count is_conflict (Main.trace st))%Z
  /\ PyList.count is_extract (Main.trace st)
     = (Main.knocked_out s + Main.scored s)%Z
  /\ (0 <= Main.duplicates_skipped s)%Z
  /\ (Main.total_processed s + Main.duplicates_skipped s
      + PyList.count is_conflict (Main.trace st) <= Z.of_nat n)%Z.

End PipelineSpec.

(** ** services/job_tracker.py: the in-memory job tracker *)

Module JobTracker.
Import PyStr.

Inductive JobStatus : Type := PENDING | PROCESSING | COMPLETED | FAILED.

(** The value of the enumeration member. *)
Definition status_value (s : JobStatus) : string :=
  match s with
  | PENDING => "pending"
  | PROCESSING => "processing"
  | COMPLETED => "completed"
  | FAILED => "failed"
  end.

(** The dictionary kept for one job.  A time stamp is the clock reading
    in microseconds that [isoformat] writes and [fromisoformat] reads
    back. *)
Record TrackedJob : Type := mkTracked {
  id : string;
  company_id : Z;
  status : JobStatus;
  total_resumes : Z;
  processed : Z;
  created_at : Z;
  updated_at : Z;
  results : option Main.BatchResult;
  error : option string
}.

(** [self.jobs]. *)
Definition Jobs : Type := PyDict.dict TrackedJob.

(** [del d[k]] for a key of the dictionary. *)
Definition del {V} (k : string) (d : PyDict.dict V) : PyDict.dict V :=
  List.filter (fun kv => negb (String.eqb (fst kv) k)) d.

(** [create_job(total_resumes, company_id)]; [job_id] is the UUID drawn
    and [now1], [now2] are the two readings of the clock. *)
Definition create_job (jobs : Jobs) (job_id : string) (now1 now2 : Z)
    (total : Z) (company : Z) : string * Jobs :=
  (job_id,
   PyDict.set job_id
     {| id := job_id; company_id := company; status := PENDING;
        total_resumes := total; processed := 0;
        created_at := now1; updated_at := now2;
        results := None; error := None |}
     jobs).

(** Truthiness of the optional [error] argument. *)
Definition error_given (e : option string) : bool :=
  match e with Some s => truthy s | None => false end.

(** [update_status(job_id, status, error)]. *)
Definition update_status (jobs : Jobs) (job_id : string) (s : JobStatus)
    (err : option string) (now : Z) : Jobs :=
  match PyDict.get job_id jobs with
  | Some j =>
      PyDict.set job_id
        {| id := id j; company_id := company_id j; status := s;
           total_resumes := total_resumes j; processed := processed j;
           created_at := created_at j; updated_at := now;
           results := results j;
           error := if error_given err then err else error j |}
        jobs
  | None => jobs
  end.

(** [update_progress(job_id, processed)]. *)
Definition update_progress (jobs : Jobs) (job_id : string) (n : Z)
    (now : Z) : Jobs :=
  match PyDict.get job_id jobs with
  | Some j =>
      PyDict.set job_id
        {| id := id j; company_id := company_id j; status := status j;
           total_resumes := total_resumes j; processed := n;
           created_at := created_at j; updated_at := now;
           results := results j; error := error j |}
        jobs
  | None => jobs
  end.

(** [set_results(job_id, results)]. *)
Definition set_results (jobs : Jobs) (job_id : string)
    (r : Main.BatchResult) (now : Z) : Jobs :=
  match PyDict.get job_id jobs with
  | Some j =>
      PyDict.set job_id
        {| id := id j; company_id := company_id j; status := COMPLETED;
           total_resumes := total_resumes j; processed := processed j;
           created_at := created_at j; updated_at := now;
           results := Some r; error := error j |}
        jobs
  | None => jobs
  end.

(** [get_job(job_id, company_id)]. *)
Definition get_job (jobs : Jobs) (job_id : string) (company : option Z)
    : option TrackedJob :=
  match PyDict.get job_id jobs, company with
  | Some j, Some c => if Z.eqb (company_id j) c then Some j else None
  | job, _ => job
  end.

(** [timedelta(hours=h)] in microseconds. *)
Definition hours (h : Z) : Z := (h * 3600000000)%Z.

Definition too_old (now max_age_hours : Z) (j : TrackedJob) : bool :=
  (hours max_age_hours <? now - created_at j)%Z.

(** [cleanup_old_jobs(max_age_hours)]: the number of jobs removed and
    the remaining ones. *)
Definition cleanup_old_jobs (jobs : Jobs) (now max_age_hours : Z)
    : Z * Jobs :=
  let to_remove :=
    map fst (List.filter (fun kv => too_old now max_age_hours (snd kv))
                         jobs) in
  (Z.of_nat (length to_remove),
   fold_left (fun d k => del k d) to_remove jobs).

(** [get_company_jobs(company_id)]. *)
Definition get_company_jobs (jobs : Jobs) (company : Z)
    : list TrackedJob :=
  map snd (List.filter (fun kv => Z.eqb (company_id (snd kv)) company)
                       jobs).

End JobTracker.

(** ** services/ai_engine.py: the lazily initialised model *)

Module VertexModel.
Import PyStr.

(** The two module-level variables [_model] and [_vertex_init_error];
    a model is represented by its name. *)
Record State : Type := mkState {
  _model : option string;
  _vertex_init_error : option string
}.

Definition initial : State := mkState None None.

Definition missing_project : string :=
  String.append
    "GCP_PROJECT_ID not found in environment variables or .env file. "
    "AI extraction is unavailable.".

(** [_get_model()]: [project_id] is the module constant ([None] or the
    empty string when it is not configured) and [init] is what
    [vertexai.init] and the model constructor do when they are tried:
    [None] when they succeed, the text of the exception otherwise. *)
Definition _get_model (project_id : option string) (init : option string)
    (st : State) : option string * State :=
  match _model st with
  | Some m => (Some m, st)
  | None =>
      match _vertex_init_error st with
      | Some _ => (None, st)
      | None =>
          if negb (match project_id with
                   | Some p => truthy p
                   | None => false
                   end)
          then (None, mkState (_model st) (Some missing_project))
          else
            match init with
            | None =>
                (Some "gemini-2.0-flash-001",
                 mkState (Some "gemini-2.0-flash-001")
                         (_vertex_init_error st))
            | Some exc =>
                (None,
                 mkState (_model st)
                   (Some (String.append "Vertex AI initialization failed: "
                                        exc)))
            end
      end
  end.

(** [is_ai_available()]. *)
Definition is_ai_available (project_id init : option string) (st : State)
    : bool * State :=
  match _get_model project_id init st with
  | (Some _, st') => (true, st')
  | (None, st') => (false, st')
  end.

(** [get_ai_unavailable_reason()]. *)
Definition get_ai_unavailable_reason (project_id init : option string)
    (st : State) : option string * State :=
  let st' := snd (_get_model project_id init st) in
  (_vertex_init_error st', st').

End VertexModel.

(** ** services/ai_engine.py: [extract_jd_requirements] *)

Module JdExtraction.
Import PyStr Extraction.

(** [[str(req) for req in requirements if req and isinstance(req, str)]]. *)
Definition keep_strings (requirements : list Json) : list string :=
  flat_map (fun req =>
              match req with
              | JStr s => if truthy s then [s] else []
              | _ => []
              end)
           requirements.

(** [extract_jd_requirements(jd_text)]: the empty list when there is no
    model, when the call or the parse raises, and when the payload is
    not a list. *)
Definition extract_jd_requirements (json_loads : string -> option Json)
    (model_ready : bool) (call : CallResult) : list string :=
  if negb model_ready then []
  else
    match call with
    | CallRaises => []
    | ResponseText text =>
        match clean_json_string text with
        | None => []
        | Some json_text =>
            match json_loads json_text with
            | Some (JArr requirements) => keep_strings requirements
            | Some _ => []
            | None => []
            end
        end
    end.

End JdExtraction.

(** ** main.py: the form fields of [bulk_screen_resumes] *)

Module BulkScreen.
Import PyStr.

Definition comma : ascii := ascii_of_nat 44.

(** [[s.strip() for s in required_skills.split(",") if s.strip()]]. *)
Definition skills_list (required_skills : string) : list string :=
  flat_map (fun s => if truthy (strip s) then [strip s] else [])
           (Extraction.split_char comma required_skills).

(** [int(min_experience)]. *)
Definition normalized_min_experience (min_experience : Q) : Z :=
  Store.int_of_float min_experience.

End BulkScreen.

(** ** Auxiliary notions on strings *)

Module StringSpec.

(** The character occurs in the string. *)
Fixpoint contains_char (c : ascii) (s : string) : bool :=
  match s with
  | EmptyString => false
  | String a s' => (Ascii.eqb a c || contains_char c s')%bool
  end.

(** The keys that the sanitisation of the extraction result writes. *)
Definition typed_keys : list string :=
  ["total_years_experience"; "recent_job_titles"; "skills_with_years";
   "metrics_bullet_count"; "name"; "email"; "phone";
   "jd_requirement_matches"].

End StringSpec.

(** ** Words *)

Module WordSpec.
Import PyStr.

(** No character of the string is white space. *)
Fixpoint space_free (s : string) : bool :=
  match s with
  | EmptyString => true
  | String c s' => (negb (is_space c) && space_free s')%bool
  end.

(** A word: non-empty and free of white space. *)
Definition is_word (s : string) : bool := (truthy s && space_free s)%bool.

End WordSpec.

(** ** routers/public.py: the sliding-window rate limit *)

Module PublicPortal.
Import PyStr PyNum.

Definition PUBLIC_APPLY_WINDOW_SECONDS : Z := 60.
Definition PUBLIC_APPLY_LIMIT_PER_IP : Z := 20.
Definition PUBLIC_APPLY_LIMIT_PER_EMAIL : Z := 5.

(** The loop [while samples and (now - samples[0]) > window_seconds:
    samples.popleft()]. *)
Fixpoint drop_expired (now window : Q) (samples : list Q) : list Q :=
  match samples with
  | [] => []
  | s :: rest =>
      if Qltb window (now - s) then drop_expired now window rest
      else samples
  end.

(** [_is_rate_limited(bucket, key, limit, window_seconds)] at clock
    reading [now]: the answer and the bucket afterwards.  [bucket] is a
    [defaultdict], so the key is there afterwards in any case. *)
Definition _is_rate_limited (bucket : PyDict.dict (list Q)) (key : string)
    (limit window_seconds : Z) (now : Q) : bool * PyDict.dict (list Q) :=
  let samples :=
    drop_expired now (inject_Z window_seconds)
      (match PyDict.get key bucket with
       | Some samples => samples
       | None => []
       end) in
  if (limit <=? Z.of_nat (length samples))%Z
  then (true, PyDict.set key samples bucket)
  else (false, PyDict.set key (samples ++ [now]) bucket).

(** [normalized_email = (email or "").strip().lower()]. *)
Definition normalized_email (email : string) : string :=
  lower (strip email).

(** A sample still inside the window. *)
Definition recent (now window : Q) (s : Q) : bool :=
  negb (Qltb window (now - s)).

End PublicPortal.

(** ** services/tasks.py: the task of the public careers portal *)

Module PublicTask.
Import PyStr PyNum AiEngine Store.

(** The events of the per-resume code, and the increment of the job's
    [application_count]. *)
Inductive PublicEvent : Type :=
| Base (e : Event)
| EvCountApplication.

Definition unreadable : string := "Unable to extract text from resume.".

(** Truthiness of [s and s.strip()]. *)
Definition given (s : string) : bool := (truthy s && truthy (strip s))%bool.

(** [process_public_resume(file_path, job_id, company_id, submitted_name,
    submitted_email, submitted_phone, ...)]: [job] is the result of the
    job query, [text] the output of the PDF parser and [extract] the
    outcome of [extract_candidate_facts(resume_text,
    job.jd_requirements)] on a text.  The task leaves
    [fail_on_unavailable] at its default [True], so in a worker without
    a model the call raises [AIServiceUnavailableError] ([None]); the
    task catches [IntegrityError] only, so the error leaves the task
    with nothing scored, stored or counted.  The columns
    [linkedin_url], [portfolio_url] and [custom_answers] are copied
    from the arguments and are not part of [Applicant]. *)
Definition process_public_resume (job : option Job) (db : list Applicant)
    (text submitted_name submitted_email : string)
    (submitted_phone : option string)
    (extract : string -> option CandidateFacts)
    : list PublicEvent * list Applicant :=
  match job with
  | None => ([], db)
  | Some job =>
      let resume_text :=
        if (negb (truthy text)
            || Nat.ltb (String.length (strip text)) 50)%bool
        then unreadable else text in
      match find_applicant db (job_id job) submitted_email with
      | Some _ => ([Base EvDedupLookup], db)
      | None =>
          match extract resume_text with
          | None => ([Base EvDedupLookup; Base EvExtractFacts], db)
          | Some facts =>
              let new_name :=
                if given submitted_name then strip submitted_name
                else name facts in
              let new_email := lower (strip submitted_email) in
              let new_phone :=
                match submitted_phone with
                | Some p => if given p then strip p else phone facts
                | None => phone facts
                end in
              let candidate_data :=
                {| name := new_name; email := new_email;
                   phone := new_phone;
                   total_years_experience := total_years_experience facts;
                   recent_job_titles := recent_job_titles facts;
                   skills_with_years := skills_with_years facts;
                   metrics_bullet_count := metrics_bullet_count facts;
                   jd_requirement_matches :=
                     jd_requirement_matches facts |} in
              let result :=
                calculate_deterministic_score candidate_data
                  (Tasks.or_default (job_required_skills job) [])
                  (inject_Z (Tasks.or_default (job_min_experience job) 0%Z))
                  (Tasks.or_default (job_title job) "") resume_text in
              let applicant :=
                {| a_job_id := job_id job;
                   a_company_id := job_company_id job;
                   a_name := name candidate_data;
                   a_email := email candidate_data;
                   a_phone := phone candidate_data;
                   a_years_experience :=
                     int_of_float (total_years_experience candidate_data);
                   a_skills := skills_with_years candidate_data;
                   a_match_score := Some (final_score result);
                   a_status := status_str (status result);
                   a_breakdown := Some (breakdown result) |} in
              let evs := [Base EvDedupLookup; Base EvExtractFacts;
                          Base EvScorer] in
              match insert_applicant db applicant with
              | None => (evs ++ [Base EvPersistConflict], db)
              | Some db' =>
                  (evs ++ [Base (EvPersist (final_score result)
                                           (status_str (status result)));
                           EvCountApplication], db')
              end
          end
      end
  end.

End PublicTask.

(** * Properties *)

(** ** Numbers *)

Module PyNumFacts.
Import PyNum.

Lemma Qltb_lt (x y : Q) : Qltb x y = true <-> (x < y)%Q.
Proof.
  unfold Qltb. rewrite negb_true_iff.
  destruct (Qle_bool y x) eqn:E.
  - apply Qle_bool_iff in E. split; [discriminate | intros H; lra].
  - split; [intros _ | reflexivity].
    apply Qnot_le_lt. intros H. apply Qle_bool_iff in H. congruence.
Qed.

Lemma Qltb_ge (x y : Q) : Qltb x y = false <-> (y <= x)%Q.
Proof.
  unfold Qltb. rewrite negb_false_iff. apply Qle_bool_iff.
Qed.

Lemma py_max_spec (a b : Q) :
  (a <= py_max a b)%Q /\ (b <= py_max a b)%Q.
Proof.
  unfold py_max. destruct (Qltb a b) eqn:E.
  - apply Qltb_lt in E. lra.
  - apply Qltb_ge in E. lra.
Qed.

Lemma py_min_spec (a b : Q) :
  (py_min a b <= a)%Q /\ (py_min a b <= b)%Q
  /\ (py_min a b == a \/ py_min a b == b)%Q.
Proof.
  unfold py_min. destruct (Qltb b a) eqn:E.
  - apply Qltb_lt in E. repeat split; lra.
  - apply Qltb_ge in E. repeat split; lra.
Qed.

Lemma py_min_bounds (a b lo : Q) :
  (lo <= a)%Q -> (lo <= b)%Q -> (lo <= py_min a b <= a)%Q.
Proof.
  intros Ha Hb. destruct (py_min_spec a b) as (H1 & H2 & [H3 | H3]); lra.
Qed.

Lemma inject_Z_succ (z : Z) : (inject_Z (z + 1) == inject_Z z + 1)%Q.
Proof. rewrite inject_Z_plus. reflexivity. Qed.

(** The fractional part seen by [py_round]. *)
Lemma frac_bounds (x : Q) :
  (0 <= x - inject_Z (Qfloor x))%Q /\ (x - inject_Z (Qfloor x) < 1)%Q.
Proof.
  pose proof (Qfloor_le x) as Hlo. pose proof (Qlt_floor x) as Hhi.
  rewrite inject_Z_succ in Hhi. split; lra.
Qed.

(** [round] moves its argument by at most one half. *)
Lemma py_round_near (x : Q) :
  (inject_Z (py_round x) - (1 # 2) <= x)%Q
  /\ (x <= inject_Z (py_round x) + (1 # 2))%Q.
Proof.
  destruct (frac_bounds x) as [Hlo Hhi]. unfold py_round.
  destruct (Qcompare_spec (x - inject_Z (Qfloor x)) (1 # 2)) as [E | E | E].
  - destruct (Z.even (Qfloor x)).
    + split; lra.
    + rewrite inject_Z_succ. split; lra.
  - split; lra.
  - rewrite inject_Z_succ. split; lra.
Qed.

(** An integer interval that contains [x] contains [round(x)]. *)
Lemma py_round_between (x : Q) (lo hi : Z) :
  (inject_Z lo <= x)%Q -> (x <= inject_Z hi)%Q ->
  (lo <= py_round x <= hi)%Z.
Proof.
  intros Hlo Hhi. destruct (py_round_near x) as [H1 H2].
  split.
  - assert (H : (inject_Z lo < inject_Z (py_round x + 1))%Q).
    { rewrite inject_Z_succ. lra. }
    rewrite <- Zlt_Qlt in H. lia.
  - assert (H : (inject_Z (py_round x) < inject_Z (hi + 1))%Q).
    { rewrite inject_Z_succ. lra. }
    rewrite <- Zlt_Qlt in H. lia.
Qed.


(** Two reals at distance below one round to integers at distance at
    most one... stated for the sum of four one-decimal roundings. *)
Lemma py_round1_near (x : Q) :
  (py_round1 x - (1 # 20) <= x)%Q /\ (x <= py_round1 x + (1 # 20))%Q.
Proof.
  unfold py_round1. destruct (py_round_near (x * 10)) as [H1 H2].
  set (r := inject_Z (py_round (x * 10))) in *.
  assert (E : (r / 10 == r * (1 # 10))%Q) by (unfold Qdiv; reflexivity).
  rewrite E. split; lra.
Qed.

End PyNumFacts.

(** ** Strings and dictionaries *)

Module PyStrFacts.
Import PyStr.

Lemma prefix_refl (s : string) : String.prefix s s = true.
Proof.
  induction s as [| a s IH]; simpl; [reflexivity |].
  destruct (ascii_dec a a) as [_ | N]; [exact IH | contradiction].
Qed.

Lemma prefix_empty (s : string) : String.prefix EmptyString s = true.
Proof. destruct s; reflexivity. Qed.

(** Every string occurs in itself. *)
Lemma str_in_refl (s : string) : str_in s s = true.
Proof.
  destruct s as [| a s]; [reflexivity |].
  cbn [str_in]. rewrite prefix_refl. reflexivity.
Qed.

(** The empty string occurs in every string. *)
Lemma str_in_empty (s : string) : str_in EmptyString s = true.
Proof.
  destruct s; cbn [str_in]; rewrite prefix_empty; reflexivity.
Qed.

Lemma lower_ascii_idem (c : ascii) :
  lower_ascii (lower_ascii c) = lower_ascii c.
Proof.
  destruct c as [[] [] [] [] [] [] [] []]; vm_compute; reflexivity.
Qed.

Lemma lower_idem (s : string) : lower (lower s) = lower s.
Proof.
  induction s as [| c s IH]; simpl; [reflexivity |].
  rewrite lower_ascii_idem, IH. reflexivity.
Qed.

Lemma truthy_nonempty (s : string) : truthy s = true <-> s <> EmptyString.
Proof.
  destruct s; simpl; split; try congruence; try discriminate.
  reflexivity.
Qed.

End PyStrFacts.

Module PyDictFacts.

Lemma get_in_keys {V} (k : string) (d : PyDict.dict V) (v : V) :
  PyDict.get k d = Some v -> In k (PyDict.keys d).
Proof.
  induction d as [| [k' v'] d IH]; simpl; [discriminate |].
  destruct (String.eqb k k') eqn:E.
  - apply String.eqb_eq in E. intros _. left. symmetry. exact E.
  - intros H. right. apply IH. exact H.
Qed.

Lemma get_in_values {V} (k : string) (d : PyDict.dict V) (v : V) :
  PyDict.get k d = Some v -> In v (map snd d).
Proof.
  induction d as [| [k' v'] d IH]; simpl; [discriminate |].
  destruct (String.eqb k k').
  - intros [= <-]. left. reflexivity.
  - intros H. right. apply IH. exact H.
Qed.

Lemma keys_set {V} (k k0 : string) (v : V) (d : PyDict.dict V) :
  In k0 (PyDict.keys (PyDict.set k v d))
  <-> k0 = k \/ In k0 (PyDict.keys d).
Proof.
  induction d as [| [k' v'] d IH]; simpl.
  - intuition.
  - destruct (String.eqb k k') eqn:E; simpl.
    + apply String.eqb_eq in E. subst k'. intuition.
    + rewrite IH. intuition.
Qed.

Lemma values_set {V} (k : string) (v v0 : V) (d : PyDict.dict V) :
  In v0 (map snd (PyDict.set k v d)) -> v0 = v \/ In v0 (map snd d).
Proof.
  induction d as [| [k' v'] d IH]; simpl.
  - intuition.
  - destruct (String.eqb k k'); simpl; intuition.
Qed.

Lemma keys_fold_set {V} (f : string -> string) (d acc : PyDict.dict V)
    (k0 : string) :
  In k0 (PyDict.keys
           (fold_left (fun a kv => PyDict.set (f (fst kv)) (snd kv) a)
                      d acc))
  <-> In k0 (map f (PyDict.keys d)) \/ In k0 (PyDict.keys acc).
Proof.
  revert acc. induction d as [| [k v] d IH]; intros acc; simpl.
  - intuition.
  - rewrite IH, keys_set. simpl. intuition.
Qed.

(** The keys of [{f(k): v ...}] are the images of the keys. *)
Lemma keys_map_keys {V} (f : string -> string) (d : PyDict.dict V)
    (k0 : string) :
  In k0 (PyDict.keys (PyDict.map_keys f d))
  <-> In k0 (map f (PyDict.keys d)).
Proof.
  unfold PyDict.map_keys. rewrite keys_fold_set. simpl. intuition.
Qed.

Lemma values_fold_set {V} (f : string -> string) (d acc : PyDict.dict V)
    (v0 : V) :
  In v0 (map snd
           (fold_left (fun a kv => PyDict.set (f (fst kv)) (snd kv) a)
                      d acc))
  -> In v0 (map snd d) \/ In v0 (map snd acc).
Proof.
  revert acc. induction d as [| [k v] d IH]; intros acc; simpl.
  - intuition.
  - intros H. apply IH in H. destruct H as [H | H]; [intuition |].
    apply values_set in H. simpl in H. intuition.
Qed.

(** The values of [{f(k): v ...}] are values of the original. *)
Lemma values_map_keys {V} (f : string -> string) (d : PyDict.dict V)
    (v0 : V) :
  In v0 (map snd (PyDict.map_keys f d)) -> In v0 (map snd d).
Proof.
  unfold PyDict.map_keys. intros H. apply values_fold_set in H.
  simpl in H. intuition.
Qed.

End PyDictFacts.

(** ** The fuzzy matcher and the knockout membership test *)

Module MatcherFacts.
Import PyStr PyNum AiEngine PyStrFacts PyDictFacts.

Lemma bool_eq_iff (a b : bool) : (a = true <-> b = true) -> a = b.
Proof. destruct a, b; intuition congruence. Qed.

(** The membership test over the key set, as an existential. *)
Lemma skill_present_iff (keys : gset string) (s : string) :
  Main.skill_present keys s = true
  <-> exists k, k ∈ keys /\ substring_either s k = true.
Proof.
  unfold Main.skill_present, substring_either. rewrite existsb_exists.
  split; intros (k & Hk & Hs); exists k; split; try exact Hs.
  - apply elem_of_elements, list_elem_of_In. exact Hk.
  - apply list_elem_of_In, elem_of_elements. exact Hk.
Qed.

(** Over the set built from a list of keys, the test is the test over
    the list: neither order nor repetition matters. *)
Lemma skill_present_list (l : list string) (s : string) :
  Main.skill_present (list_to_set l) s = existsb (substring_either s) l.
Proof.
  apply bool_eq_iff. rewrite skill_present_iff, existsb_exists.
  split; intros (k & Hk & Hs); exists k; split; try exact Hs.
  - apply list_elem_of_In. apply elem_of_list_to_set in Hk. exact Hk.
  - apply elem_of_list_to_set, list_elem_of_In. exact Hk.
Qed.

Lemma find_some_key (s : string) (d : PyDict.dict Q) :
  (exists kv, find (fun kv => substring_either s (fst kv)) d = Some kv)
  <-> existsb (substring_either s) (PyDict.keys d) = true.
Proof.
  induction d as [| [k v] d IH]; simpl.
  - split; [intros (kv & H); discriminate | discriminate].
  - destruct (substring_either s k); simpl.
    + split; [reflexivity | intros _; eexists; reflexivity].
    + exact IH.
Qed.

(** The matcher finds a key exactly when some key of the dictionary
    contains the lower-cased skill or is contained in it. *)
Lemma fuzzy_match_some (required : string) (d : PyDict.dict Q) :
  fst (_fuzzy_match_skill required d) <> None
  <-> existsb (substring_either (lower required)) (PyDict.keys d) = true.
Proof.
  unfold _fuzzy_match_skill.
  destruct (PyDict.get (lower required) d) as [y |] eqn:G; simpl.
  - split; [intros _ | discriminate].
    apply existsb_exists. exists (lower required). split.
    + eapply get_in_keys. exact G.
    + unfold substring_either. rewrite str_in_refl. reflexivity.
  - rewrite <- find_some_key.
    destruct (find _ d) as [[k y] |]; simpl.
    + split; [intros _; eexists; reflexivity | discriminate].
    + split; [congruence | intros (kv & H); discriminate].
Qed.

(** The years returned by the matcher are [0.0] or a value of the
    dictionary. *)
Lemma fuzzy_match_years (required : string) (d : PyDict.dict Q) :
  snd (_fuzzy_match_skill required d) = 0%Q
  \/ In (snd (_fuzzy_match_skill required d)) (map snd d).
Proof.
  unfold _fuzzy_match_skill.
  destruct (PyDict.get (lower required) d) as [y |] eqn:G; simpl.
  - right. eapply get_in_values. exact G.
  - destruct (find _ d) as [[k y] |] eqn:F; simpl; [right | left; reflexivity].
    apply find_some in F. destruct F as [F _].
    apply (in_map snd) in F. exact F.
Qed.

(** The two call sites on the same candidate: the skill floor tests
    the set of lower-cased keys, the scorer asks the matcher on the
    dictionary with lower-cased keys. *)
Lemma call_sites_agree (skills_with_years : PyDict.dict Q) (r : string) :
  Main.skill_present (Main.lowered_key_set skills_with_years) (lower r)
  = match fst (_fuzzy_match_skill (lower r)
                 (PyDict.map_keys lower skills_with_years)) with
    | Some _ => true
    | None => false
    end.
Proof.
  unfold Main.lowered_key_set. rewrite skill_present_list.
  apply bool_eq_iff.
  transitivity (fst (_fuzzy_match_skill (lower r)
                  (PyDict.map_keys lower skills_with_years)) <> None).
  - rewrite fuzzy_match_some, lower_idem, !existsb_exists.
    split; intros (k & Hk & Hs); exists k; split; try exact Hs.
    + apply keys_map_keys. exact Hk.
    + apply keys_map_keys in Hk. exact Hk.
  - destruct (fst _); split; congruence.
Qed.

End MatcherFacts.

(** ** The verifier *)

Module VerifierFacts.
Import PyStr PyNum AiEngine PyStrFacts VerifierSpec.

(** One turn of the loop adds the two indicator functions. *)
Lemma verify_step_counts (resume : string) (st : Z * Z)
    (m : RequirementMatch) :
  verify_step (normalize resume) st m
  = (fst st + b2z (verified_b resume m),
     snd st + b2z (hallucination_b resume m))%Z.
Proof.
  unfold verify_step, hallucination_b, verified_b, quote_truthy, quote_str.
  destruct st as [v h]. simpl fst. simpl snd.
  destruct (is_met m), (citation_quote m) as [c |]; simpl;
    try (f_equal; lia).
  destruct (truthy c); simpl; [| f_equal; lia].
  destruct (str_in (normalize c) (normalize resume)); simpl; f_equal; lia.
Qed.

Lemma verify_fold_counts (resume : string) (ms : list RequirementMatch)
    (st : Z * Z) :
  fold_left (verify_step (normalize resume)) ms st
  = (fst st + PyList.count (verified_b resume) ms,
     snd st + PyList.count (hallucination_b resume) ms)%Z.
Proof.
  revert st. induction ms as [| m ms IH]; intros [v h].
  - unfold PyList.count. simpl. f_equal; lia.
  - cbn [fold_left]. rewrite verify_step_counts, IH.
    unfold PyList.count. cbn [List.filter fst snd].
    destruct (verified_b resume m), (hallucination_b resume m);
      cbn [b2z length]; f_equal; lia.
Qed.

(** On a non-empty resume the verifier returns the two counts. *)
Lemma verify_requirements_counts (ms : list RequirementMatch)
    (resume : string) :
  resume <> EmptyString ->
  verify_requirements ms resume
  = (PyList.count (verified_b resume) ms,
     PyList.count (hallucination_b resume) ms).
Proof.
  intros Hne. apply truthy_nonempty in Hne.
  unfold verify_requirements. rewrite Hne, andb_true_r.
  destruct ms as [| m ms]; [reflexivity |].
  change (0 <? Z.of_nat (length (m :: ms)))%Z with true.
  cbv iota. rewrite verify_fold_counts. reflexivity.
Qed.

Lemma count_le_length {A} (p : A -> bool) (l : list A) :
  (0 <= PyList.count p l <= Z.of_nat (length l))%Z.
Proof.
  unfold PyList.count. pose proof (filter_length_le p l). lia.
Qed.

(** No match is counted twice. *)
Lemma counts_disjoint (resume : string) (ms : list RequirementMatch) :
  (PyList.count (verified_b resume) ms
   + PyList.count (hallucination_b resume) ms
   <= Z.of_nat (length ms))%Z.
Proof.
  unfold PyList.count. induction ms as [| m ms IH]; simpl; [lia |].
  unfold hallucination_b at 1.
  destruct (verified_b resume m) eqn:V; simpl.
  - rewrite andb_false_r. simpl. lia.
  - destruct (is_met m); simpl; lia.
Qed.

(** Whatever the resume, the counters are non-negative and the
    verified ones do not exceed the number of matches. *)
Lemma verify_requirements_range (ms : list RequirementMatch)
    (resume : string) :
  (0 <= fst (verify_requirements ms resume) <= Z.of_nat (length ms))%Z
  /\ (0 <= snd (verify_requirements ms resume))%Z.
Proof.
  destruct resume as [| c s].
  - unfold verify_requirements. simpl truthy. rewrite andb_false_r.
    simpl. lia.
  - rewrite verify_requirements_counts by discriminate. simpl.
    pose proof (count_le_length (verified_b (String c s)) ms).
    pose proof (count_le_length (hallucination_b (String c s)) ms).
    lia.
Qed.

Lemma count_insert {A} (p : A -> bool) (l1 l2 : list A) (x : A) :
  PyList.count p (l1 ++ x :: l2) = (PyList.count p (l1 ++ l2) + b2z (p x))%Z.
Proof.
  unfold PyList.count. rewrite !List.filter_app, !length_app. simpl.
  destruct (p x); simpl; lia.
Qed.

(** C2, as amended.  On a non-empty resume text the verifier returns
    the number of verified matches and the number of hallucinations,
    where a match is verified iff [is_met] is true and its citation is
    neither null nor the empty string and, normalised, is a substring of
    the normalised resume text; a match is a hallucination iff [is_met]
    is true and the match is not verified; a match with [is_met] false is
    neither; and the two counters together do not exceed the number of
    matches. *)
Theorem verifier_counts (ms : list RequirementMatch) (resume : string) :
  resume <> EmptyString ->
  verify_requirements ms resume
  = (PyList.count (verified_b resume) ms,
     PyList.count (hallucination_b resume) ms)
  /\ (forall m,
        verified_b resume m = true
        <-> is_met m = true
            /\ exists c, citation_quote m = Some c /\ c <> EmptyString
                 /\ str_in (normalize c) (normalize resume) = true)
  /\ (forall m,
        hallucination_b resume m = true
        <-> is_met m = true /\ verified_b resume m = false)
  /\ (forall m,
        is_met m = false
        -> verified_b resume m = false /\ hallucination_b resume m = false)
  /\ (fst (verify_requirements ms resume)
      + snd (verify_requirements ms resume)
      <= Z.of_nat (length ms))%Z.
Proof.
  intros Hne. rewrite (verify_requirements_counts ms resume Hne).
  repeat split.
  - unfold verified_b in H. apply andb_true_iff in H. tauto.
  - unfold verified_b in H. apply andb_true_iff in H. destruct H as [_ H].
    destruct (citation_quote m) as [c |]; [| discriminate].
    apply andb_true_iff in H. destruct H as [Ht Hs].
    exists c. repeat split; [apply truthy_nonempty; exact Ht | exact Hs].
  - intros (Hm & c & Hc & Hne' & Hs). unfold verified_b.
    rewrite Hm, Hc, Hs. apply truthy_nonempty in Hne'. rewrite Hne'.
    reflexivity.
  - unfold hallucination_b in H. apply andb_true_iff in H. tauto.
  - unfold hallucination_b in H. apply andb_true_iff in H.
    destruct H as [_ H]. apply negb_true_iff in H. exact H.
  - intros [Hm Hv]. unfold hallucination_b. rewrite Hm, Hv. reflexivity.
  - unfold verified_b. rewrite H. reflexivity.
  - unfold hallucination_b. rewrite H. reflexivity.
  - simpl. apply counts_disjoint.
Qed.

Lemma verifier_counts_witness :
  verify_requirements
    [mkMatch "Must know FastAPI" true (Some "Built  APIs with fastapi")]
    "Built APIs with FastAPI and PostgreSQL." = (1, 0)%Z.
Proof.
  pose proof (verifier_counts
    [mkMatch "Must know FastAPI" true (Some "Built  APIs with fastapi")]
    "Built APIs with FastAPI and PostgreSQL.") as H.
  destruct H as [H _]; [discriminate |]. rewrite H. reflexivity.
Defined.

(** The verified test worded as in the specification accepts a claimed
    match whose citation is the empty string; the code counts that match
    as a hallucination. *)
Lemma verifier_spec_wording_fails :
  let m := mkMatch "Must know FastAPI" true (Some "") in
  let resume := "Built APIs with FastAPI and PostgreSQL." in
  PyList.count (spec_verified_b resume) [m] = 1%Z
  /\ verify_requirements [m] resume = (0, 1)%Z
  /\ fst (verify_requirements [m] resume)
     <> PyList.count (spec_verified_b resume) [m].
Proof. vm_compute. repeat split; congruence. Qed.

(** C10.  A match with [is_met] true and the empty string as citation
    goes through the missing-citation branch of the loop body: it adds
    one to the hallucination counter and nothing to the verified one,
    although the normalised empty string is a substring of every
    normalised resume text; on a non-empty resume text, adding such a
    match anywhere in the list adds one hallucination and no verified
    requirement. *)
Theorem empty_citation_is_hallucination (r : string) (resume : string)
    (st : Z * Z) (ms1 ms2 : list RequirementMatch) :
  let m := mkMatch r true (Some EmptyString) in
  (is_met m && quote_truthy (citation_quote m))%bool = false
  /\ (is_met m && negb (quote_truthy (citation_quote m)))%bool = true
  /\ str_in (normalize EmptyString) (normalize resume) = true
  /\ verify_step (normalize resume) st m = (fst st, snd st + 1)%Z
  /\ (resume <> EmptyString ->
      verify_requirements (ms1 ++ m :: ms2) resume
      = (fst (verify_requirements (ms1 ++ ms2) resume),
         snd (verify_requirements (ms1 ++ ms2) resume) + 1)%Z).
Proof.
  intros m. repeat split.
  - apply str_in_empty.
  - intros Hne. rewrite !(verify_requirements_counts _ _ Hne).
    rewrite !count_insert. cbn [fst snd].
    unfold hallucination_b, verified_b. simpl. f_equal; lia.
Qed.

Lemma empty_citation_is_hallucination_witness :
  verify_requirements
    ([mkMatch "A" true (Some "resume")] ++ [mkMatch "B" true (Some "")])
    "My resume" = (1, 1)%Z.
Proof.
  pose proof (empty_citation_is_hallucination "B" "My resume" (0, 0)%Z
                [mkMatch "A" true (Some "resume")] []) as H.
  destruct H as (_ & _ & _ & _ & H). rewrite H by discriminate.
  reflexivity.
Defined.

End VerifierFacts.

(** ** The scorer *)

Module ScorerFacts.
Import PyStr PyNum AiEngine PyNumFacts PyStrFacts PyDictFacts.
Import MatcherFacts VerifierFacts ScorerSpec.

Lemma Qdiv_nonneg (a b : Q) : (0 <= a)%Q -> (0 < b)%Q -> (0 <= a / b)%Q.
Proof. intros Ha Hb. apply Qle_shift_div_l; [exact Hb | lra]. Qed.

Lemma Qdiv_le_one (a b : Q) : (a <= b)%Q -> (0 < b)%Q -> (a / b <= 1)%Q.
Proof. intros Ha Hb. apply Qle_shift_div_r; [exact Hb | lra]. Qed.

(** Every entry of [skill_depth_parts] lies between 0 and 1. *)
Lemma skill_depth_step_parts (d : PyDict.dict Q) (eff : Q)
    (st : list Q * list string) (s : string) :
  (0 < eff)%Q ->
  Forall (fun kv => (0 <= snd kv)%Q) d ->
  Forall in01 (fst st) ->
  Forall in01 (fst (skill_depth_step d eff st s)).
Proof.
  intros Heff Hd Hst. unfold skill_depth_step.
  pose proof (fuzzy_match_years s d) as Hy.
  destruct (_fuzzy_match_skill s d) as [[k |] y]; simpl in *.
  - apply Forall_app. split; [exact Hst |]. constructor; [| constructor].
    assert (Hy0 : (0 <= y)%Q).
    { destruct Hy as [-> | Hin]; [lra |].
      apply in_map_iff in Hin. destruct Hin as (kv & <- & Hin).
      rewrite List.Forall_forall in Hd. apply Hd. exact Hin. }
    pose proof (Qdiv_nonneg y eff Hy0 Heff) as Hq.
    destruct (py_min_bounds 1 (y / eff) 0) as [H1 H2]; try lra.
    split; assumption.
  - apply Forall_app. split; [exact Hst |]. constructor; [| constructor].
    split; lra.
Qed.

Lemma skill_depth_loop_parts (d : PyDict.dict Q) (eff : Q)
    (reqs : list string) (st : list Q * list string) :
  (0 < eff)%Q ->
  Forall (fun kv => (0 <= snd kv)%Q) d ->
  Forall in01 (fst st) ->
  Forall in01 (fst (fold_left (skill_depth_step d eff) reqs st)).
Proof.
  intros Heff Hd. revert st.
  induction reqs as [| s reqs IH]; intros st Hst; simpl; [exact Hst |].
  apply IH. apply skill_depth_step_parts; assumption.
Qed.

Lemma inject_length_cons {A} (x : A) (l : list A) :
  (inject_Z (Z.of_nat (length (x :: l)))
   == inject_Z (Z.of_nat (length l)) + 1)%Q.
Proof.
  cbn [length]. rewrite Nat2Z.inj_succ. unfold Z.succ.
  apply inject_Z_succ.
Qed.

Lemma fold_plus_bounds (l : list Q) :
  Forall in01 l ->
  forall acc,
    (acc <= fold_left Qplus l acc)%Q
    /\ (fold_left Qplus l acc
        <= acc + inject_Z (Z.of_nat (length l)))%Q.
Proof.
  induction 1 as [| x l [Hx0 Hx1] _ IH]; intros acc.
  - cbn [fold_left length]. change (inject_Z (Z.of_nat 0)) with 0%Q.
    split; lra.
  - cbn [fold_left]. destruct (IH (acc + x)%Q) as [H1 H2].
    rewrite inject_length_cons. split; lra.
Qed.

(** The average of a non-empty list of depths lies between 0 and 1. *)
Lemma average_in01 (l : list Q) :
  Forall in01 l -> l <> [] ->
  in01 (py_sum l / inject_Z (Z.of_nat (length l))).
Proof.
  intros Hl Hne. unfold py_sum.
  destruct (fold_plus_bounds l Hl 0%Q) as [H1 H2].
  assert (Hn : (0 < inject_Z (Z.of_nat (length l)))%Q).
  { destruct l as [| x l]; [contradiction |].
    rewrite inject_length_cons.
    assert (H : (0 <= inject_Z (Z.of_nat (length l)))%Q).
    { change 0%Q with (inject_Z 0). rewrite <- Zle_Qle. lia. }
    lra. }
  split.
  - apply Qdiv_nonneg; assumption.
  - apply Qdiv_le_one; [lra | assumption].
Qed.

Lemma nonneg_values_map_keys (d : PyDict.dict Q) :
  Forall (fun kv => (0 <= snd kv)%Q) d ->
  Forall (fun kv => (0 <= snd kv)%Q) (PyDict.map_keys lower d).
Proof.
  intros Hd. apply List.Forall_forall. intros kv Hin.
  apply (in_map snd) in Hin. apply values_map_keys in Hin.
  apply in_map_iff in Hin. destruct Hin as (kv' & E & Hin').
  rewrite <- E. rewrite List.Forall_forall in Hd. apply Hd. exact Hin'.
Qed.

Lemma skill_points_bounds (d : PyDict.dict Q) (reqs : list string)
    (min_experience : Q) :
  Forall (fun kv => (0 <= snd kv)%Q) d ->
  let parts := fst (fold_left (skill_depth_step d (py_max min_experience 1))
                              reqs ([], [])) in
  let avg := match parts with
             | [] => 0%Q
             | _ => (py_sum parts / inject_Z (Z.of_nat (length parts)))%Q
             end in
  (0 <= avg * 40)%Q /\ (avg * 40 <= 40)%Q.
Proof.
  intros Hd parts avg.
  assert (Heff : (0 < py_max min_experience 1)%Q).
  { destruct (py_max_spec min_experience 1) as [_ H]. lra. }
  assert (Hparts : Forall in01 parts).
  { apply skill_depth_loop_parts; [exact Heff | exact Hd | constructor]. }
  assert (Havg : in01 avg).
  { subst avg. destruct parts as [| x l] eqn:E.
    - split; lra.
    - apply average_in01; [exact Hparts | discriminate]. }
  destruct Havg as [H0 H1]. split; lra.
Qed.

Lemma jd_points_bounds (ms : list RequirementMatch) (text : string) :
  let total := Z.of_nat (length ms) in
  let v := fst (verify_requirements ms text) in
  let jd := if ((0 <? total)%Z && truthy text)%bool
            then (inject_Z v / inject_Z total * 30)%Q else 0%Q in
  (0 <= jd)%Q /\ (jd <= 30)%Q.
Proof.
  intros total v jd. subst jd.
  destruct (verify_requirements_range ms text) as [[Hv0 Hv1] _].
  fold v in Hv0, Hv1. fold total in Hv1.
  destruct (0 <? total)%Z eqn:Ht; simpl; [| split; lra].
  destruct (truthy text); [| split; lra].
  apply Z.ltb_lt in Ht.
  assert (Ht' : (0 < inject_Z total)%Q).
  { change 0%Q with (inject_Z 0). rewrite <- Zlt_Qlt. exact Ht. }
  assert (Hv0' : (0 <= inject_Z v)%Q).
  { change 0%Q with (inject_Z 0). rewrite <- Zle_Qle. exact Hv0. }
  assert (Hv1' : (inject_Z v <= inject_Z total)%Q).
  { rewrite <- Zle_Qle. exact Hv1. }
  pose proof (Qdiv_nonneg _ _ Hv0' Ht').
  pose proof (Qdiv_le_one _ _ Hv1' Ht').
  split; lra.
Qed.

Lemma experience_points_bounds (total_years min_experience : Q) :
  (0 <= total_years)%Q ->
  let ex := if Qle_bool min_experience total_years then 20%Q
            else (total_years / py_max min_experience 1 * 20)%Q in
  (0 <= ex)%Q /\ (ex <= 20)%Q.
Proof.
  intros Ht ex. subst ex.
  destruct (Qle_bool min_experience total_years) eqn:E; [split; lra |].
  assert (Hlt : (total_years < min_experience)%Q).
  { apply Qnot_le_lt. intros H. apply Qle_bool_iff in H. congruence. }
  destruct (py_max_spec min_experience 1) as [H1 H2].
  assert (Hpos : (0 < py_max min_experience 1)%Q) by lra.
  assert (Hle : (total_years <= py_max min_experience 1)%Q) by lra.
  pose proof (Qdiv_nonneg _ _ Ht Hpos).
  pose proof (Qdiv_le_one _ _ Hle Hpos).
  split; lra.
Qed.

Lemma impact_points_bounds (bullets : Z) :
  (0 <= bullets)%Z ->
  let im := py_min 10 (inject_Z bullets / 5 * 10) in
  (0 <= im)%Q /\ (im <= 10)%Q.
Proof.
  intros Hb im. subst im.
  assert (Hb' : (0 <= inject_Z bullets)%Q).
  { change 0%Q with (inject_Z 0). rewrite <- Zle_Qle. exact Hb. }
  assert (H5 : (0 <= inject_Z bullets / 5)%Q).
  { apply Qdiv_nonneg; lra. }
  destruct (py_min_bounds 10 (inject_Z bullets / 5 * 10) 0); lra.
Qed.

(** Each component stays within its weight. *)
Lemma components_bounds (candidate : CandidateFacts)
    (required_skills : list string) (min_experience : Q) (text : string) :
  (0 <= total_years_experience candidate)%Q ->
  Forall (fun kv => (0 <= snd kv)%Q) (skills_with_years candidate) ->
  (0 <= metrics_bullet_count candidate)%Z ->
  let c := score_components candidate required_skills min_experience text in
  ((0 <= skill_depth_points c)%Q /\ (skill_depth_points c <= 40)%Q)
  /\ ((0 <= jd_requirements_points c)%Q
      /\ (jd_requirements_points c <= 30)%Q)
  /\ ((0 <= experience_points c)%Q /\ (experience_points c <= 20)%Q)
  /\ ((0 <= impact_points c)%Q /\ (impact_points c <= 10)%Q).
Proof.
  intros Ht Hs Hb c. subst c. unfold score_components.
  pose proof (skill_points_bounds _ (map lower required_skills)
                min_experience (nonneg_values_map_keys _ Hs)) as Hsd.
  pose proof (jd_points_bounds (jd_requirement_matches candidate) text)
    as Hjd.
  pose proof (experience_points_bounds _ min_experience Ht) as Hex.
  pose proof (impact_points_bounds _ Hb) as Him.
  cbv zeta in Hsd, Hjd, Hex, Him.
  destruct (fold_left _ (map lower required_skills) ([], []))
    as [parts matched].
  destruct (verify_requirements _ text) as [v h].
  cbn [fst snd] in Hsd, Hjd. cbn [skill_depth_points jd_requirements_points
    experience_points impact_points].
  repeat split; tauto.
Qed.

Lemma status_of_score_str (f : Z) :
  (status_str (status_of_score f) = "shortlisted" <-> (80 <= f)%Z)
  /\ (status_str (status_of_score f) = "review" <-> (60 <= f < 80)%Z)
  /\ (status_str (status_of_score f) = "rejected" <-> (f < 60)%Z).
Proof.
  unfold status_of_score.
  destruct (80 <=? f)%Z eqn:E80;
    [apply Z.leb_le in E80 | apply Z.leb_gt in E80];
    [| destruct (60 <=? f)%Z eqn:E60;
       [apply Z.leb_le in E60 | apply Z.leb_gt in E60]];
    simpl; repeat split; intros; try discriminate; try lia; reflexivity.
Qed.

(** C1.  For candidate facts with non-negative years of experience,
    non-negative skill years and a non-negative bullet count, any list
    of required skills, any [min_experience >= 0] and any resume text,
    [final_score] lies in [0, 100], and [status] is "shortlisted" iff
    [final_score >= 80], "review" iff [60 <= final_score < 80] and
    "rejected" iff [final_score < 60]. *)
Theorem final_score_range_and_status (candidate : CandidateFacts)
    (required_skills : list string) (min_experience : Q)
    (job_title raw_resume_text : string) :
  (0 <= total_years_experience candidate)%Q ->
  Forall (fun kv => (0 <= snd kv)%Q) (skills_with_years candidate) ->
  (0 <= metrics_bullet_count candidate)%Z ->
  (0 <= min_experience)%Q ->
  let r := calculate_deterministic_score candidate required_skills
             min_experience job_title raw_resume_text in
  (0 <= final_score r <= 100)%Z
  /\ (status_str (status r) = "shortlisted" <-> (80 <= final_score r)%Z)
  /\ (status_str (status r) = "review" <-> (60 <= final_score r < 80)%Z)
  /\ (status_str (status r) = "rejected" <-> (final_score r < 60)%Z).
Proof.
  intros Ht Hs Hb _ r. subst r. unfold calculate_deterministic_score.
  cbn [final_score status]. split; [| apply status_of_score_str].
  pose proof (components_bounds candidate required_skills min_experience
                raw_resume_text Ht Hs Hb) as H.
  cbv zeta in H. destruct H as ((? & ?) & (? & ?) & (? & ?) & (? & ?)).
  apply py_round_between; unfold raw_score;
    [change (inject_Z 0) with 0%Q | change (inject_Z 100) with 100%Q]; lra.
Qed.

Lemma final_score_range_and_status_witness :
  let r := calculate_deterministic_score Examples.perfect_candidate
             ["python"; "fastapi"; "postgresql"] 3 "Backend Engineer"
             Examples.perfect_resume in
  (0 <= final_score r <= 100)%Z
  /\ (status_str (status r) = "shortlisted" <-> (80 <= final_score r)%Z)
  /\ (status_str (status r) = "review" <-> (60 <= final_score r < 80)%Z)
  /\ (status_str (status r) = "rejected" <-> (final_score r < 60)%Z).
Proof.
  apply final_score_range_and_status.
  - unfold Qle; simpl; lia.
  - repeat constructor; unfold Qle; simpl; lia.
  - simpl; lia.
  - unfold Qle; simpl; lia.
Defined.

(** Scenario A scores 100 and is shortlisted. *)
Example perfect_candidate_scores_100 :
  let r := calculate_deterministic_score Examples.perfect_candidate
             ["python"; "fastapi"; "postgresql"] 3 "Backend Engineer"
             Examples.perfect_resume in
  final_score r = 100%Z /\ status r = shortlisted.
Proof. vm_compute. split; reflexivity. Qed.

(** In exact arithmetic the scorer applies [final_score_of_raw] to the
    sum of its four components. *)
Remark final_score_of_exact_sum (candidate : CandidateFacts)
    (required_skills : list string) (min_experience : Q)
    (job_title raw_resume_text : string) :
  final_score (calculate_deterministic_score candidate required_skills
                 min_experience job_title raw_resume_text)
  = final_score_of_raw
      (raw_score (score_components candidate required_skills
                    min_experience raw_resume_text)).
Proof. reflexivity. Qed.





Lemma Qabs_round_gap (a b : Q) (d : Q) :
  (a - d <= b)%Q -> (b <= a + d)%Q -> (d < 1)%Q ->
  (Z.abs (py_round a - py_round b) <= 1)%Z.
Proof.
  intros H1 H2 Hd.
  destruct (py_round_near a) as [A1 A2].
  destruct (py_round_near b) as [B1 B2].
  assert (U : (inject_Z (py_round a) < inject_Z (py_round b + 2))%Q).
  { rewrite inject_Z_plus. change (inject_Z 2) with 2%Q. lra. }
  assert (L : (inject_Z (py_round b) < inject_Z (py_round a + 2))%Q).
  { rewrite inject_Z_plus. change (inject_Z 2) with 2%Q. lra. }
  rewrite <- Zlt_Qlt in U, L. lia.
Qed.

(** C8.  For every result of the scorer, the sum of the four reported
    components (each rounded to one decimal on its own), itself rounded
    to an integer, differs from [final_score] by at most 1. *)
Theorem breakdown_sum_within_one (candidate : CandidateFacts)
    (required_skills : list string) (min_experience : Q)
    (job_title raw_resume_text : string) :
  let r := calculate_deterministic_score candidate required_skills
             min_experience job_title raw_resume_text in
  let b := breakdown r in
  (Z.abs (py_round (skill_depth b + jd_requirements b + experience b
                    + impact b)
          - final_score r) <= 1)%Z.
Proof.
  intros r b. subst b r. unfold calculate_deterministic_score.
  cbn [breakdown final_score skill_depth jd_requirements experience impact].
  set (c := score_components _ _ _ _).
  destruct (py_round1_near (skill_depth_points c)) as [S1 S2].
  destruct (py_round1_near (jd_requirements_points c)) as [J1 J2].
  destruct (py_round1_near (experience_points c)) as [E1 E2].
  destruct (py_round1_near (impact_points c)) as [I1 I2].
  apply (Qabs_round_gap _ _ (1 # 5)); unfold raw_score; lra.
Qed.

End ScorerFacts.

(** ** The knockout filter *)

Module KnockoutFacts.
Import PyStr PyNum AiEngine PyNumFacts PyStrFacts PyDictFacts.
Import MatcherFacts KnockoutSpec.

Lemma existsb_map {A B} (f : A -> B) (p : B -> bool) (l : list A) :
  existsb p (map f l) = existsb (fun x => p (f x)) l.
Proof.
  induction l as [| x l IH]; simpl; [reflexivity |].
  rewrite IH. reflexivity.
Qed.

Lemma filter_map_length {A B} (f : A -> B) (p : B -> bool) (l : list A) :
  length (List.filter p (map f l))
  = length (List.filter (fun x => p (f x)) l).
Proof.
  induction l as [| x l IH]; simpl; [reflexivity |].
  destruct (p (f x)); simpl; rewrite IH; reflexivity.
Qed.

(** The set-based membership test of the code is the coverage test. *)
Lemma skill_present_covered (skills_with_years : PyDict.dict Q)
    (r : string) :
  Main.skill_present (Main.lowered_key_set skills_with_years) (lower r)
  = covered skills_with_years r.
Proof.
  unfold Main.lowered_key_set, covered.
  rewrite skill_present_list, existsb_map. reflexivity.
Qed.

Lemma matched_ko_length (skills_with_years : PyDict.dict Q)
    (required_skills : list string) :
  length (Main.matched_ko skills_with_years required_skills)
  = matched_count skills_with_years required_skills.
Proof.
  unfold Main.matched_ko, matched_count. rewrite filter_map_length.
  f_equal. apply List.filter_ext. intros r. apply skill_present_covered.
Qed.

Lemma coverage_fraction (skills_with_years : PyDict.dict Q)
    (required_skills : list string) :
  Main.coverage skills_with_years required_skills
  = covered_fraction skills_with_years required_skills.
Proof.
  unfold Main.coverage, covered_fraction.
  rewrite matched_ko_length, length_map. reflexivity.
Qed.

(** The single-apply endpoint runs the same filter on the integer
    column. *)
Lemma applicants_knockout_same (total_years : Q)
    (skills_with_years : PyDict.dict Q) (required_skills : list string)
    (min_experience : Z) :
  Applicants.apply_for_job_knockout total_years skills_with_years
    required_skills min_experience
  = Main.knockout_stage total_years skills_with_years required_skills
      (inject_Z min_experience).
Proof. reflexivity. Qed.

Lemma knockout_stage_iff (total_years : Q)
    (skills_with_years : PyDict.dict Q) (required_skills : list string)
    (min_experience : Q) :
  fst (Main.knockout_stage total_years skills_with_years required_skills
         min_experience) = true
  <-> (total_years < min_experience - (1 # 2))%Q
      \/ (~ (total_years < min_experience - (1 # 2))%Q
          /\ required_skills <> []
          /\ (covered_fraction skills_with_years required_skills
              < 1 # 2)%Q).
Proof.
  unfold Main.knockout_stage. rewrite coverage_fraction.
  destruct (Qltb total_years (min_experience - (1 # 2))) eqn:E1.
  - apply Qltb_lt in E1. simpl. tauto.
  - apply Qltb_ge in E1. cbn [fst negb andb].
    assert (N1 : ~ (total_years < min_experience - (1 # 2))%Q) by lra.
    destruct required_skills as [| r rs].
    + simpl. split; [discriminate | intros [H | (_ & H & _)]; tauto].
    + cbn [length Nat.eqb negb].
      destruct (Qltb (covered_fraction skills_with_years (r :: rs))
                     (1 # 2)) eqn:E2.
      * apply Qltb_lt in E2. simpl. split; [intros _ | reflexivity].
        right. repeat split; [exact N1 | discriminate | exact E2].
      * apply Qltb_ge in E2. simpl.
        split; [discriminate | intros [H | (_ & _ & H)]; lra].
Qed.

(** C4.  In the batch loop and in the single-apply endpoint alike, a
    candidate is knocked out iff [total_years_experience] is below
    [min_experience - 0.5], or that rule did not trigger, the list of
    required skills is non-empty and the fraction of required skills
    that, lower-cased, substring-match a lower-cased skill key of the
    candidate is strictly below one half; in particular a fraction of
    exactly one half passes rule 2. *)
Theorem knockout_decision (total_years : Q)
    (skills_with_years : PyDict.dict Q) (required_skills : list string)
    (min_experience : Z) (min_experience_f : Q) :
  let rule1 (m : Q) := (total_years < m - (1 # 2))%Q in
  let rule2 (m : Q) :=
    ~ rule1 m /\ required_skills <> []
    /\ (covered_fraction skills_with_years required_skills < 1 # 2)%Q in
  (fst (Main.knockout_stage total_years skills_with_years required_skills
          min_experience_f) = true
   <-> rule1 min_experience_f \/ rule2 min_experience_f)
  /\ (fst (Applicants.apply_for_job_knockout total_years skills_with_years
            required_skills min_experience) = true
      <-> rule1 (inject_Z min_experience)
          \/ rule2 (inject_Z min_experience))
  /\ ((covered_fraction skills_with_years required_skills == 1 # 2)%Q ->
      ~ rule2 min_experience_f).
Proof.
  intros rule1 rule2. subst rule1 rule2. cbv beta.
  rewrite applicants_knockout_same. repeat split.
  - apply knockout_stage_iff.
  - apply knockout_stage_iff.
  - apply knockout_stage_iff.
  - apply knockout_stage_iff.
  - intros E (_ & _ & H). lra.
Qed.

Lemma knockout_decision_witness :
  ~ (~ (4 < inject_Z 3 - (1 # 2))%Q
     /\ ["Python"; "Rust"] <> []
     /\ (covered_fraction [("python 3", 4%Q)] ["Python"; "Rust"]
         < 1 # 2)%Q).
Proof.
  pose proof (knockout_decision 4 [("python 3", 4%Q)] ["Python"; "Rust"]
                3 (inject_Z 3)) as H.
  cbv zeta in H. destruct H as (_ & _ & H). apply H.
  vm_compute. reflexivity.
Defined.

(** One of two required skills present: exactly 50% coverage is not a
    knockout. *)
Example half_coverage_passes :
  Main.knockout_stage 4 [("python 3", 4%Q)] ["Python"; "Rust"] 3
  = (false, Main.NoReason).
Proof. vm_compute. reflexivity. Qed.

(** Scenarios B and C of the specification. *)
Example rookie_knocked_out :
  fst (Main.knockout_stage (1 # 2) [("Python", (1 # 2)%Q)] ["Python"] 5)
  = true.
Proof. vm_compute. reflexivity. Qed.

Example designer_knocked_out :
  Main.knockout_stage 6 [("Photoshop", 6%Q); ("Illustrator", 6%Q)]
    ["python"; "fastapi"; "postgresql"; "docker"; "aws"] 3
  = (true, Main.SkillFloorNotMet 0 5).
Proof. vm_compute. reflexivity. Qed.

(** C7.  For a lower-cased required skill [s] and a skill mapping [d]
    with lower-cased keys, the membership test of the knockout filter
    over the key set of [d] (some key [k] has [s] as a substring or is a
    substring of [s]) succeeds iff [_fuzzy_match_skill s d] returns a
    matched key that is not [None]. *)
Theorem knockout_membership_iff_fuzzy_match (s : string)
    (d : PyDict.dict Q) :
  lower s = s ->
  Forall (fun k => lower k = k) (PyDict.keys d) ->
  (Main.skill_present (list_to_set (PyDict.keys d)) s = true
   <-> exists k, In k (PyDict.keys d)
                 /\ (str_in s k = true \/ str_in k s = true))
  /\ (Main.skill_present (list_to_set (PyDict.keys d)) s = true
      <-> fst (_fuzzy_match_skill s d) <> None).
Proof.
  intros Hs _. rewrite skill_present_list, fuzzy_match_some, Hs. split.
  - rewrite existsb_exists. unfold substring_either.
    split; intros (k & Hk & H); exists k; split; try exact Hk.
    + apply orb_true_iff. exact H.
    + apply orb_true_iff. exact H.
  - reflexivity.
Qed.

Lemma knockout_membership_iff_fuzzy_match_witness :
  Main.skill_present
    (list_to_set (PyDict.keys [("python 3", 4%Q); ("docker ce", 1%Q)]))
    "docker" = true
  <-> fst (_fuzzy_match_skill "docker"
             [("python 3", 4%Q); ("docker ce", 1%Q)]) <> None.
Proof.
  apply (knockout_membership_iff_fuzzy_match "docker"
           [("python 3", 4%Q); ("docker ce", 1%Q)]).
  - reflexivity.
  - repeat constructor.
Defined.

End KnockoutFacts.

(** ** Sorting and the shortlist *)

Module SortFacts.
Import PyList.

Section Sorting.

Context {A : Type} (key : A -> Z).

Lemma insert_desc_perm (x : A) (l : list A) :
  Permutation (x :: l) (insert_desc key x l).
Proof.
  induction l as [| y l IH]; simpl; [reflexivity |].
  destruct (key x <? key y)%Z; [| reflexivity].
  rewrite perm_swap. apply perm_skip. exact IH.
Qed.

Lemma insert_desc_sorted (x : A) (l : list A) :
  StronglySorted (desc key) l ->
  StronglySorted (desc key) (insert_desc key x l).
Proof.
  induction 1 as [| y l Hs IH Hy]; simpl.
  - constructor; constructor.
  - destruct (key x <? key y)%Z eqn:E.
    + apply Z.ltb_lt in E. constructor; [exact IH |].
      rewrite List.Forall_forall in *. intros z Hz.
      apply (Permutation_in z (Permutation_sym (insert_desc_perm x l)))
        in Hz.
      destruct Hz as [<- | Hz]; [unfold PyList.desc; lia | apply Hy; exact Hz].
    + apply Z.ltb_ge in E. constructor; [constructor; assumption |].
      constructor; [exact E |].
      rewrite List.Forall_forall in *. intros z Hz. specialize (Hy z Hz).
      unfold PyList.desc in *. lia.
Qed.

(** The sort returns a rearrangement of its input. *)
Lemma sort_reverse_perm (l : list A) : Permutation l (sort_reverse key l).
Proof.
  induction l as [| x l IH]; simpl; [reflexivity |].
  rewrite <- insert_desc_perm. apply perm_skip. exact IH.
Qed.

(** The result is in descending key order. *)
Lemma sort_reverse_sorted (l : list A) :
  StronglySorted (desc key) (sort_reverse key l).
Proof.
  induction l as [| x l IH]; simpl; [constructor |].
  apply insert_desc_sorted. exact IH.
Qed.

Lemma sort_reverse_length (l : list A) :
  length (sort_reverse key l) = length l.
Proof. symmetry. apply Permutation_length, sort_reverse_perm. Qed.

Lemma insert_desc_filter (v : Z) (x : A) (l : list A) :
  List.filter (fun a => (key a =? v)%Z) (insert_desc key x l)
  = List.filter (fun a => (key a =? v)%Z) (x :: l).
Proof.
  induction l as [| y l IH]; [reflexivity |].
  cbn [insert_desc]. destruct (key x <? key y)%Z eqn:E; [| reflexivity].
  apply Z.ltb_lt in E. cbn [List.filter] in *. rewrite IH.
  destruct (key x =? v)%Z eqn:Ex, (key y =? v)%Z eqn:Ey; try reflexivity.
  apply Z.eqb_eq in Ex, Ey. lia.
Qed.

(** The sort is stable: the elements that share a key keep their
    original order. *)
Lemma sort_reverse_stable (v : Z) (l : list A) :
  List.filter (fun a => (key a =? v)%Z) (sort_reverse key l)
  = List.filter (fun a => (key a =? v)%Z) l.
Proof.
  induction l as [| x l IH]; [reflexivity |].
  cbn [sort_reverse fold_right]. rewrite insert_desc_filter.
  cbn [List.filter]. fold (sort_reverse key l). rewrite IH. reflexivity.
Qed.

End Sorting.

(** The shortlist is a prefix: empty for no candidate, otherwise of
    length [max(1, N // 10)]. *)
Lemma top_10_percent_prefix {A} (l : list A) :
  (length l = 0 -> top_10_percent l = [])
  /\ (0 < length l ->
      top_10_percent l = firstn (Nat.max 1 (length l / 10)) l
      /\ length (top_10_percent l) = Nat.max 1 (length l / 10)).
Proof.
  destruct l as [| x l].
  - split; [reflexivity | simpl; lia].
  - split; [discriminate |]. intros _.
    unfold top_10_percent. split; [reflexivity |].
    rewrite length_firstn.
    set (n := length (x :: l)).
    assert (0 < n) by (subst n; simpl; lia).
    assert (n / 10 <= n) by (apply Nat.Div0.div_le_upper_bound; lia).
    lia.
Qed.

End SortFacts.

(** ** The batch result *)

Module BatchFacts.
Import PyList AiEngine Store SortFacts.

(** C6.  The in-process batch job, when it runs (extraction service
    available, job row found), and the aggregation
    [_build_results_payload] both return [all_candidates] sorted by
    score in descending order (a null [match_score] counting as 0 in
    the aggregation), a rearrangement of the collected candidates, and
    [shortlisted] is the prefix of [all_candidates] of length
    [max(1, N // 10)] when the number [N] of candidates is positive and
    is empty when [N = 0]. *)
Theorem batch_result_sorted_and_shortlisted
    (db0 : list Applicant) (db_job_id company_id : Z) (title : string)
    (min_experience : Q) (required_skills : list string)
    (files : list Main.ResumeFile)
    (job : Job) (applicants : list Applicant) :
  (exists r st,
     Main.process_resumes_background true true db0 db_job_id company_id
       title min_experience required_skills files = Some (r, st)
     /\ StronglySorted (desc Main.cr_match_score) (Main.r_all_candidates r)
     /\ Permutation (Main.candidates st) (Main.r_all_candidates r)
     /\ (length (Main.r_all_candidates r) = 0 -> Main.r_shortlisted r = [])
     /\ (0 < length (Main.r_all_candidates r) ->
         Main.r_shortlisted r
         = firstn (Nat.max 1 (length (Main.r_all_candidates r) / 10))
                  (Main.r_all_candidates r)
         /\ length (Main.r_shortlisted r)
            = Nat.max 1 (length (Main.r_all_candidates r) / 10)))
  /\ (let p := Tasks._build_results_payload job applicants in
      StronglySorted (desc Tasks.sort_key) (Tasks.p_all_candidates p)
      /\ Permutation applicants (Tasks.p_all_candidates p)
      /\ (length (Tasks.p_all_candidates p) = 0 ->
          Tasks.p_shortlisted p = [])
      /\ (0 < length (Tasks.p_all_candidates p) ->
          Tasks.p_shortlisted p
          = firstn (Nat.max 1 (length (Tasks.p_all_candidates p) / 10))
                   (Tasks.p_all_candidates p)
          /\ length (Tasks.p_shortlisted p)
             = Nat.max 1 (length (Tasks.p_all_candidates p) / 10))).
Proof.
  split.
  - unfold Main.process_resumes_background. cbn [negb].
    eexists. eexists. split; [reflexivity |].
    unfold Main.build_results.
    cbn [Main.r_all_candidates Main.r_shortlisted].
    split; [apply sort_reverse_sorted |].
    split; [apply sort_reverse_perm |].
    apply top_10_percent_prefix.
  - intros p. subst p. unfold Tasks._build_results_payload.
    cbn [Tasks.p_all_candidates Tasks.p_shortlisted].
    split; [apply sort_reverse_sorted |].
    split; [apply sort_reverse_perm |].
    apply top_10_percent_prefix.
Qed.

Lemma batch_result_sorted_and_shortlisted_witness :
  let p := Tasks._build_results_payload Examples.backend_job
             Examples.three_applicants in
  Tasks.p_shortlisted p
  = firstn (Nat.max 1 (length (Tasks.p_all_candidates p) / 10))
           (Tasks.p_all_candidates p)
  /\ length (Tasks.p_shortlisted p)
     = Nat.max 1 (length (Tasks.p_all_candidates p) / 10).
Proof.
  pose proof (batch_result_sorted_and_shortlisted [] 14 1 "" 3 [] []
                Examples.backend_job
                Examples.three_applicants) as H.
  destruct H as (_ & H). cbv zeta in H. destruct H as (_ & _ & _ & H).
  apply H. simpl. lia.
Defined.

(** Three persisted applicants: the best one is shortlisted, the one
    without a score sorts last. *)
Example payload_of_three :
  let p := Tasks._build_results_payload Examples.backend_job
             Examples.three_applicants in
  map a_email (Tasks.p_all_candidates p) = ["c"; "a"; "b"]
  /\ map a_email (Tasks.p_shortlisted p) = ["c"].
Proof. vm_compute. split; reflexivity. Qed.

End BatchFacts.

(** ** The order of the stages for one resume *)

Module PipelineFacts.
Import PyStr PyNum AiEngine Store.

(** In the batch loop of [main.py] and in [apply_for_job] the filter
    runs first; a knocked-out candidate gets score 0, status rejected
    and no breakdown, and the scorer is not run. *)
Lemma screen_candidate_knocked_out (candidate_data : CandidateFacts)
    (required_skills : list string) (min_experience : Z)
    (title text : string) :
  fst (Main.knockout_stage (total_years_experience candidate_data)
         (skills_with_years candidate_data) required_skills
         (inject_Z min_experience)) = true ->
  Main.screen_candidate candidate_data required_skills
    (inject_Z min_experience) title text
  = ([EvKnockoutFilter true], (0%Z, rejected, None))
  /\ Applicants.apply_for_job_screen candidate_data required_skills
       min_experience (Some title) text
     = ([EvKnockoutFilter true], (0%Z, rejected, None)).
Proof.
  intros H. unfold Main.screen_candidate, Applicants.apply_for_job_screen.
  rewrite KnockoutFacts.applicants_knockout_same, H. split; reflexivity.
Qed.

(** Otherwise the scorer runs after the filter. *)
Lemma screen_candidate_scored (candidate_data : CandidateFacts)
    (required_skills : list string) (min_experience : Q)
    (title text : string) :
  fst (Main.knockout_stage (total_years_experience candidate_data)
         (skills_with_years candidate_data) required_skills
         min_experience) = false ->
  let result := calculate_deterministic_score candidate_data
                  required_skills min_experience title text in
  Main.screen_candidate candidate_data required_skills min_experience
    title text
  = ([EvKnockoutFilter false; EvScorer],
     (final_score result, status result, Some (breakdown result))).
Proof.
  intros H result. unfold Main.screen_candidate. rewrite H. reflexivity.
Qed.

Lemma existsb_app_false {A} (p : A -> bool) (l1 l2 : list A) :
  existsb p l1 = false -> existsb p l2 = false ->
  existsb p (l1 ++ l2) = false.
Proof. intros H1 H2. rewrite existsb_app, H1, H2. reflexivity. Qed.

Lemma dedup_events_no_filter (e : option string) :
  existsb is_knockout_filter (dedup_events e) = false.
Proof. destruct e; reflexivity. Qed.

(** The queued task never runs the knockout filter, whatever its
    inputs. *)
Lemma process_resume_never_filters (job : option Job)
    (db : list Applicant) (text : string) (pre_scan_email : option string)
    (candidate_data : CandidateFacts) :
  existsb is_knockout_filter
    (fst (Tasks.process_resume job db text pre_scan_email candidate_data))
  = false.
Proof.
  unfold Tasks.process_resume, Tasks.process_resume_task.
  destruct job as [job |]; [| reflexivity].
  destruct (negb (truthy text) || _)%bool; [reflexivity |].
  destruct (is_duplicate db (job_id job) pre_scan_email).
  - cbn [fst]. apply existsb_app_false; [| reflexivity].
    apply dedup_events_no_filter.
  - destruct (insert_applicant db _); cbn [fst];
      (apply existsb_app_false; [| reflexivity]);
      (apply existsb_app_false; [| reflexivity]);
      apply dedup_events_no_filter.
Qed.

(** C3 fails on the queued task.  For the job requiring five years and
    Python, FastAPI and PostgreSQL, the filter of [main.py] knocks out
    the designer (no required skill present) and the rookie (half a
    year of experience) with score 0 and no scorer run; the task
    [process_resume], which [bulk_screen_resumes] queues for every PDF,
    applies no filter, runs the scorer on both, and persists the
    designer with score 60 and status "review" and the rookie with
    score 3. *)
Theorem process_resume_scores_knocked_out_candidates :
  let skills := ["Python"; "FastAPI"; "PostgreSQL"] in
  Main.screen_candidate Examples.designer_candidate skills 5
    "Backend Engineer" Examples.designer_resume
  = ([EvKnockoutFilter true], (0%Z, rejected, None))
  /\ Main.screen_candidate Examples.rookie_candidate skills 5
       "Backend Engineer" Examples.rookie_resume
     = ([EvKnockoutFilter true], (0%Z, rejected, None))
  /\ fst (Tasks.process_resume (Some Examples.backend_job) []
            Examples.designer_resume (Some "carol.designer@example.com")
            Examples.designer_candidate)
     = [EvDedupLookup; EvExtractFacts; EvScorer; EvPersist 60 "review";
        EvAdvanceProgress]
  /\ map (fun a => (a_match_score a, a_status a))
         (snd (Tasks.process_resume (Some Examples.backend_job) []
                 Examples.designer_resume
                 (Some "carol.designer@example.com")
                 Examples.designer_candidate))
     = [(Some 60%Z, "review")]
  /\ fst (Tasks.process_resume (Some Examples.backend_job) []
            Examples.rookie_resume (Some "bob.rookie@example.com")
            Examples.rookie_candidate)
     = [EvDedupLookup; EvExtractFacts; EvScorer; EvPersist 3 "rejected";
        EvAdvanceProgress].
Proof. vm_compute. repeat split; reflexivity. Qed.

End PipelineFacts.

(** ** The failure paths of the extraction *)

Module ExtractionFacts.
Import PyStr Extraction ExtractionSpec.

Lemma get_set {V} (k k' : string) (v : V) (d : PyDict.dict V) :
  PyDict.get k (PyDict.set k' v d)
  = if String.eqb k k' then Some v else PyDict.get k d.
Proof.
  induction d as [| [k0 v0] d IH]; simpl.
  - destruct (String.eqb k k'); reflexivity.
  - destruct (String.eqb_spec k' k0) as [-> | N]; simpl.
    + destruct (String.eqb k k0); reflexivity.
    + rewrite IH. destruct (String.eqb_spec k k0) as [-> | N'].
      * destruct (String.eqb_spec k0 k') as [E | _]; [| reflexivity].
        symmetry in E. contradiction.
      * reflexivity.
Qed.

Lemma mem_set {V} (k k' : string) (v : V) (d : PyDict.dict V) :
  PyDict.mem k (PyDict.set k' v d)
  = (String.eqb k k' || PyDict.mem k d)%bool.
Proof.
  unfold PyDict.mem. rewrite get_set.
  destruct (String.eqb k k'); reflexivity.
Qed.

Lemma get_setdefault_other (k k' : string) (v : Json)
    (d : PyDict.dict Json) :
  String.eqb k k' = false ->
  PyDict.get k (setdefault k' v d) = PyDict.get k d.
Proof.
  intros N. unfold setdefault. destruct (PyDict.mem k' d); [reflexivity |].
  rewrite get_set, N. reflexivity.
Qed.

Lemma mem_setdefault (k k' : string) (v : Json) (d : PyDict.dict Json) :
  PyDict.mem k (setdefault k' v d)
  = (String.eqb k k' || PyDict.mem k d)%bool.
Proof.
  unfold setdefault. destruct (PyDict.mem k' d) eqn:M.
  - destruct (String.eqb_spec k k') as [-> | _]; [| reflexivity].
    rewrite M. reflexivity.
  - apply mem_set.
Qed.

Lemma get_sanitize_matches_other (k : string) (d : PyDict.dict Json) :
  String.eqb k "jd_requirement_matches" = false ->
  forall str_of_value,
    PyDict.get k (sanitize_matches str_of_value d) = PyDict.get k d.
Proof.
  intros N f. unfold sanitize_matches.
  destruct (PyDict.mem "jd_requirement_matches" d); [| reflexivity].
  rewrite get_set, N. reflexivity.
Qed.

Lemma Forall_set {V} (P : V -> Prop) (k : string) (v : V)
    (d : PyDict.dict V) :
  P v -> Forall (fun kv => P (snd kv)) d ->
  Forall (fun kv => P (snd kv)) (PyDict.set k v d).
Proof.
  intros Hv. induction 1 as [| [k0 v0] d H0 Hd IH]; simpl.
  - constructor; [exact Hv | constructor].
  - destruct (String.eqb k k0); constructor; assumption.
Qed.

(** The comprehension returns floats only. *)
Lemma float_values_floats (float_of_str : string -> option Q)
    (skills acc out : PyDict.dict Json) :
  Forall (fun kv => is_float (snd kv) = true) acc ->
  float_values float_of_str acc skills = Some out ->
  Forall (fun kv => is_float (snd kv) = true) out.
Proof.
  revert acc. induction skills as [| [k v] skills IH]; intros acc Hacc; simpl.
  - intros [= <-]. exact Hacc.
  - destruct (py_float float_of_str v) as [q |]; simpl; [| discriminate].
    apply IH.
    apply (Forall_set (fun v => is_float v = true)); [reflexivity | exact Hacc].
Qed.

Ltac dict_lookup :=
  repeat first
    [ rewrite get_sanitize_matches_other by reflexivity
    | rewrite get_setdefault_other by reflexivity
    | rewrite mem_setdefault
    | rewrite get_set ];
  cbn [String.eqb Ascii.eqb Bool.eqb orb].

Section Sanitisation.

Variable json_loads : string -> option Json.
Variable float_of_str : string -> option Q.
Variable int_of_str : string -> option Z.
Variable str_of_value : Json -> string.

Lemma mem_sanitize_matches (k : string) (d : PyDict.dict Json) :
  PyDict.mem k d = true ->
  PyDict.mem k (sanitize_matches str_of_value d) = true.
Proof.
  intros M. unfold sanitize_matches.
  destruct (PyDict.mem "jd_requirement_matches" d) eqn:J; [| exact M].
  rewrite mem_set, M. apply orb_true_r.
Qed.

(** When the sanitisation goes through, every typed field is in
    place. *)
Lemma sanitize_well_sanitized (payload : Json) (data : PyDict.dict Json) :
  sanitize float_of_str int_of_str str_of_value payload = Some data ->
  well_sanitized data.
Proof.
  unfold sanitize. destruct payload as [| | | | | | fields]; try discriminate.
  destruct (py_float float_of_str _) as [years |]; [| discriminate].
  cbn [mbind option_bind].
  destruct (float_values float_of_str [] _) as [skills' |] eqn:F;
    [| discriminate].
  cbn [mbind option_bind].
  destruct (py_int int_of_str _) as [bullets |]; [| discriminate].
  cbn [mbind option_bind]. intros [= <-].
  unfold well_sanitized. repeat split.
  - exists years. dict_lookup. reflexivity.
  - match goal with
    | |- context [PyDict.set "recent_job_titles" ?t _] =>
        assert (T : exists items, t = JArr items)
          by (destruct (get_or _ "recent_job_titles" _); eexists; reflexivity);
        destruct T as [items T]; rewrite T
    end.
    exists items. dict_lookup. reflexivity.
  - exists skills'. split; [dict_lookup; reflexivity |].
    eapply float_values_floats; [constructor | exact F].
  - exists bullets. dict_lookup. reflexivity.
  - apply mem_sanitize_matches. dict_lookup. reflexivity.
  - apply mem_sanitize_matches. dict_lookup. reflexivity.
  - apply mem_sanitize_matches. dict_lookup. reflexivity.
Qed.

End Sanitisation.

Lemma sentinel_well_sanitized : well_sanitized sentinel.
Proof.
  unfold well_sanitized, sentinel. repeat split; try (eexists; reflexivity).
  exists []. split; [reflexivity | constructor].
Qed.

(** C9, as amended.  When no model could be initialised,
    [extract_candidate_facts] raises the service-unavailable error if
    [fail_on_unavailable] is true and returns the zero-valued sentinel
    if it is false.  When a model is there and the call raises, or the
    response cannot be cleaned or parsed, or the sanitisation raises,
    it returns the sentinel whatever the flag and never raises.  Every
    dictionary it returns is either the sentinel or the fully sanitised
    payload, so all typed fields are in place. *)
Theorem extraction_failure_modes
    (json_loads : string -> option Json)
    (float_of_str : string -> option Q) (int_of_str : string -> option Z)
    (str_of_value : Json -> string)
    (model_ready fail_on_unavailable : bool) (call : CallResult) :
  let extract :=
    extract_candidate_facts json_loads float_of_str int_of_str
                            str_of_value in
  let sanitize' := sanitize float_of_str int_of_str str_of_value in
  extract false true call = RaiseAIServiceUnavailable
  /\ extract false false call = Return sentinel
  /\ extract true fail_on_unavailable CallRaises = Return sentinel
  /\ (forall text,
        clean_json_string text = None
        \/ (exists t, clean_json_string text = Some t
                      /\ json_loads t = None)
        \/ (exists t payload,
              clean_json_string text = Some t
              /\ json_loads t = Some payload
              /\ sanitize' payload = None)
        -> extract true fail_on_unavailable (ResponseText text)
           = Return sentinel)
  /\ extract true fail_on_unavailable call <> RaiseAIServiceUnavailable
  /\ (forall data,
        extract model_ready fail_on_unavailable call = Return data ->
        well_sanitized data
        /\ (data = sentinel
            \/ exists text t payload,
                 call = ResponseText text
                 /\ clean_json_string text = Some t
                 /\ json_loads t = Some payload
                 /\ sanitize' payload = Some data)).
Proof.
  intros extract sanitize'. subst extract sanitize'.
  unfold extract_candidate_facts. cbn [negb].
  split; [reflexivity |]. split; [reflexivity |]. split; [reflexivity |].
  split; [| split].
  - intros text H. unfold try_extract.
    destruct H as [H | [(t & H1 & H2) | (t & payload & H1 & H2 & H3)]].
    + rewrite H. reflexivity.
    + rewrite H1. cbn [mbind option_bind]. rewrite H2. reflexivity.
    + rewrite H1. cbn [mbind option_bind]. rewrite H2.
      cbn [mbind option_bind]. rewrite H3. reflexivity.
  - destruct (try_extract _ _ _ _ call); discriminate.
  - intros data. destruct model_ready; cbn [negb].
    + destruct (try_extract _ _ _ _ call) as [d |] eqn:T; intros [= <-].
      * unfold try_extract in T. destruct call as [| text]; [discriminate |].
        destruct (clean_json_string text) as [t |] eqn:C; [| discriminate].
        cbn [mbind option_bind] in T.
        destruct (json_loads t) as [payload |] eqn:J; [| discriminate].
        cbn [mbind option_bind] in T. split.
        -- eapply sanitize_well_sanitized. exact T.
        -- right. exists text, t, payload. repeat split; assumption.
      * split; [apply sentinel_well_sanitized | left; reflexivity].
    + destruct fail_on_unavailable; [discriminate |]. intros [= <-].
      split; [apply sentinel_well_sanitized | left; reflexivity].
Qed.

Lemma extraction_failure_modes_witness :
  extract_candidate_facts no_json no_float no_int any_str true true
    (ResponseText "```") = Return sentinel.
Proof.
  pose proof (extraction_failure_modes no_json no_float no_int any_str
                true true (ResponseText "```")) as H.
  cbv zeta in H. destruct H as (_ & _ & _ & H & _).
  apply H. left. vm_compute. reflexivity.
Defined.

(** With a model at hand and [fail_on_unavailable] true, a call that
    raises, and a response that is not JSON, both end in the silent
    sentinel, not in the service-unavailable error. *)
Lemma call_failure_returns_sentinel_despite_flag :
  extract_candidate_facts no_json no_float no_int any_str true true
    CallRaises = Return sentinel
  /\ extract_candidate_facts no_json no_float no_int any_str true true
       (ResponseText "Service temporarily overloaded") = Return sentinel
  /\ extract_candidate_facts no_json no_float no_int any_str true true
       CallRaises <> RaiseAIServiceUnavailable.
Proof. vm_compute. repeat split; congruence. Qed.

(** An empty JSON object is a payload the sanitisation completes with
    the defaults. *)
Example empty_object_sanitized :
  extract_candidate_facts one_json no_float no_int any_str true true
    (ResponseText "```json
{}
```")
  = Return [ ("total_years_experience", JFloat 0);
             ("recent_job_titles", JArr []);
             ("skills_with_years", JObj []);
             ("metrics_bullet_count", JInt 0);
             ("name", JStr "Unknown Candidate");
             ("email", JStr "unknown@error.com");
             ("phone", JStr "") ].
Proof. vm_compute. reflexivity. Qed.

End ExtractionFacts.

(** ** More on the matcher *)

Module MatcherProps.
Import PyStr PyNum AiEngine PyStrFacts PyDictFacts MatcherFacts.
Import PipelineSpec.

Lemma get_in {V} (k : string) (d : PyDict.dict V) (v : V) :
  PyDict.get k d = Some v -> In (k, v) d.
Proof.
  induction d as [| [k' v'] d IH]; simpl; [discriminate |].
  destruct (String.eqb_spec k k') as [-> | _].
  - intros [= <-]. left. reflexivity.
  - intros H. right. apply IH. exact H.
Qed.

(** What [_fuzzy_match_skill] returns: a key of the dictionary with
    its own years, related to the lower-cased skill by the substring
    test, and the lower-cased skill itself whenever that is a key; or
    no key and [0.0] years, exactly when no key passes the substring
    test. *)
Theorem fuzzy_match_sound_and_complete (required : string)
    (d : PyDict.dict Q) :
  match _fuzzy_match_skill required d with
  | (Some k, y) =>
      In (k, y) d
      /\ substring_either (lower required) k = true
      /\ (PyDict.mem (lower required) d = true -> k = lower required)
  | (None, y) =>
      y = 0%Q
      /\ forall k, In k (PyDict.keys d) ->
                   substring_either (lower required) k = false
  end.
Proof.
  unfold _fuzzy_match_skill, PyDict.mem.
  destruct (PyDict.get (lower required) d) as [y |] eqn:G.
  - split; [apply get_in; exact G |]. split; [| reflexivity].
    unfold substring_either. rewrite str_in_refl. reflexivity.
  - destruct (find _ d) as [[k y] |] eqn:F.
    + apply find_some in F. destruct F as [Hin Hs].
      split; [exact Hin |]. split; [exact Hs | discriminate].
    + split; [reflexivity |]. intros k Hk.
      apply in_map_iff in Hk. destruct Hk as ([k' v] & <- & Hin).
      apply (find_none _ _ F) in Hin. exact Hin.
Qed.

End MatcherProps.

(** ** Dictionaries: insertion, lookup and the key comprehension *)

Module PyDictProps.
Import PyStr PyDictFacts PipelineSpec.

Lemma get_set_eqb {V} (k k' : string) (v : V) (d : PyDict.dict V) :
  PyDict.get k (PyDict.set k' v d)
  = if String.eqb k k' then Some v else PyDict.get k d.
Proof.
  induction d as [| [k0 v0] d IH]; simpl.
  - destruct (String.eqb k k'); reflexivity.
  - destruct (String.eqb_spec k' k0) as [-> | N]; simpl.
    + destruct (String.eqb k k0); reflexivity.
    + rewrite IH. destruct (String.eqb_spec k k0) as [-> | N'].
      * destruct (String.eqb_spec k0 k') as [E | _]; [| reflexivity].
        symmetry in E. contradiction.
      * reflexivity.
Qed.

Lemma get_app {V} (k : string) (d1 d2 : PyDict.dict V) :
  PyDict.get k (d1 ++ d2)
  = match PyDict.get k d1 with
    | Some v => Some v
    | None => PyDict.get k d2
    end.
Proof.
  induction d1 as [| [k0 v0] d1 IH]; simpl; [reflexivity |].
  destruct (String.eqb k k0); [reflexivity | exact IH].
Qed.

Lemma set_keeps_nodup {V} (k : string) (v : V) (d : PyDict.dict V) :
  List.NoDup (PyDict.keys d) -> List.NoDup (PyDict.keys (PyDict.set k v d)).
Proof.
  induction d as [| [k0 v0] d IH]; simpl; intros H.
  - constructor; [intros [] | constructor].
  - destruct (String.eqb_spec k k0) as [-> | N]; simpl; [exact H |].
    apply List.NoDup_cons_iff in H. destruct H as [H0 H1].
    apply List.NoDup_cons; [| apply IH; exact H1].
    intros Hin. apply keys_set in Hin. destruct Hin as [E | Hin];
      [congruence | contradiction].
Qed.

Lemma fold_set_nodup {V} (f : string -> string) (d acc : PyDict.dict V) :
  List.NoDup (PyDict.keys acc) ->
  List.NoDup (PyDict.keys
           (fold_left (fun a kv => PyDict.set (f (fst kv)) (snd kv) a)
                      d acc)).
Proof.
  revert acc. induction d as [| kv d IH]; intros acc H; simpl; [exact H |].
  apply IH. apply set_keeps_nodup. exact H.
Qed.

Lemma fold_set_get {V} (f : string -> string) (d acc : PyDict.dict V)
    (k : string) :
  PyDict.get k
    (fold_left (fun a kv => PyDict.set (f (fst kv)) (snd kv) a) d acc)
  = match PyDict.get k (rename_keys f (rev d)) with
    | Some v => Some v
    | None => PyDict.get k acc
    end.
Proof.
  revert acc. induction d as [| [k0 v0] d IH]; intros acc; [reflexivity |].
  cbn [fold_left rev]. rewrite IH. unfold rename_keys.
  rewrite map_app, get_app. cbn [map fst snd PyDict.get].
  destruct (PyDict.get k (map _ (rev d))); [reflexivity |].
  rewrite get_set_eqb. destruct (String.eqb k (f k0)); reflexivity.
Qed.

(** The dictionary [{f(k): v for k, v in d.items()}] has pairwise
    distinct keys, and looking up a key in it gives the value of the
    last entry of [d] whose key is sent to it by [f] (a later entry
    overwrites an earlier one when their keys collide). *)
Theorem map_keys_last_entry_wins {V} (f : string -> string)
    (d : PyDict.dict V) (k : string) :
  List.NoDup (PyDict.keys (PyDict.map_keys f d))
  /\ PyDict.get k (PyDict.map_keys f d)
     = PyDict.get k (rename_keys f (rev d)).
Proof.
  unfold PyDict.map_keys. split.
  - apply fold_set_nodup. constructor.
  - rewrite fold_set_get. destruct (PyDict.get k _); reflexivity.
Qed.

(** Two skill names that differ only in case: the later years win. *)
Example colliding_keys :
  PyDict.map_keys lower [("Python", 5%Q); ("SQL", 2%Q); ("python", 1%Q)]
  = [("python", 1%Q); ("sql", 2%Q)].
Proof. reflexivity. Qed.

Lemma fold_set_fresh {V} (f : string -> string) (d acc : PyDict.dict V) :
  List.NoDup (PyDict.keys acc ++ PyDict.keys d) ->
  Forall (fun k => f k = k) (PyDict.keys d) ->
  fold_left (fun a kv => PyDict.set (f (fst kv)) (snd kv) a) d acc
  = acc ++ d.
Proof.
  revert acc. induction d as [| [k v] d IH]; intros acc Hn Hf.
  - simpl. rewrite app_nil_r. reflexivity.
  - cbn [fold_left fst snd]. inversion Hf as [| ? ? Hk Hf']; subst.
    cbn [PyDict.keys map fst] in Hk. rewrite Hk.
    assert (Hset : PyDict.set k v acc = acc ++ [(k, v)]).
    { assert (Hnot : ~ In k (PyDict.keys acc)).
      { intros Hin.         cbn [PyDict.keys map fst] in Hn.
        apply List.NoDup_remove_2 in Hn. apply Hn.
        apply in_or_app. left. exact Hin. }
      clear -Hnot. induction acc as [| [k0 v0] acc IH]; [reflexivity |].
      simpl in *. destruct (String.eqb_spec k k0) as [-> | N].
      - exfalso. apply Hnot. left. reflexivity.
      - rewrite IH; [reflexivity |]. intros H. apply Hnot. right. exact H. }
    rewrite Hset, IH.
    + rewrite <- app_assoc. reflexivity.
    + unfold PyDict.keys in *. rewrite map_app, <- app_assoc. exact Hn.
    + exact Hf'.
Qed.

(** Lower-casing the keys a second time changes nothing. *)
Lemma map_keys_lower_idem {V} (d : PyDict.dict V) :
  PyDict.map_keys lower (PyDict.map_keys lower d) = PyDict.map_keys lower d.
Proof.
  set (d' := PyDict.map_keys lower d).
  unfold PyDict.map_keys at 1. apply fold_set_fresh.
  - simpl. apply fold_set_nodup. constructor.
  - apply List.Forall_forall. intros k Hk. subst d'.
    apply keys_map_keys in Hk. apply in_map_iff in Hk.
    destruct Hk as (k0 & <- & _). apply PyStrFacts.lower_idem.
Qed.

End PyDictProps.

(** ** More on the scorer *)

Module ScorerProps.
Import PyStr PyNum AiEngine PyNumFacts PyStrFacts PyDictFacts.
Import MatcherFacts VerifierFacts VerifierSpec ScorerFacts ScorerSpec.
Import KnockoutSpec KnockoutFacts PipelineSpec.

(** The fields of [score_components], one by one. *)
Lemma components_fields (candidate : CandidateFacts)
    (required_skills : list string) (min_experience : Q) (text : string) :
  let c := score_components candidate required_skills min_experience text in
  let d := PyDict.map_keys lower (skills_with_years candidate) in
  let loop := fold_left (skill_depth_step d (py_max min_experience 1))
                        (map lower required_skills) ([], []) in
  let ms := jd_requirement_matches candidate in
  skill_depth_points c
  = (match fst loop with
     | [] => 0
     | _ => py_sum (fst loop) / inject_Z (Z.of_nat (length (fst loop)))
     end * 40)%Q
  /\ c_matched_skills c = snd loop
  /\ jd_requirements_points c
     = (if ((0 <? Z.of_nat (length ms))%Z && truthy text)%bool
        then (inject_Z (fst (verify_requirements ms text))
              / inject_Z (Z.of_nat (length ms)) * 30)%Q
        else 0%Q)
  /\ c_verified c = fst (verify_requirements ms text)
  /\ c_hallucinations c = snd (verify_requirements ms text)
  /\ c_total c = Z.of_nat (length ms)
  /\ experience_points c
     = (if Qle_bool min_experience (total_years_experience candidate)
        then 20%Q
        else (total_years_experience candidate / py_max min_experience 1
              * 20)%Q)
  /\ impact_points c
     = py_min 10 (inject_Z (metrics_bullet_count candidate) / 5 * 10).
Proof.
  cbv zeta. unfold score_components.
  destruct (fold_left _ (map lower required_skills) ([], []))
    as [parts matched].
  destruct (verify_requirements _ text) as [v h].
  repeat split.
Qed.

(** The loop keeps one depth per required skill and the matched skills
    in order. *)
Lemma skill_loop_shape (d : PyDict.dict Q) (eff : Q) (reqs : list string)
    (st : list Q * list string) :
  length (fst (fold_left (skill_depth_step d eff) reqs st))
  = length (fst st) + length reqs
  /\ snd (fold_left (skill_depth_step d eff) reqs st)
     = snd st ++ List.filter (matches d) reqs.
Proof.
  revert st. induction reqs as [| s reqs IH]; intros st.
  - simpl. rewrite app_nil_r. split; [lia | reflexivity].
  - cbn [fold_left List.filter]. destruct (IH (skill_depth_step d eff st s))
      as [IH1 IH2]. rewrite IH1, IH2.
    unfold skill_depth_step, matches.
    destruct (_fuzzy_match_skill s d) as [[k |] y]; cbn [fst snd].
    + rewrite length_app, <- app_assoc. simpl. split; [lia | reflexivity].
    + rewrite length_app. simpl. split; [lia | reflexivity].
Qed.

Lemma matches_lowered (skills : PyDict.dict Q) (required : list string) :
  List.filter (matches (PyDict.map_keys lower skills)) (map lower required)
  = Main.matched_ko skills required.
Proof.
  unfold Main.matched_ko. apply List.filter_ext_in. intros s Hs.
  apply in_map_iff in Hs. destruct Hs as (r & <- & _).
  unfold matches. symmetry. apply call_sites_agree.
Qed.

Lemma result_matched_skills (candidate : CandidateFacts)
    (required_skills : list string) (min_experience : Q)
    (job_title raw_resume_text : string) :
  matched_skills (calculate_deterministic_score candidate required_skills
                    min_experience job_title raw_resume_text)
  = Main.matched_ko (skills_with_years candidate) required_skills.
Proof.
  unfold calculate_deterministic_score. cbn [matched_skills].
  destruct (components_fields candidate required_skills min_experience
              raw_resume_text) as (_ & Hm & _).
  cbv zeta in Hm. rewrite Hm.
  destruct (skill_loop_shape
              (PyDict.map_keys lower (skills_with_years candidate))
              (py_max min_experience 1) (map lower required_skills) ([], []))
    as [_ Hs].
  rewrite Hs. cbn [snd app]. apply matches_lowered.
Qed.

(** The skills the scorer reports as matched are exactly the skills the
    knockout filter counts as present, in the same order, so
    [matched_skills_count] is the numerator of the coverage and never
    exceeds the number of required skills. *)
Theorem scorer_and_knockout_match_the_same_skills
    (candidate : CandidateFacts) (required_skills : list string)
    (min_experience : Q) (job_title raw_resume_text : string) :
  let r := calculate_deterministic_score candidate required_skills
             min_experience job_title raw_resume_text in
  matched_skills r
  = Main.matched_ko (skills_with_years candidate) required_skills
  /\ matched_skills_count r
     = Z.of_nat (matched_count (skills_with_years candidate)
                               required_skills)
  /\ (matched_skills_count r <= Z.of_nat (length required_skills))%Z.
Proof.
  intros r. subst r.
  pose proof (result_matched_skills candidate required_skills
                min_experience job_title raw_resume_text) as Hm.
  split; [exact Hm |].
  assert (Hc : matched_skills_count
                 (calculate_deterministic_score candidate required_skills
                    min_experience job_title raw_resume_text)
               = Z.of_nat (length (matched_skills
                   (calculate_deterministic_score candidate required_skills
                      min_experience job_title raw_resume_text))))
    by reflexivity.
  rewrite Hc, Hm, matched_ko_length. split; [reflexivity |].
  unfold matched_count. pose proof (filter_length_le
    (covered (skills_with_years candidate)) required_skills). lia.
Qed.

Lemma py_sum_snoc (l : list Q) (x : Q) :
  py_sum (l ++ [x]) = (py_sum l + x)%Q.
Proof. unfold py_sum. rewrite fold_left_app. reflexivity. Qed.

Lemma inject_length_snoc {A} (l : list A) (x : A) :
  (inject_Z (Z.of_nat (length (l ++ [x])))
   == inject_Z (Z.of_nat (length l)) + 1)%Q.
Proof.
  rewrite length_app. cbn [length]. rewrite Nat.add_1_r, Nat2Z.inj_succ.
  unfold Z.succ. apply inject_Z_succ.
Qed.

(** The depths add up to at most the number of matched skills. *)
Lemma skill_loop_sum (d : PyDict.dict Q) (eff : Q) (reqs : list string)
    (st : list Q * list string) :
  (py_sum (fst st) <= inject_Z (Z.of_nat (length (snd st))))%Q ->
  let st' := fold_left (skill_depth_step d eff) reqs st in
  (py_sum (fst st') <= inject_Z (Z.of_nat (length (snd st'))))%Q.
Proof.
  revert st. induction reqs as [| s reqs IH]; intros st H; [exact H |].
  cbn [fold_left]. apply IH. unfold skill_depth_step.
  destruct (_fuzzy_match_skill s d) as [[k |] y]; cbn [fst snd];
    rewrite py_sum_snoc.
  - rewrite inject_length_snoc.
    destruct (py_min_spec 1 (y / eff)) as (H1 & _). lra.
  - lra.
Qed.

Lemma Qdiv_le_compat (a b c : Q) :
  (a <= b)%Q -> (0 < c)%Q -> (a / c <= b / c)%Q.
Proof.
  intros Hab Hc. apply Qle_shift_div_r; [exact Hc |].
  assert (E : (b / c * c == b)%Q) by (field; lra). lra.
Qed.

(** The skill-depth component is at most 40 times the coverage that the
    knockout filter computes; a candidate below the 50% skill floor
    would earn less than 20 of the 40 skill points. *)
Theorem skill_depth_bounded_by_coverage (candidate : CandidateFacts)
    (required_skills : list string) (min_experience : Q) (text : string) :
  required_skills <> [] ->
  let c := score_components candidate required_skills min_experience text in
  let cov := Main.coverage (skills_with_years candidate) required_skills in
  (skill_depth_points c <= 40 * cov)%Q
  /\ ((cov < 1 # 2)%Q -> (skill_depth_points c < 20)%Q).
Proof.
  intros Hne c cov.
  assert (H : (skill_depth_points c <= 40 * cov)%Q); [| split; [exact H | lra]].
  subst c cov.
  destruct (components_fields candidate required_skills min_experience text)
    as (Hsd & _). cbv zeta in Hsd. rewrite Hsd. clear Hsd.
  set (d := PyDict.map_keys lower (skills_with_years candidate)).
  set (eff := py_max min_experience 1).
  destruct (skill_loop_shape d eff (map lower required_skills) ([], []))
    as [Hlen Hsnd].
  pose proof (skill_loop_sum d eff (map lower required_skills) ([], []))
    as Hsum. cbv zeta in Hsum. cbn [fst snd length] in Hsum, Hlen, Hsnd.
  specialize (Hsum (Qle_refl 0)). rewrite Nat.add_0_l in Hlen.
  rewrite Hsnd in Hsum. cbn [app] in Hsum.
  pose proof (matches_lowered (skills_with_years candidate) required_skills)
    as Hml. fold d in Hml. rewrite Hml in Hsum. clear Hml.
  unfold Main.coverage.
  set (loop := fold_left (skill_depth_step d eff)
                 (map lower required_skills) ([], [])) in *.
  destruct (fst loop) as [| p parts] eqn:E.
  - exfalso. cbn [length] in Hlen. rewrite length_map in Hlen.
    destruct required_skills; [contradiction | simpl in Hlen; lia].
  - rewrite <- Hlen.
    set (n := inject_Z (Z.of_nat (length (p :: parts)))).
    assert (Hn : (0 < n)%Q).
    { subst n. change 0%Q with (inject_Z 0). rewrite <- Zlt_Qlt.
      simpl. lia. }
    pose proof (Qdiv_le_compat _ _ n Hsum Hn). lra.
Qed.

Lemma skill_depth_bounded_by_coverage_witness :
  (skill_depth_points
     (score_components Examples.designer_candidate
        ["Python"; "FastAPI"; "PostgreSQL"] 5 Examples.designer_resume)
   < 20)%Q.
Proof.
  apply (skill_depth_bounded_by_coverage Examples.designer_candidate
           ["Python"; "FastAPI"; "PostgreSQL"] 5 Examples.designer_resume).
  - discriminate.
  - vm_compute. reflexivity.
Defined.

Lemma skill_loop_unmatched (d : PyDict.dict Q) (eff : Q)
    (reqs : list string) (st : list Q * list string) :
  List.filter (matches d) reqs = [] ->
  fst (fold_left (skill_depth_step d eff) reqs st)
  = fst st ++ repeat 0%Q (length reqs).
Proof.
  revert st. induction reqs as [| s reqs IH]; intros st H.
  - simpl. rewrite app_nil_r. reflexivity.
  - cbn [List.filter] in H. unfold matches in H at 1.
    cbn [fold_left]. unfold skill_depth_step at 2.
    destruct (_fuzzy_match_skill s d) as [[k |] y]; cbn [fst] in H;
      [discriminate |].
    rewrite (IH _ H). cbn [fst length repeat].
    rewrite <- app_assoc. reflexivity.
Qed.

Lemma py_sum_zeros (n : nat) : py_sum (repeat 0%Q n) = 0%Q.
Proof.
  unfold py_sum. induction n as [| n IH]; [reflexivity |].
  cbn [repeat fold_left]. exact IH.
Qed.

Lemma py_round1_zero (x : Q) : (x == 0)%Q -> (py_round1 x == 0)%Q.
Proof.
  intros E. unfold py_round1.
  assert (H : py_round (x * 10) = 0%Z).
  { assert (B : (0 <= py_round (x * 10) <= 0)%Z).
    { apply py_round_between; change (inject_Z 0) with 0%Q; lra. }
    lia. }
  rewrite H. reflexivity.
Qed.

(** When none of the required skills is present among the candidate's
    skills (in particular when the candidate has no skill or the job
    requires none), the skill-depth component and its reported value
    are 0 and no skill is reported as matched. *)
Theorem no_matching_skill_no_skill_points (candidate : CandidateFacts)
    (required_skills : list string) (min_experience : Q)
    (job_title text : string) :
  Main.matched_ko (skills_with_years candidate) required_skills = [] ->
  let r := calculate_deterministic_score candidate required_skills
             min_experience job_title text in
  (skill_depth_points
     (score_components candidate required_skills min_experience text)
   == 0)%Q
  /\ (skill_depth (breakdown r) == 0)%Q
  /\ matched_skills r = []
  /\ matched_skills_count r = 0%Z.
Proof.
  intros H r.
  assert (H0 : (skill_depth_points
                  (score_components candidate required_skills
                     min_experience text) == 0)%Q).
  { destruct (components_fields candidate required_skills min_experience
                text) as (Hsd & _). cbv zeta in Hsd. rewrite Hsd.
    rewrite <- matches_lowered in H.
    rewrite (skill_loop_unmatched _ _ _ _ H). cbn [fst app].
    destruct (repeat 0%Q (length (map lower required_skills))) as [| q l] eqn:E;
      [reflexivity |].
    rewrite <- E, py_sum_zeros. unfold Qdiv. ring. }
  pose proof (result_matched_skills candidate required_skills
                min_experience job_title text) as M1. fold r in M1.
  assert (M2 : matched_skills_count r
               = Z.of_nat (length (matched_skills r))) by reflexivity.
  rewrite M2, M1, H.
  repeat split; [exact H0 |].
  subst r. unfold calculate_deterministic_score.
  cbn [breakdown skill_depth]. apply py_round1_zero. exact H0.
Qed.

Lemma no_matching_skill_no_skill_points_witness :
  matched_skills
    (calculate_deterministic_score
       (mkFacts "J" "j@x.org" "" 3 [] [("java", 2%Q)] 0 [])
       ["python"; "fastapi"] 3 "" "") = [].
Proof.
  apply (no_matching_skill_no_skill_points
           (mkFacts "J" "j@x.org" "" 3 [] [("java", 2%Q)] 0 [])
           ["python"; "fastapi"] 3 "" "").
  vm_compute. reflexivity.
Defined.

(** The experience component is 20 exactly when the candidate has at
    least [min_experience] years and strictly less otherwise, and it
    never decreases when the years of experience grow. *)
Theorem experience_points_full_iff_and_monotone
    (c1 c2 : CandidateFacts) (required_skills : list string)
    (min_experience : Q) (text : string) :
  let e1 := experience_points
              (score_components c1 required_skills min_experience text) in
  let e2 := experience_points
              (score_components c2 required_skills min_experience text) in
  ((min_experience <= total_years_experience c1)%Q -> e1 = 20%Q)
  /\ ((total_years_experience c1 < min_experience)%Q -> (e1 < 20)%Q)
  /\ ((total_years_experience c1 <= total_years_experience c2)%Q ->
      (e1 <= e2)%Q).
Proof.
  intros e1 e2. subst e1 e2.
  destruct (components_fields c1 required_skills min_experience text)
    as (_ & _ & _ & _ & _ & _ & E1 & _).
  destruct (components_fields c2 required_skills min_experience text)
    as (_ & _ & _ & _ & _ & _ & E2 & _).
  cbv zeta in E1, E2. rewrite E1, E2. clear E1 E2.
  set (t1 := total_years_experience c1). set (t2 := total_years_experience c2).
  destruct (py_max_spec min_experience 1) as [M1 M2].
  set (eff := py_max min_experience 1) in *.
  assert (Heff : (0 < eff)%Q) by lra.
  assert (Hlow : forall t, (t < min_experience)%Q -> (t / eff * 20 < 20)%Q).
  { intros t Ht. assert (H : (t / eff < 1)%Q).
    { apply Qlt_shift_div_r; [exact Heff | lra]. }
    lra. }
  destruct (Qle_bool min_experience t1) eqn:B1;
    [apply Qle_bool_iff in B1 |
     assert (L1 : (t1 < min_experience)%Q)
       by (apply Qnot_le_lt; intros H; apply Qle_bool_iff in H; congruence)].
  - split; [reflexivity |]. split; [intros H; lra |]. intros H.
    assert (B2 : Qle_bool min_experience t2 = true)
      by (apply Qle_bool_iff; lra).
    rewrite B2. lra.
  - split; [intros H; lra |]. split; [intros _; apply Hlow; exact L1 |].
    intros H. destruct (Qle_bool min_experience t2) eqn:B2.
    + specialize (Hlow t1 L1). lra.
    + pose proof (Qdiv_le_compat t1 t2 eff H Heff). lra.
Qed.

Lemma experience_points_full_iff_and_monotone_witness :
  (experience_points
     (score_components Examples.rookie_candidate [] 5 "")
   <= experience_points
        (score_components Examples.tie_candidate [] 5 ""))%Q.
Proof.
  apply (experience_points_full_iff_and_monotone Examples.rookie_candidate
           Examples.tie_candidate [] 5 "").
  unfold Qle; simpl; lia.
Defined.

(** The impact component is twice the bullet count up to five bullets
    and 10 from five bullets on. *)
Theorem impact_points_two_per_bullet_capped (candidate : CandidateFacts)
    (required_skills : list string) (min_experience : Q) (text : string) :
  let im := impact_points
              (score_components candidate required_skills min_experience
                                text) in
  ((metrics_bullet_count candidate <= 5)%Z ->
   (im == 2 * inject_Z (metrics_bullet_count candidate))%Q)
  /\ ((5 <= metrics_bullet_count candidate)%Z -> (im == 10)%Q).
Proof.
  intros im. subst im.
  destruct (components_fields candidate required_skills min_experience text)
    as (_ & _ & _ & _ & _ & _ & _ & E).
  cbv zeta in E. rewrite E. clear E.
  set (b := metrics_bullet_count candidate).
  assert (Eb : (inject_Z b / 5 * 10 == 2 * inject_Z b)%Q) by (field).
  destruct (py_min_spec 10 (inject_Z b / 5 * 10)) as (H1 & H2 & H3).
  split; intros Hb.
  - assert (Hq : (inject_Z b <= 5)%Q).
    { change 5%Q with (inject_Z 5). rewrite <- Zle_Qle. exact Hb. }
    destruct H3 as [H3 | H3]; lra.
  - assert (Hq : (5 <= inject_Z b)%Q).
    { change 5%Q with (inject_Z 5). rewrite <- Zle_Qle. exact Hb. }
    destruct H3 as [H3 | H3]; lra.
Qed.

Lemma impact_points_two_per_bullet_capped_witness :
  (impact_points
     (score_components Examples.perfect_candidate [] 3 "") == 10)%Q.
Proof.
  apply (impact_points_two_per_bullet_capped Examples.perfect_candidate
           [] 3 "").
  simpl. lia.
Defined.

End ScorerProps.

(** ** More on the verifier *)

Module VerifierProps.
Import PyStr PyNum AiEngine PyNumFacts PyStrFacts.
Import VerifierSpec VerifierFacts ScorerFacts ScorerProps PipelineSpec.

Lemma split_acc_blank (s : string) :
  all_space s = true -> split_acc EmptyString s = [].
Proof.
  induction s as [| c s IH]; [reflexivity |].
  cbn [all_space split_acc]. intros H. apply andb_true_iff in H.
  destruct H as [Hc Hs]. rewrite Hc. cbn [is_empty]. apply IH. exact Hs.
Qed.

(** A citation made of white space only normalises to the empty
    string. *)
Lemma normalize_blank (s : string) :
  all_space s = true -> normalize s = EmptyString.
Proof.
  intros H. unfold normalize, split. rewrite (split_acc_blank s H).
  reflexivity.
Qed.

(** A claimed match whose citation is not empty but consists of white
    space only is counted as verified, whatever the (non-empty) resume
    text says: the citation is truthy, and its normalised form is the
    empty string, which occurs in every text. *)
Theorem blank_citation_counts_as_verified (req c resume : string)
    (ms1 ms2 : list RequirementMatch) :
  all_space c = true -> c <> EmptyString -> resume <> EmptyString ->
  let m := mkMatch req true (Some c) in
  verify_requirements (ms1 ++ m :: ms2) resume
  = (fst (verify_requirements (ms1 ++ ms2) resume) + 1,
     snd (verify_requirements (ms1 ++ ms2) resume))%Z.
Proof.
  intros Hb Hc Hr m. rewrite !(verify_requirements_counts _ _ Hr).
  rewrite !count_insert. cbn [fst snd].
  assert (V : verified_b resume m = true).
  { unfold verified_b, m. cbn [is_met citation_quote andb].
    apply truthy_nonempty in Hc. rewrite Hc, (normalize_blank c Hb).
    apply str_in_empty. }
  unfold hallucination_b. rewrite V. cbn [is_met m negb andb b2z].
  f_equal; lia.
Qed.

Lemma blank_citation_counts_as_verified_witness :
  verify_requirements ([] ++ [mkMatch "Must know Rust" true (Some "  ")])
    "Ten years of COBOL." = (1, 0)%Z.
Proof.
  pose proof (blank_citation_counts_as_verified "Must know Rust" "  "
                "Ten years of COBOL." [] []) as H.
  rewrite H; [reflexivity | reflexivity | discriminate | discriminate].
Defined.

(** [round] respects equality of rationals and is monotone. *)
Lemma py_round_eq (x y : Q) : (x == y)%Q -> py_round x = py_round y.
Proof.
  intros E. unfold py_round. rewrite (Qfloor_comp x y E).
  assert (E' : (x - inject_Z (Qfloor y) == y - inject_Z (Qfloor y))%Q)
    by (rewrite E; reflexivity).
  rewrite (Qcompare_comp _ _ E' (1 # 2) (1 # 2) (Qeq_refl _)).
  reflexivity.
Qed.

Lemma py_round_monotone (x y : Q) :
  (x <= y)%Q -> (py_round x <= py_round y)%Z.
Proof.
  intros H. destruct (Qle_lt_or_eq _ _ H) as [L | E];
    [| rewrite (py_round_eq x y E); lia].
  destruct (py_round_near x) as [X1 X2].
  destruct (py_round_near y) as [Y1 Y2].
  assert (U : (inject_Z (py_round x) < inject_Z (py_round y + 1))%Q).
  { rewrite inject_Z_succ. lra. }
  rewrite <- Zlt_Qlt in U. lia.
Qed.

Lemma jd_points_add_unverified (v n : Z) :
  (0 <= v <= n)%Z ->
  ((if (0 <? n + 1)%Z then inject_Z v / inject_Z (n + 1) * 30 else 0)
   <= (if (0 <? n)%Z then inject_Z v / inject_Z n * 30 else 0))%Q.
Proof.
  intros [Hv Hn].
  assert (Hv' : (0 <= inject_Z v)%Q)
    by (change 0%Q with (inject_Z 0); rewrite <- Zle_Qle; exact Hv).
  destruct (0 <? n + 1)%Z eqn:E1; [| apply Z.ltb_ge in E1; lia].
  destruct (0 <? n)%Z eqn:E2.
  - apply Z.ltb_lt in E2.
    assert (Hn' : (0 < inject_Z n)%Q)
      by (change 0%Q with (inject_Z 0); rewrite <- Zlt_Qlt; exact E2).
    rewrite inject_Z_succ.
    assert (D : (inject_Z v / (inject_Z n + 1) <= inject_Z v / inject_Z n)%Q).
    { apply Qle_shift_div_l; [exact Hn' |].
      set (q := (inject_Z v / (inject_Z n + 1))%Q).
      assert (Eq : (q * (inject_Z n + 1) == inject_Z v)%Q)
        by (subst q; field; lra).
      assert (Hq : (0 <= q)%Q) by (subst q; apply Qdiv_nonneg; lra).
      lra. }
    lra.
  - apply Z.ltb_ge in E2. assert (v = 0%Z) by lia. subst v.
    unfold Qdiv. rewrite Qmult_0_l, Qmult_0_l. lra.
Qed.

(** A match that is not verified never raises the score: adding it to
    the candidate's matches, anywhere in the list, leaves the number of
    verified requirements unchanged and makes neither the
    JD-requirements component nor [final_score] larger. *)
Theorem unverified_match_never_raises_score (candidate : CandidateFacts)
    (required_skills : list string) (min_experience : Q)
    (job_title resume : string) (ms1 ms2 : list RequirementMatch)
    (m : RequirementMatch) :
  verified_b resume m = false ->
  let without := set_matches candidate (ms1 ++ ms2) in
  let with_m := set_matches candidate (ms1 ++ m :: ms2) in
  let score c := calculate_deterministic_score c required_skills
                   min_experience job_title resume in
  let comp c := score_components c required_skills min_experience resume in
  verified_requirements (score with_m)
  = verified_requirements (score without)
  /\ (jd_requirements_points (comp with_m)
      <= jd_requirements_points (comp without))%Q
  /\ (final_score (score with_m) <= final_score (score without))%Z.
Proof.
  intros Hv without with_m score comp.
  destruct (components_fields with_m required_skills min_experience resume)
    as (S1 & _ & J1 & V1 & _ & _ & E1 & I1).
  destruct (components_fields without required_skills min_experience resume)
    as (S2 & _ & J2 & V2 & _ & _ & E2 & I2).
  cbv zeta in *. fold (comp with_m) in S1, J1, V1, E1, I1.
  fold (comp without) in S2, J2, V2, E2, I2.
  cbn [with_m without set_matches skills_with_years jd_requirement_matches
       total_years_experience metrics_bullet_count] in *.
  assert (Ever : fst (verify_requirements (ms1 ++ m :: ms2) resume)
                 = fst (verify_requirements (ms1 ++ ms2) resume)).
  { destruct resume as [| ch rest].
    { unfold verify_requirements. cbn [truthy is_empty negb].
      rewrite !andb_false_r. reflexivity. }
    rewrite !verify_requirements_counts by discriminate.
    cbn [fst]. rewrite count_insert, Hv. cbn [b2z]. lia. }
  assert (Hjd : (jd_requirements_points (comp with_m)
                 <= jd_requirements_points (comp without))%Q).
  { rewrite J1, J2, Ever.
    destruct (verify_requirements_range (ms1 ++ ms2) resume) as [R _].
    replace (Z.of_nat (length (ms1 ++ m :: ms2)))
      with (Z.of_nat (length (ms1 ++ ms2)) + 1)%Z
      by (rewrite !length_app; simpl; lia).
    pose proof (jd_points_add_unverified _ _ R) as P.
    destruct (truthy resume); [| rewrite !andb_false_r; lra].
    rewrite !andb_true_r. exact P. }
  split; [| split; [exact Hjd |]].
  - unfold score, calculate_deterministic_score.
    cbn [verified_requirements]. fold (comp with_m) (comp without).
    rewrite V1, V2. exact Ever.
  - unfold score, calculate_deterministic_score. cbn [final_score].
    fold (comp with_m) (comp without).
    apply py_round_monotone. unfold raw_score.
    rewrite S1, S2, E1, E2, I1, I2. lra.
Qed.

Lemma unverified_match_never_raises_score_witness :
  (final_score
     (calculate_deterministic_score
        (set_matches Examples.designer_candidate
           ([mkMatch "Must have 3 years of experience" true
                     (Some "six years as designer")]
            ++ [mkMatch "Must know Python" true
                        (Some "five years of Python")]))
        [] 5 "" Examples.designer_resume)
   <= final_score
        (calculate_deterministic_score
           (set_matches Examples.designer_candidate
              ([mkMatch "Must have 3 years of experience" true
                        (Some "six years as designer")] ++ []))
           [] 5 "" Examples.designer_resume))%Z.
Proof.
  apply (unverified_match_never_raises_score Examples.designer_candidate
           [] 5 "" Examples.designer_resume
           [mkMatch "Must have 3 years of experience" true
                    (Some "six years as designer")] []
           (mkMatch "Must know Python" true (Some "five years of Python"))).
  vm_compute. reflexivity.
Defined.

End VerifierProps.

(** ** Letter case *)

Module CaseProps.
Import PyStr PyNum AiEngine PyStrFacts PyDictFacts PyDictProps.
Import PipelineSpec.

Lemma map_lower_idem (l : list string) :
  map lower (map lower l) = map lower l.
Proof.
  rewrite map_map. apply map_ext. intros s. apply lower_idem.
Qed.

Lemma lowered_key_set_idem (d : PyDict.dict Q) :
  Main.lowered_key_set (PyDict.map_keys lower d) = Main.lowered_key_set d.
Proof.
  unfold Main.lowered_key_set. apply set_eq. intros x.
  rewrite !elem_of_list_to_set, !list_elem_of_In, !in_map_iff.
  split.
  - intros (k & <- & Hk). apply keys_map_keys in Hk.
    apply in_map_iff in Hk. destruct Hk as (k0 & <- & Hk0).
    exists k0. split; [symmetry; apply lower_idem | exact Hk0].
  - intros (k0 & <- & Hk0). exists (lower k0).
    split; [apply lower_idem |].
    apply keys_map_keys. apply in_map. exact Hk0.
Qed.

(** Letter case never matters: lower-casing the required skills, or the
    keys of the candidate's skill dictionary, beforehand changes neither
    the result of the scorer nor the decision of the knockout filter. *)
Theorem skills_are_case_insensitive (candidate : CandidateFacts)
    (required_skills : list string) (min_experience : Q)
    (job_title text : string) :
  let lowered :=
    set_skills candidate
      (PyDict.map_keys lower (skills_with_years candidate)) in
  calculate_deterministic_score candidate (map lower required_skills)
    min_experience job_title text
  = calculate_deterministic_score candidate required_skills min_experience
      job_title text
  /\ calculate_deterministic_score lowered required_skills min_experience
       job_title text
     = calculate_deterministic_score candidate required_skills
         min_experience job_title text
  /\ Main.knockout_stage (total_years_experience candidate)
       (skills_with_years candidate) (map lower required_skills)
       min_experience
     = Main.knockout_stage (total_years_experience candidate)
         (skills_with_years candidate) required_skills min_experience
  /\ Main.knockout_stage (total_years_experience lowered)
       (skills_with_years lowered) required_skills min_experience
     = Main.knockout_stage (total_years_experience candidate)
         (skills_with_years candidate) required_skills min_experience.
Proof.
  intros lowered. repeat split.
  - unfold calculate_deterministic_score, score_components.
    rewrite map_lower_idem. reflexivity.
  - unfold calculate_deterministic_score, score_components.
    cbn [lowered set_skills skills_with_years total_years_experience
         metrics_bullet_count jd_requirement_matches].
    rewrite map_keys_lower_idem. reflexivity.
  - unfold Main.knockout_stage, Main.coverage, Main.matched_ko.
    rewrite map_lower_idem, !length_map. reflexivity.
  - cbn [lowered set_skills skills_with_years total_years_experience].
    unfold Main.knockout_stage, Main.coverage, Main.matched_ko.
    rewrite lowered_key_set_idem. reflexivity.
Qed.

(** The unit test [test_case_insensitive], through the scorer. *)
Example upper_case_required_skill :
  matched_skills
    (calculate_deterministic_score
       (mkFacts "P" "p@x.org" "" 2 [] [("Python 3", 2%Q)] 0 [])
       ["PYTHON"] 2 "" "") = ["python"].
Proof. vm_compute. reflexivity. Qed.

End CaseProps.

(** ** Invariants of the per-resume code and of the batch loop *)

Module PipelineProps.
Import PyStr PyNum AiEngine Store PyList SortFacts PipelineSpec.

Lemma find_applicant_none (db : list Applicant) (j : Z) (e : string) :
  find_applicant db j e = None -> ~ In (j, e) (map job_email db).
Proof.
  unfold find_applicant. intros F Hin. apply in_map_iff in Hin.
  destruct Hin as (a & E & Ha). apply (find_none _ _ F) in Ha.
  unfold job_email in E. injection E as E1 E2. subst j e.
  rewrite Z.eqb_refl, String.eqb_refl in Ha. discriminate.
Qed.

Lemma insert_applicant_unique (db db' : list Applicant) (row : Applicant) :
  unique_job_email db -> insert_applicant db row = Some db' ->
  unique_job_email db' /\ db' = db ++ [row].
Proof.
  unfold insert_applicant, unique_job_email. intros U.
  destruct (find_applicant db (a_job_id row) (a_email row)) eqn:F;
    [discriminate |].
  intros [= <-]. split; [| reflexivity].
  rewrite map_app. apply List.NoDup_app.
  - exact U.
  - constructor; [intros [] | constructor].
  - intros x Hx [<- | []]. apply (find_applicant_none _ _ _ F). exact Hx.
Qed.

Lemma process_file_unique (db_job_id company_id : Z) (title : string)
    (min_experience : Q) (required_skills : list string)
    (st : Main.LoopState) (f : Main.ResumeFile) :
  unique_job_email (Main.db st) ->
  unique_job_email
    (Main.db (Main.process_file db_job_id company_id title min_experience
                required_skills st f)).
Proof.
  intros U. unfold Main.process_file.
  destruct (Nat.ltb _ 50); [exact U |].
  destruct (is_duplicate _ _ _); [exact U |].
  destruct (insert_applicant (Main.db st) _) as [db' |] eqn:I; [| exact U].
  cbn [Main.db]. apply (insert_applicant_unique _ _ _ U I).
Qed.

(** Neither pipeline ever stores two applicants with the same job and
    e-mail: starting from a table that satisfies the uniqueness
    constraint, the table after the whole batch loop and the table
    after one run of the queued task satisfy it too, also when the
    e-mail extracted by the model differs from the pre-scanned one. *)
Theorem pipelines_keep_job_email_unique
    (db0 : list Applicant) (db_job_id company_id : Z) (title : string)
    (min_experience : Q) (required_skills : list string)
    (files : list Main.ResumeFile) (st : Main.LoopState)
    (job : option Job) (text : string) (pre_scan_email : option string)
    (candidate_data : CandidateFacts) :
  unique_job_email db0 ->
  Main.db st = db0 ->
  unique_job_email
    (Main.db (fold_left (Main.process_file db_job_id company_id title
                           min_experience required_skills) files st))
  /\ unique_job_email
       (snd (Tasks.process_resume job db0 text pre_scan_email
               candidate_data)).
Proof.
  intros U E. split.
  - rewrite <- E in U. clear E. revert st U.
    induction files as [| f files IH]; intros st U; [exact U |].
    cbn [fold_left]. apply IH. apply process_file_unique. exact U.
  - unfold Tasks.process_resume, Tasks.process_resume_task.
    destruct job as [j |]; [| exact U].
    destruct (negb (truthy text) || _)%bool; [exact U |].
    destruct (is_duplicate _ _ _); [exact U |].
    destruct (insert_applicant db0 _) as [db' |] eqn:I; [| exact U].
    cbn [snd]. apply (insert_applicant_unique _ _ _ U I).
Qed.

Lemma pipelines_keep_job_email_unique_witness :
  unique_job_email
    (snd (Tasks.process_resume (Some Examples.backend_job)
            [Examples.applicant_scored "carol.designer@example.com"
               (Some 10%Z)]
            Examples.designer_resume None Examples.designer_candidate)).
Proof.
  apply (pipelines_keep_job_email_unique
           [Examples.applicant_scored "carol.designer@example.com"
              (Some 10%Z)]
           14 1 "" 5 [] []
           (Main.mkLoop
              [Examples.applicant_scored "carol.designer@example.com"
                 (Some 10%Z)] [] (Main.mkStats 0 0 0 0 0 0 0) [])).
  - unfold unique_job_email. simpl. constructor; [intros [] | constructor].
  - reflexivity.
Defined.

Lemma count_app {A} (p : A -> bool) (l1 l2 : list A) :
  count p (l1 ++ l2) = (count p l1 + count p l2)%Z.
Proof. unfold count. rewrite List.filter_app, length_app. lia. Qed.

Lemma dedup_events_counts (e : option string) :
  count is_progress (dedup_events e) = 0%Z
  /\ count is_conflict (dedup_events e) = 0%Z
  /\ count is_extract (dedup_events e) = 0%Z.
Proof. destruct e; repeat split. Qed.

Lemma process_file_invariant (db_job_id company_id : Z) (title : string)
    (min_experience : Q) (required_skills : list string)
    (n0 n : nat) (st : Main.LoopState) (f : Main.ResumeFile) :
  loop_invariant n0 n st ->
  loop_invariant n0 (S n)
    (Main.process_file db_job_id company_id title min_experience
       required_skills st f).
Proof.
  unfold loop_invariant. cbv zeta.
  intros (I1 & I2 & I3 & I4 & I5 & I6 & I7).
  destruct (dedup_events_counts (Main.pre_scan_email f)) as (D1 & D2 & D3).
  unfold Main.process_file.
  destruct (Nat.ltb _ 50).
  { cbn [Main.stats Main.candidates Main.db Main.trace].
    rewrite !count_app, I3, I5.
    change (count is_progress [EvAdvanceProgress]) with 1%Z.
    change (count is_conflict [EvAdvanceProgress]) with 0%Z.
    change (count is_extract [EvAdvanceProgress]) with 0%Z.
    repeat split; try lia. }
  destruct (is_duplicate _ _ _).
  { cbn [Main.stats Main.candidates Main.db Main.trace Main.total_processed
         Main.duplicates_skipped Main.knocked_out Main.scored].
    rewrite !count_app, I3, I5, D1, D2, D3.
    change (count is_progress [EvAdvanceProgress]) with 1%Z.
    change (count is_conflict [EvAdvanceProgress]) with 0%Z.
    change (count is_extract [EvAdvanceProgress]) with 0%Z.
    repeat split; try lia. }
  unfold Main.screen_candidate.
  destruct (fst (Main.knockout_stage _ _ _ _));
    cbn [fst snd Main.count_outcome];
    [| destruct (status (calculate_deterministic_score _ _ _ _ _));
       cbn [Main.bump_status] ];
    (destruct (insert_applicant (Main.db st) _) as [db' |] eqn:I;
     [ unfold insert_applicant in I;
       destruct (find_applicant _ _ _); [discriminate |];
       injection I as <- |];
     cbn [Main.stats Main.candidates Main.db Main.trace
          Main.total_processed Main.duplicates_skipped Main.knocked_out
          Main.scored Main.set_counts];
     rewrite !count_app, ?length_app, I3, I5, D1, D2, D3;
     cbn [length];
     unfold count; cbn [List.filter is_progress is_conflict is_extract
                        length app];
     unfold count in *; repeat split; lia).
Qed.

(** The counters of a finished batch: [total_processed] is the number
    of candidates reported and of rows added to the table; the progress
    counter has advanced once per PDF of the archive, skipped,
    duplicate and failed ones included; the extraction service was
    called once for each resume that went through the knockout filter,
    and never for a skipped or duplicate one; and
    [knocked_out + scored] exceeds [total_processed] by the number of
    resumes rejected by the uniqueness constraint at persist time. *)
Theorem batch_counters
    (db0 : list Applicant) (db_job_id company_id : Z) (title : string)
    (min_experience : Q) (required_skills : list string)
    (files : list Main.ResumeFile) :
  exists r st,
    Main.process_resumes_background true true db0 db_job_id company_id
      title min_experience required_skills files = Some (r, st)
    /\ Main.r_total_processed r
       = Z.of_nat (length (Main.r_all_candidates r))
    /\ length (Main.db st)
       = length db0 + length (Main.r_all_candidates r)
    /\ count is_progress (Main.trace st) = Z.of_nat (length files)
    /\ count is_extract (Main.trace st)
       = (Main.r_knocked_out r + Main.r_scored r)%Z
    /\ (Main.r_knocked_out r + Main.r_scored r
        = Main.r_total_processed r + count is_conflict (Main.trace st))%Z
    /\ (0 <= Main.r_duplicates_skipped r)%Z
    /\ (Main.r_total_processed r + Main.r_duplicates_skipped r
        <= Z.of_nat (length files))%Z.
Proof.
  unfold Main.process_resumes_background. cbn [negb].
  eexists. eexists. split; [reflexivity |].
  set (step := Main.process_file db_job_id company_id title min_experience
                 required_skills).
  assert (Inv : forall fs n st,
            loop_invariant (length db0) n st ->
            loop_invariant (length db0) (n + length fs)
                           (fold_left step fs st)).
  { induction fs as [| f fs IH]; intros n st H.
    - simpl. rewrite Nat.add_0_r. exact H.
    - cbn [fold_left length].
      replace (n + S (length fs)) with (S n + length fs) by lia.
      apply IH. apply process_file_invariant. exact H. }
  specialize (Inv files 0
                (Main.mkLoop db0 [] (Main.mkStats 0 0 0 0 0 0 0) [])).
  match type of Inv with
  | ?P -> _ =>
      assert (H0 : P)
        by (unfold loop_invariant, count; repeat split; simpl; lia)
  end.
  specialize (Inv H0). clear H0. cbn [Nat.add] in Inv.
  unfold loop_invariant in Inv. cbv zeta in Inv.
  destruct Inv as (I1 & I2 & I3 & I4 & I5 & I6 & I7).
  unfold Main.build_results.
  cbn [Main.r_total_processed Main.r_all_candidates Main.r_knocked_out
       Main.r_scored Main.r_duplicates_skipped].
  rewrite sort_reverse_length.
  assert (C : (0 <= count is_conflict
                      (Main.trace (fold_left step files
                         (Main.mkLoop db0 [] (Main.mkStats 0 0 0 0 0 0 0)
                                      []))))%Z)
    by (unfold count; lia).
  repeat split; try assumption; lia.
Qed.

(** The queued task advances the job's progress counter twice for a
    resume it skips (too little text) or drops as a pre-scan duplicate:
    once explicitly and once more in its [finally] block; such a resume
    costs no extraction call and leaves the table as it was.  Every
    other resume costs exactly one extraction call and advances the
    counter once, also when the row is rejected by the uniqueness
    constraint; the scorer then runs once if the extraction call
    returns, and if it raises (no model in the worker) nothing is
    scored and the table is left as it was. *)
Theorem process_resume_progress (job : Job) (db : list Applicant)
    (text : string) (pre_scan_email : option string)
    (extraction : option CandidateFacts) :
  let run := Tasks.process_resume_task (Some job) db text pre_scan_email
               extraction in
  let skipped :=
    (negb (truthy text) || Nat.ltb (String.length (strip text)) 50)%bool in
  let duplicate := is_duplicate db (job_id job) pre_scan_email in
  ((skipped || duplicate)%bool = true ->
   count is_progress (fst run) = 2%Z
   /\ count is_extract (fst run) = 0%Z
   /\ existsb is_scorer (fst run) = false
   /\ snd run = db)
  /\ ((skipped || duplicate)%bool = false ->
      count is_progress (fst run) = 1%Z
      /\ count is_extract (fst run) = 1%Z
      /\ count is_scorer (fst run)
         = match extraction with Some _ => 1%Z | None => 0%Z end
      /\ (extraction = None -> snd run = db)).
Proof.
  cbv zeta. unfold Tasks.process_resume_task.
  destruct (negb (truthy text) || _)%bool.
  { split; [intros _ | discriminate]. repeat split. }
  destruct (is_duplicate db (job_id job) pre_scan_email).
  { split; [intros _ | discriminate].
    destruct pre_scan_email; repeat split. }
  split; [discriminate | intros _].
  destruct extraction as [candidate_data |].
  - destruct (insert_applicant db _); cbn [fst];
      destruct pre_scan_email; repeat split; discriminate.
  - destruct pre_scan_email; repeat split.
Qed.

Lemma process_resume_progress_witness :
  count is_scorer
    (fst (Tasks.process_resume_task (Some Examples.backend_job) []
            Examples.rookie_resume None None)) = 0%Z
  /\ count is_progress
       (fst (Tasks.process_resume_task (Some Examples.backend_job) []
               "Too short" None (Some Examples.rookie_candidate))) = 2%Z.
Proof.
  split.
  - pose proof (process_resume_progress Examples.backend_job []
                  Examples.rookie_resume None None) as H.
    cbv zeta in H. destruct H as [_ H].
    destruct H as (_ & _ & H & _); [vm_compute; reflexivity | exact H].
  - apply (process_resume_progress Examples.backend_job [] "Too short"
             None (Some Examples.rookie_candidate)).
    reflexivity.
Defined.

Lemma count_two_disjoint {A} (p q : A -> bool) (l : list A) :
  (forall x, p x = true -> q x = false) ->
  (count p l + count q l <= Z.of_nat (length l))%Z.
Proof.
  intros D. unfold count. induction l as [| x l IH]; simpl; [lia |].
  destruct (p x) eqn:P.
  - rewrite (D x P). simpl. lia.
  - destruct (q x); simpl; lia.
Qed.

(** The aggregation reports every persisted applicant as processed and
    as scored and none as knocked out, whatever the rows say;
    [duplicates_skipped] is never negative; the shortlist never
    exceeds the number of applicants counted, and neither do the
    review count and the rejected count together. *)
Theorem payload_counters (job : Job) (applicants : list Applicant) :
  let p := Tasks._build_results_payload job applicants in
  Tasks.p_total_processed p = Z.of_nat (length applicants)
  /\ Tasks.p_scored p = Z.of_nat (length applicants)
  /\ Tasks.p_knocked_out p = 0%Z
  /\ length (Tasks.p_all_candidates p) = length applicants
  /\ (0 <= Tasks.p_duplicates_skipped p)%Z
  /\ Tasks.p_shortlisted_count p = Z.of_nat (length (Tasks.p_shortlisted p))
  /\ (Tasks.p_shortlisted_count p <= Tasks.p_total_processed p)%Z
  /\ (Tasks.p_review_count p + Tasks.p_rejected_count p
      <= Tasks.p_total_processed p)%Z.
Proof.
  intros p. subst p. unfold Tasks._build_results_payload.
  cbn [Tasks.p_total_processed Tasks.p_scored Tasks.p_knocked_out
       Tasks.p_all_candidates Tasks.p_duplicates_skipped
       Tasks.p_shortlisted_count Tasks.p_shortlisted Tasks.p_review_count
       Tasks.p_rejected_count].
  rewrite !sort_reverse_length.
  set (sorted := sort_reverse Tasks.sort_key applicants).
  assert (L : length sorted = length applicants)
    by apply sort_reverse_length.
  repeat split; try lia.
  - destruct (top_10_percent_prefix sorted) as [T0 T1].
    destruct (Nat.eq_dec (length sorted) 0) as [E | N].
    + rewrite (T0 E). simpl. lia.
    + destruct (T1 ltac:(lia)) as [-> _]. rewrite length_firstn. lia.
  - rewrite <- L. apply count_two_disjoint. intros x Hx.
    apply String.eqb_eq in Hx. rewrite Hx. reflexivity.
Qed.

Lemma sorted_prefix_dominates {A} (R : A -> A -> Prop) (l : list A) :
  StronglySorted R l ->
  forall n a b, In a (firstn n l) -> In b (skipn n l) -> R a b.
Proof.
  induction 1 as [| x l Hs IH Hx]; intros n a b Ha Hb.
  - rewrite firstn_nil in Ha. destruct Ha.
  - destruct n as [| n]; [destruct Ha |].
    cbn [firstn skipn] in Ha, Hb. destruct Ha as [<- | Ha].
    + rewrite List.Forall_forall in Hx. apply Hx.
      rewrite <- (firstn_skipn n l). apply in_or_app. right. exact Hb.
    + apply (IH n); assumption.
Qed.

(** Nobody left out of the shortlist outranks a shortlisted candidate:
    in the batch result and in the aggregated payload alike, every
    candidate after the shortlisted prefix of [all_candidates] has a
    score not above the score of any shortlisted candidate. *)
Theorem shortlist_holds_the_top_scores (st : Main.LoopState) (job : Job)
    (applicants : list Applicant) :
  let r := Main.build_results st in
  let p := Tasks._build_results_payload job applicants in
  (forall a b,
     In a (Main.r_shortlisted r) ->
     In b (skipn (length (Main.r_shortlisted r)) (Main.r_all_candidates r)) ->
     (Main.cr_match_score b <= Main.cr_match_score a)%Z)
  /\ (forall a b,
        In a (Tasks.p_shortlisted p) ->
        In b (skipn (length (Tasks.p_shortlisted p))
                    (Tasks.p_all_candidates p)) ->
        (Tasks.sort_key b <= Tasks.sort_key a)%Z).
Proof.
  assert (G : forall {A} (key : A -> Z) (l : list A) a b,
            In a (top_10_percent (sort_reverse key l)) ->
            In b (skipn (length (top_10_percent (sort_reverse key l)))
                        (sort_reverse key l)) ->
            (key b <= key a)%Z).
  { intros A key l a b Ha Hb.
    pose proof (sort_reverse_sorted key l) as S.
    set (s := sort_reverse key l) in *.
    destruct (top_10_percent_prefix s) as [T0 T1].
    destruct (Nat.eq_dec (length s) 0) as [E | N].
    - rewrite (T0 E) in Ha. destruct Ha.
    - destruct (T1 ltac:(lia)) as [Tp Tl]. rewrite Tl in Hb.
      rewrite Tp in Ha.
      apply (sorted_prefix_dominates (desc key) s S _ a b Ha Hb). }
  intros r p. subst r p. split; intros a b Ha Hb.
  - apply (G _ Main.cr_match_score (Main.candidates st) a b Ha Hb).
  - apply (G _ Tasks.sort_key applicants a b Ha Hb).
Qed.

Lemma shortlist_holds_the_top_scores_witness :
  (Tasks.sort_key (Examples.applicant_scored "b" None)
   <= Tasks.sort_key (Examples.applicant_scored "c" (Some 75%Z)))%Z.
Proof.
  apply (shortlist_holds_the_top_scores
           (Main.mkLoop [] [] (Main.mkStats 0 0 0 0 0 0 0) [])
           Examples.backend_job Examples.three_applicants).
  - vm_compute. left. reflexivity.
  - vm_compute. right. left. reflexivity.
Defined.

End PipelineProps.

(** ** The job tracker *)

Module TrackerFacts.
Import JobTracker PyDictFacts PyDictProps.

Lemma get_self {V} (k : string) (v : V) (d : PyDict.dict V) :
  PyDict.get k (PyDict.set k v d) = Some v.
Proof. rewrite get_set_eqb, String.eqb_refl. reflexivity. Qed.

Lemma get_other {V} (k k' : string) (v : V) (d : PyDict.dict V) :
  k <> k' -> PyDict.get k (PyDict.set k' v d) = PyDict.get k d.
Proof.
  intros N. rewrite get_set_eqb.
  destruct (String.eqb_spec k k'); [contradiction | reflexivity].
Qed.

(** A freshly created job is pending with nothing processed, no results
    and no error; its own tenant (and a caller that names no tenant)
    reads it back, every other tenant gets nothing, and the other jobs
    of the tracker read as before. *)
Theorem create_job_then_get (jobs : Jobs) (job_id : string)
    (now1 now2 total company : Z) :
  let created := create_job jobs job_id now1 now2 total company in
  let j := mkTracked job_id company PENDING total 0 now1 now2 None None in
  fst created = job_id
  /\ get_job (snd created) job_id (Some company) = Some j
  /\ get_job (snd created) job_id None = Some j
  /\ (forall other, other <> company ->
                    get_job (snd created) job_id (Some other) = None)
  /\ (forall k c, k <> job_id ->
                  get_job (snd created) k c = get_job jobs k c).
Proof.
  cbv zeta. unfold create_job, get_job. cbn [fst snd].
  rewrite get_self. cbn [company_id]. rewrite Z.eqb_refl.
  repeat split.
  - intros other N. destruct (Z.eqb_spec company other);
      [congruence | reflexivity].
  - intros k c N. rewrite (get_other k job_id _ _ N). reflexivity.
Qed.

Lemma create_job_then_get_witness :
  get_job (snd (create_job [] "7f3c" 10 11 4 1)) "7f3c" (Some 2%Z) = None.
Proof.
  pose proof (create_job_then_get [] "7f3c" 10 11 4 1) as H.
  cbv zeta in H. destruct H as (_ & _ & _ & H & _). apply H. lia.
Defined.

(** The three updates keep what they do not set. *)
Lemma update_status_get (jobs : Jobs) (k k' : string) (s : JobStatus)
    (err : option string) (now : Z) :
  PyDict.get k (update_status jobs k' s err now)
  = match PyDict.get k jobs with
    | Some j =>
        if String.eqb k k'
        then Some (mkTracked (id j) (company_id j) s (total_resumes j)
                     (processed j) (created_at j) now (results j)
                     (if error_given err then err else error j))
        else Some j
    | None => None
    end.
Proof.
  unfold update_status. destruct (String.eqb_spec k k') as [-> | N].
  - destruct (PyDict.get k' jobs) as [j |] eqn:G; [| exact G].
    apply get_self.
  - destruct (PyDict.get k' jobs) as [j' |].
    + rewrite (get_other _ _ _ _ N). destruct (PyDict.get k jobs); reflexivity.
    + destruct (PyDict.get k jobs); reflexivity.
Qed.

Lemma update_progress_get (jobs : Jobs) (k k' : string) (n now : Z) :
  PyDict.get k (update_progress jobs k' n now)
  = match PyDict.get k jobs with
    | Some j =>
        if String.eqb k k'
        then Some (mkTracked (id j) (company_id j) (status j)
                     (total_resumes j) n (created_at j) now (results j)
                     (error j))
        else Some j
    | None => None
    end.
Proof.
  unfold update_progress. destruct (String.eqb_spec k k') as [-> | N].
  - destruct (PyDict.get k' jobs) as [j |] eqn:G; [| exact G].
    apply get_self.
  - destruct (PyDict.get k' jobs) as [j' |].
    + rewrite (get_other _ _ _ _ N). destruct (PyDict.get k jobs); reflexivity.
    + destruct (PyDict.get k jobs); reflexivity.
Qed.

Lemma set_results_get (jobs : Jobs) (k k' : string)
    (r : Main.BatchResult) (now : Z) :
  PyDict.get k (set_results jobs k' r now)
  = match PyDict.get k jobs with
    | Some j =>
        if String.eqb k k'
        then Some (mkTracked (id j) (company_id j) COMPLETED
                     (total_resumes j) (processed j) (created_at j) now
                     (Some r) (error j))
        else Some j
    | None => None
    end.
Proof.
  unfold set_results. destruct (String.eqb_spec k k') as [-> | N].
  - destruct (PyDict.get k' jobs) as [j |] eqn:G; [| exact G].
    apply get_self.
  - destruct (PyDict.get k' jobs) as [j' |].
    + rewrite (get_other _ _ _ _ N). destruct (PyDict.get k jobs); reflexivity.
    + destruct (PyDict.get k jobs); reflexivity.
Qed.

(** Tenant isolation.  [get_job] with a tenant returns only a job of
    that tenant, [get_company_jobs] lists only jobs of the tenant, and
    no update creates a job or changes the identifier, the owner or the
    creation time of one: after [update_status], [update_progress] or
    [set_results] on any identifier, a tenant reads a job under an
    identifier exactly when it could before. *)
Theorem tracker_tenant_isolation (jobs : Jobs) (k k' : string)
    (company : Z) (s : JobStatus) (err : option string) (n now : Z)
    (r : Main.BatchResult) :
  (forall j, get_job jobs k (Some company) = Some j ->
             company_id j = company /\ PyDict.get k jobs = Some j)
  /\ (forall j, In j (get_company_jobs jobs company) ->
                company_id j = company)
  /\ (forall jobs',
        jobs' = update_status jobs k' s err now
        \/ jobs' = update_progress jobs k' n now
        \/ jobs' = set_results jobs k' r now ->
        match get_job jobs k (Some company),
              get_job jobs' k (Some company) with
        | Some j, Some j' =>
            id j' = id j /\ company_id j' = company_id j
            /\ created_at j' = created_at j
        | None, None => True
        | _, _ => False
        end).
Proof.
  split; [| split].
  - intros j. unfold get_job.
    destruct (PyDict.get k jobs) as [j0 |]; [| discriminate].
    destruct (Z.eqb_spec (company_id j0) company); [| discriminate].
    intros [= <-]. split; [assumption | reflexivity].
  - intros j Hj. unfold get_company_jobs in Hj.
    apply in_map_iff in Hj. destruct Hj as ([k0 j0] & <- & Hin).
    apply filter_In in Hin. destruct Hin as [_ Hc].
    apply Z.eqb_eq in Hc. exact Hc.
  - intros jobs' H. unfold get_job.
    assert (G : exists f : TrackedJob -> TrackedJob,
                PyDict.get k jobs' = option_map f (PyDict.get k jobs)
                /\ forall j, id (f j) = id j
                             /\ company_id (f j) = company_id j
                             /\ created_at (f j) = created_at j).
    { destruct H as [-> | [-> | ->]].
      - rewrite update_status_get.
        destruct (String.eqb k k');
          [eexists (fun j => mkTracked _ _ _ _ _ _ _ _ _)
          | exists (fun j => j)];
          (split; [destruct (PyDict.get k jobs); reflexivity
                  | intros j; repeat split]).
      - rewrite update_progress_get.
        destruct (String.eqb k k');
          [eexists (fun j => mkTracked _ _ _ _ _ _ _ _ _)
          | exists (fun j => j)];
          (split; [destruct (PyDict.get k jobs); reflexivity
                  | intros j; repeat split]).
      - rewrite set_results_get.
        destruct (String.eqb k k');
          [eexists (fun j => mkTracked _ _ _ _ _ _ _ _ _)
          | exists (fun j => j)];
          (split; [destruct (PyDict.get k jobs); reflexivity
                  | intros j; repeat split]). }
    destruct G as (f & -> & Hf).
    destruct (PyDict.get k jobs) as [j |]; cbn [option_map]; [| exact I].
    destruct (Hf j) as (F1 & F2 & F3). rewrite F2.
    destruct (Z.eqb (company_id j) company); [| exact I].
    repeat split; assumption.
Qed.

Lemma tracker_tenant_isolation_witness :
  company_id
    (mkTracked "7f3c" 1 PENDING 4 0 10 11 None None) = 1%Z
  /\ PyDict.get "7f3c" (snd (create_job [] "7f3c" 10 11 4 1))
     = Some (mkTracked "7f3c" 1 PENDING 4 0 10 11 None None).
Proof.
  apply (tracker_tenant_isolation (snd (create_job [] "7f3c" 10 11 4 1))
           "7f3c" "7f3c" 1 PENDING None 0 0
           (Main.mkBatch 0 0 0 0 0 0 0 [] [])).
  reflexivity.
Defined.

(** Updates of a tracked job compose field by field: an error text once
    recorded stays through later progress and status updates that give
    no error text (or an empty one); [set_results] marks the job
    completed and stores the results without touching the progress or
    the recorded error; and an update under an unknown identifier
    leaves the tracker as it was. *)
Theorem tracker_updates_compose (jobs : Jobs) (k : string)
    (s s' : JobStatus) (e : string) (n t1 t2 t3 : Z)
    (r : Main.BatchResult) :
  (forall j, PyDict.get k jobs = Some j -> e <> EmptyString ->
     let failed := update_status jobs k s (Some e) t1 in
     let later :=
       update_status (update_progress failed k n t2) k s' (Some "") t3 in
     PyDict.get k later
     = Some (mkTracked (id j) (company_id j) s' (total_resumes j) n
               (created_at j) t3 (results j) (Some e))
     /\ PyDict.get k (set_results failed k r t2)
        = Some (mkTracked (id j) (company_id j) COMPLETED
                  (total_resumes j) (processed j) (created_at j) t2
                  (Some r) (Some e)))
  /\ (PyDict.get k jobs = None ->
      update_status jobs k s (Some e) t1 = jobs
      /\ update_progress jobs k n t1 = jobs
      /\ set_results jobs k r t1 = jobs).
Proof.
  split.
  - intros j G He. cbv zeta.
    rewrite update_status_get, update_progress_get, set_results_get,
            !update_status_get, G, String.eqb_refl.
    apply PyStrFacts.truthy_nonempty in He.
    cbn [error_given PyStr.truthy PyStr.is_empty negb id company_id status
         total_resumes processed created_at updated_at results error].
    rewrite He. split; reflexivity.
  - intros G. unfold update_status, update_progress, set_results.
    rewrite G. repeat split.
Qed.

Lemma tracker_updates_compose_witness :
  PyDict.get "7f3c"
    (set_results
       (update_status (snd (create_job [] "7f3c" 10 11 4 1)) "7f3c" FAILED
          (Some "boom") 12)
       "7f3c" (Main.mkBatch 0 0 0 0 0 0 0 [] []) 13)
  = Some (mkTracked "7f3c" 1 COMPLETED 4 0 10 13
            (Some (Main.mkBatch 0 0 0 0 0 0 0 [] [])) (Some "boom")).
Proof.
  pose proof (tracker_updates_compose (snd (create_job [] "7f3c" 10 11 4 1))
                "7f3c" FAILED PENDING "boom" 0 12 13 14
                (Main.mkBatch 0 0 0 0 0 0 0 [] [])) as H.
  destruct H as [H _].
  specialize (H (mkTracked "7f3c" 1 PENDING 4 0 10 11 None None)
                ltac:(reflexivity) ltac:(discriminate)).
  cbv zeta in H. destruct H as [_ H]. exact H.
Defined.

Lemma fold_del_filter {V} (ks : list string) (d : PyDict.dict V) :
  fold_left (fun d k => del k d) ks d
  = List.filter (fun kv => negb (existsb (String.eqb (fst kv)) ks)) d.
Proof.
  revert d. induction ks as [| k ks IH]; intros d.
  - simpl. induction d as [| kv d IHd]; [reflexivity |].
    simpl. rewrite <- IHd. reflexivity.
  - cbn [fold_left]. rewrite IH. unfold del.
    induction d as [| kv d IHd]; [reflexivity |].
    cbn [List.filter existsb].
    destruct (String.eqb (fst kv) k); cbn [negb orb].
    + exact IHd.
    + cbn [List.filter]. destruct (existsb _ ks); cbn [negb];
        [exact IHd | rewrite IHd; reflexivity].
Qed.

Lemma in_keys_of_filter {V} (p : V -> bool) (d : PyDict.dict V)
    (k : string) (v : V) :
  List.NoDup (PyDict.keys d) -> In (k, v) d ->
  existsb (String.eqb k)
          (map fst (List.filter (fun kv => p (snd kv)) d)) = p v.
Proof.
  intros N Hin. apply MatcherFacts.bool_eq_iff.
  rewrite existsb_exists. split.
  - intros (k' & Hk' & E). apply String.eqb_eq in E. subst k'.
    apply in_map_iff in Hk'. destruct Hk' as ([k0 v0] & E0 & H0).
    cbn [fst] in E0. subst k0. apply filter_In in H0.
    destruct H0 as [H0 Hp]. cbn [snd] in Hp.
    assert (v0 = v); [| subst; exact Hp].
    clear -N Hin H0. induction d as [| [k1 v1] d IH]; [destruct Hin |].
    cbn [PyDict.keys map fst] in N. apply List.NoDup_cons_iff in N.
    destruct N as [N1 N2].
    destruct Hin as [Hin | Hin], H0 as [H0 | H0].
    + congruence.
    + exfalso. apply N1. injection Hin as -> _.
      apply (in_map fst) in H0. exact H0.
    + exfalso. apply N1. injection H0 as -> _.
      apply (in_map fst) in Hin. exact Hin.
    + apply IH; assumption.
  - intros Hp. exists k. split; [| apply String.eqb_refl].
    apply in_map_iff. exists (k, v). split; [reflexivity |].
    apply filter_In. split; assumption.
Qed.

(** [cleanup_old_jobs] removes exactly the jobs created more than
    [max_age_hours] before [now] and keeps the others in their order;
    the number it returns is the number of jobs removed. *)
Theorem cleanup_removes_exactly_the_old_jobs (jobs : Jobs)
    (now max_age_hours : Z) :
  List.NoDup (PyDict.keys jobs) ->
  let cleaned := cleanup_old_jobs jobs now max_age_hours in
  snd cleaned
  = List.filter (fun kv => negb (too_old now max_age_hours (snd kv))) jobs
  /\ fst cleaned = Z.of_nat (length jobs - length (snd cleaned))
  /\ (forall k j, PyDict.get k (snd cleaned) = Some j ->
                  too_old now max_age_hours j = false).
Proof.
  intros N cleaned. subst cleaned. unfold cleanup_old_jobs. cbn [fst snd].
  assert (E : fold_left (fun d k => del k d)
                (map fst (List.filter
                   (fun kv => too_old now max_age_hours (snd kv)) jobs))
                jobs
              = List.filter
                  (fun kv => negb (too_old now max_age_hours (snd kv)))
                  jobs).
  { rewrite fold_del_filter. apply List.filter_ext_in. intros [k v] Hin.
    cbn [fst snd]. f_equal.
    apply (in_keys_of_filter (too_old now max_age_hours) jobs k v N Hin). }
  rewrite E. split; [reflexivity |]. split.
  - rewrite length_map.
    pose proof (List.filter_length
                  (fun kv => too_old now max_age_hours (snd kv)) jobs) as L.
    cbv beta in L. lia.
  - intros k j G. apply MatcherProps.get_in in G.
    apply filter_In in G. destruct G as [_ G]. cbn [snd] in G.
    apply negb_true_iff in G. exact G.
Qed.

Lemma cleanup_removes_exactly_the_old_jobs_witness :
  fst (cleanup_old_jobs
         (snd (create_job (snd (create_job [] "old" 0 0 4 1)) "new"
                 (hours 30) (hours 30) 2 1))
         (hours 31) 24) = 1%Z.
Proof.
  pose proof (cleanup_removes_exactly_the_old_jobs
                (snd (create_job (snd (create_job [] "old" 0 0 4 1)) "new"
                        (hours 30) (hours 30) 2 1))
                (hours 31) 24) as H.
  destruct H as (_ & H & _).
  - simpl. repeat constructor; simpl; intuition discriminate.
  - rewrite H. reflexivity.
Defined.

End TrackerFacts.

(** ** The lazily initialised model *)

Module VertexFacts.
Import VertexModel.

(** The outcome of the first use is final: whatever [_get_model]
    answers on a state, it answers the same on every later call and
    leaves the state alone, even if the project identifier or the
    initialisation would then come out differently; in particular a
    failed initialisation is never tried again. *)
Theorem get_model_outcome_is_sticky (project_id init : option string)
    (project_id' init' : option string) (st : State) :
  let first := _get_model project_id init st in
  _get_model project_id' init' (snd first) = (fst first, snd first).
Proof.
  cbv zeta. unfold _get_model.
  destruct st as [[m |] [e |]]; cbn [_model _vertex_init_error];
    try reflexivity.
  destruct (negb _); [reflexivity |].
  destruct init; reflexivity.
Qed.

(** A transient failure at first use disables the model for good. *)
Example failure_then_recovery :
  let st := snd (_get_model (Some "proj") (Some "timeout") initial) in
  _get_model (Some "proj") None st = (None, st)
  /\ fst (_get_model (Some "proj") None initial)
     = Some "gemini-2.0-flash-001".
Proof. split; reflexivity. Qed.

(** From the initial state, and from every state in which a model and
    an error are not both recorded, [is_ai_available] answers true
    exactly when no error is recorded afterwards, also after any
    further call; the model is available exactly when it was recorded
    before, or nothing was recorded, the project identifier is a
    non-empty string and the initialisation succeeds. *)
Theorem availability_and_reason_agree (project_id init : option string)
    (project_id' init' : option string) (st : State) :
  _model st = None \/ _vertex_init_error st = None ->
  let available := is_ai_available project_id init st in
  let reason :=
    get_ai_unavailable_reason project_id' init' (snd available) in
  (fst available = true <-> fst reason = None)
  /\ (_model (snd reason) = None \/ _vertex_init_error (snd reason) = None)
  /\ (fst available = true
      <-> _model st <> None
          \/ (_vertex_init_error st = None
              /\ (exists p, project_id = Some p /\ p <> EmptyString)
              /\ init = None)).
Proof.
  intros C. cbv zeta.
  unfold is_ai_available, get_ai_unavailable_reason, _get_model.
  destruct st as [[m |] [e |]]; cbn [_model _vertex_init_error] in *.
  - destruct C; discriminate.
  - cbn. repeat split; auto; try (intros; discriminate); try tauto.
  - cbn. repeat split; auto; try (intros; discriminate).
    intros [H | (H & _)]; [contradiction | discriminate].
  - destruct project_id as [[| c p] |]; cbn.
    + repeat split; auto; try (intros; discriminate).
      intros [H | (_ & (p & [= <-] & Hp) & _)]; contradiction.
    + destruct init as [exc |]; cbn.
      * repeat split; auto; try (intros; discriminate).
        intros [H | (_ & _ & H)]; [contradiction | discriminate].
      * repeat split; auto. intros _. right.
        repeat split. exists (String c p). split; [reflexivity | discriminate].
    + repeat split; auto; try (intros; discriminate).
      intros [H | (_ & (p & H & _) & _)]; [contradiction | discriminate].
Qed.

Lemma availability_and_reason_agree_witness :
  fst (is_ai_available (Some "") None initial) = true
  <-> fst (get_ai_unavailable_reason None None
             (snd (is_ai_available (Some "") None initial))) = None.
Proof.
  apply (availability_and_reason_agree (Some "") None None None initial).
  left. reflexivity.
Defined.

End VertexFacts.

(** ** The requirement sentences of a job description *)

Module JdExtractionFacts.
Import PyStr Extraction JdExtraction.

Lemma keep_strings_in (requirements : list Json) (s : string) :
  In s (keep_strings requirements)
  <-> In (JStr s) requirements /\ s <> EmptyString.
Proof.
  unfold keep_strings. rewrite in_flat_map. split.
  - intros (req & Hin & Hs).
    destruct req as [| | | | s0 | |]; try destruct Hs.
    destruct (truthy s0) eqn:T; [| destruct Hs].
    destruct Hs as [<- | []]. split; [exact Hin |].
    apply PyStrFacts.truthy_nonempty. exact T.
  - intros [Hin Hne]. exists (JStr s). split; [exact Hin |].
    apply PyStrFacts.truthy_nonempty in Hne. rewrite Hne. left. reflexivity.
Qed.

(** [extract_jd_requirements] returns exactly the non-empty strings of
    the JSON list the model answered, and nothing at all when there is
    no model, the call raises, the response cannot be cleaned or
    parsed, or the payload is not a list. *)
Theorem jd_requirements_are_the_payload_strings
    (json_loads : string -> option Json) (model_ready : bool)
    (call : CallResult) (s : string) :
  In s (extract_jd_requirements json_loads model_ready call)
  <-> model_ready = true
      /\ s <> EmptyString
      /\ exists text json_text requirements,
           call = ResponseText text
           /\ clean_json_string text = Some json_text
           /\ json_loads json_text = Some (JArr requirements)
           /\ In (JStr s) requirements.
Proof.
  unfold extract_jd_requirements. split.
  - destruct model_ready; cbn [negb]; [| intros []].
    destruct call as [| text]; [intros [] |].
    destruct (clean_json_string text) as [t |] eqn:C; [| intros []].
    destruct (json_loads t) as [[| | | | | reqs |] |] eqn:J;
      try (intros []).
    intros H. apply keep_strings_in in H. destruct H as [H1 H2].
    split; [reflexivity |]. split; [exact H2 |].
    exists text, t, reqs. repeat split; assumption.
  - intros (-> & Hne & text & t & reqs & -> & C & J & Hin).
    cbn [negb]. rewrite C, J. apply keep_strings_in. split; assumption.
Qed.

(** Numbers, nulls and empty strings of the answer are dropped. *)
Example mixed_payload :
  keep_strings [JStr "Must know SQL"; JInt 3; JStr ""; JNull;
                JStr "Degree required"]
  = ["Must know SQL"; "Degree required"].
Proof. reflexivity. Qed.

End JdExtractionFacts.

(** ** Splitting and stripping *)

Module PyStrProps.
Import PyStr Extraction StringSpec.

Lemma rstrip_idem (s : string) : rstrip (rstrip s) = rstrip s.
Proof.
  induction s as [| c s IH]; [reflexivity |].
  cbn [rstrip]. destruct (rstrip s) as [| c' r] eqn:E.
  - destruct (is_space c) eqn:Sp; [reflexivity |].
    cbn [rstrip]. rewrite Sp. reflexivity.
  - cbn [rstrip]. cbn [rstrip] in IH. rewrite IH. reflexivity.
Qed.

Lemma rstrip_head (c : ascii) (s : string) :
  is_space c = false -> exists r, rstrip (String c s) = String c r.
Proof.
  intros Sp. cbn [rstrip]. destruct (rstrip s) as [| c' r].
  - rewrite Sp. eexists. reflexivity.
  - eexists. reflexivity.
Qed.

(** A stripped string is empty or starts with a character that is not
    white space. *)
Lemma lstrip_head (s : string) :
  lstrip s = EmptyString
  \/ exists c r, lstrip s = String c r /\ is_space c = false.
Proof.
  induction s as [| c s IH]; [left; reflexivity |].
  cbn [lstrip]. destruct (is_space c) eqn:Sp; [exact IH |].
  right. exists c, s. split; [reflexivity | exact Sp].
Qed.

(** [strip] is idempotent. *)
Lemma strip_idem (s : string) : strip (strip s) = strip s.
Proof.
  unfold strip. destruct (lstrip_head s) as [E | (c & r & E & Sp)].
  - rewrite E. reflexivity.
  - rewrite E. destruct (rstrip_head c r Sp) as (r' & E').
    rewrite E'. cbn [lstrip]. rewrite Sp. rewrite <- E'.
    apply rstrip_idem.
Qed.

Lemma append_nil (s : string) : String.append EmptyString s = s.
Proof. reflexivity. Qed.

Lemma append_cons (a : ascii) (s t : string) :
  String.append (String a s) t = String a (String.append s t).
Proof. reflexivity. Qed.

Lemma rstrip_snoc (s : string) (c : ascii) :
  is_space c = false ->
  rstrip (s ++ String c EmptyString) = (s ++ String c EmptyString)%string.
Proof.
  intros Sp. induction s as [| a s IH].
  - rewrite append_nil. cbn [rstrip]. rewrite Sp. reflexivity.
  - rewrite append_cons. cbn [rstrip]. rewrite IH.
    destruct s; reflexivity.
Qed.

Lemma split_char_nonempty (sep : ascii) (s : string) :
  split_char sep s <> [].
Proof.
  induction s as [| a s IH]; [discriminate |].
  cbn [split_char]. destruct (Ascii.eqb a sep); [discriminate |].
  destruct (split_char sep s); discriminate.
Qed.

(** A string without the separator is its own single piece. *)
Lemma split_char_single (sep : ascii) (s : string) :
  contains_char sep s = false -> split_char sep s = [s].
Proof.
  induction s as [| a s IH]; [reflexivity |].
  cbn [contains_char split_char]. intros H.
  apply orb_false_iff in H. destruct H as [H1 H2].
  rewrite H1, (IH H2). reflexivity.
Qed.

(** Splitting [a + sep + b] gives the pieces of [a] followed by the
    pieces of [b]. *)
Lemma split_char_app (sep : ascii) (a b : string) :
  split_char sep (a ++ String sep b)
  = split_char sep a ++ split_char sep b.
Proof.
  induction a as [| x a IH].
  - rewrite append_nil. cbn [split_char app]. rewrite Ascii.eqb_refl.
    reflexivity.
  - rewrite append_cons. cbn [split_char]. rewrite IH.
    destruct (Ascii.eqb x sep); [reflexivity |].
    pose proof (split_char_nonempty sep a) as N.
    destruct (split_char sep a) as [| w ws]; [contradiction | reflexivity].
Qed.

(** Joining the pieces with the separator gives the string back. *)
Lemma join_split_char (sep : ascii) (s : string) :
  String.concat (String sep EmptyString) (split_char sep s) = s.
Proof.
  induction s as [| a s IH]; [reflexivity |].
  cbn [split_char]. destruct (Ascii.eqb_spec a sep) as [-> | N].
  - pose proof (split_char_nonempty sep s) as Ne.
    destruct (split_char sep s) as [| w ws] eqn:E; [contradiction |].
    cbn [String.concat]. cbn [String.concat] in IH. rewrite IH.
    reflexivity.
  - pose proof (split_char_nonempty sep s) as Ne.
    destruct (split_char sep s) as [| w ws] eqn:E; [contradiction |].
    destruct ws as [| w' ws'].
    + cbn [String.concat] in *. rewrite IH. reflexivity.
    + cbn [String.concat] in *. rewrite append_cons, IH.
      reflexivity.
Qed.

End PyStrProps.

(** ** Markdown fences around the model's answer *)

Module FenceFacts.
Import PyStr Extraction StringSpec PyStrProps.

Lemma append_assoc (a b c : string) :
  String.append (String.append a b) c
  = String.append a (String.append b c).
Proof.
  induction a as [| x a IH]; [reflexivity |].
  rewrite !append_cons, IH. reflexivity.
Qed.

Lemma prefix_append (p s : string) :
  String.prefix p (String.append p s) = true.
Proof.
  induction p as [| x p IH]; [destruct s; reflexivity |].
  rewrite append_cons. simpl.
  destruct (ascii_dec x x) as [_ | N]; [exact IH | contradiction].
Qed.

Lemma contains_char_append (c : ascii) (a b : string) :
  contains_char c (String.append a b)
  = (contains_char c a || contains_char c b)%bool.
Proof.
  induction a as [| x a IH]; [reflexivity |].
  rewrite append_cons. cbn [contains_char]. rewrite IH.
  apply orb_assoc.
Qed.

(** The text [```tag<newline>body<newline>```]. *)
Lemma fenced_shape (tag body : string) :
  String.append fence
    (String.append tag
       (String newline (String.append body (String newline fence))))
  = String.append
      (String.append fence
         (String.append tag
            (String newline
               (String.append body (String newline "``")))))
      "`".
Proof.
  rewrite !append_assoc, append_cons, append_assoc. reflexivity.
Qed.

(** A response wrapped in a Markdown fence is unwrapped exactly: for
    every info string [tag] without a line break and every [body],
    [clean_json_string] applied to the fenced text returns [body]
    itself, line breaks and inner fences included. *)
Theorem fenced_response_is_unwrapped (tag body : string) :
  contains_char newline tag = false ->
  clean_json_string
    (String.append fence
       (String.append tag
          (String newline (String.append body (String newline fence)))))
  = Some body.
Proof.
  intros Htag. unfold clean_json_string.
  set (text := String.append fence _).
  assert (Estrip : strip text = text).
  { unfold strip.
    assert (L : lstrip text = text) by reflexivity.
    rewrite L. unfold text. rewrite fenced_shape.
    apply rstrip_snoc. reflexivity. }
  rewrite Estrip. unfold text at 1. rewrite prefix_append.
  assert (Esplit : split_char newline text
                   = String.append fence tag
                     :: split_char newline body ++ [fence]).
  { unfold text. rewrite <- append_assoc, split_char_app.
    rewrite split_char_single.
    - cbn [app]. f_equal. rewrite split_char_app. reflexivity.
    - rewrite contains_char_append, Htag. reflexivity. }
  rewrite Esplit, prefix_append.
  pose proof (split_char_nonempty newline body) as Ne.
  destruct (split_char newline body ++ [fence]) as [| l ls] eqn:E.
  { destruct (split_char newline body); discriminate. }
  rewrite <- E, last_last, removelast_last.
  change (String.prefix fence fence) with true. cbv iota.
  rewrite join_split_char. reflexivity.
Qed.

Lemma fenced_response_is_unwrapped_witness :
  clean_json_string
    (String.append fence
       (String.append "json"
          (String newline
             (String.append "[1, 2]" (String newline fence)))))
  = Some "[1, 2]".
Proof.
  apply (fenced_response_is_unwrapped "json" "[1, 2]"). reflexivity.
Defined.

(** A fenced response written on a single line is lost: when the
    stripped text starts with a fence and has no line break,
    [clean_json_string] raises (the list of lines is empty once the
    first one is dropped), so [extract_candidate_facts] returns the
    sentinel and [extract_jd_requirements] the empty list, whatever the
    text holds. *)
Theorem single_line_fence_is_lost (json_loads : string -> option Json)
    (float_of_str : string -> option Q) (int_of_str : string -> option Z)
    (str_of_value : Json -> string) (fail_on_unavailable : bool)
    (text : string) :
  String.prefix fence (strip text) = true ->
  contains_char newline (strip text) = false ->
  clean_json_string text = None
  /\ extract_candidate_facts json_loads float_of_str int_of_str
       str_of_value true fail_on_unavailable (ResponseText text)
     = Return sentinel
  /\ JdExtraction.extract_jd_requirements json_loads true
       (ResponseText text) = [].
Proof.
  intros Hp Hn.
  assert (C : clean_json_string text = None).
  { unfold clean_json_string. rewrite Hp, (split_char_single _ _ Hn), Hp.
    reflexivity. }
  split; [exact C |]. split.
  - unfold extract_candidate_facts, try_extract. cbn [negb].
    rewrite C. reflexivity.
  - unfold JdExtraction.extract_jd_requirements. cbn [negb].
    rewrite C. reflexivity.
Qed.

Lemma single_line_fence_is_lost_witness :
  clean_json_string "```{}```" = None.
Proof.
  apply (single_line_fence_is_lost ExtractionSpec.no_json
           ExtractionSpec.no_float ExtractionSpec.no_int
           ExtractionSpec.any_str true "```{}```"); reflexivity.
Defined.

End FenceFacts.

(** ** What the sanitisation leaves alone *)

Module SanitizeProps.
Import PyStr Extraction ExtractionSpec ExtractionFacts StringSpec.

Lemma get_setdefault_same (k : string) (v : Json) (d : PyDict.dict Json) :
  PyDict.get k (setdefault k v d)
  = match PyDict.get k d with
    | Some x => Some x
    | None => Some v
    end.
Proof.
  unfold setdefault, PyDict.mem.
  destruct (PyDict.get k d) as [x |] eqn:G; [exact G |].
  rewrite get_set, String.eqb_refl. reflexivity.
Qed.

Lemma not_typed_key (k : string) :
  ~ In k typed_keys ->
  forall k', In k' typed_keys -> String.eqb k k' = false.
Proof.
  intros N k' H. destruct (String.eqb_spec k k') as [-> | _];
    [contradiction | reflexivity].
Qed.

(** The sanitisation rewrites the typed fields only.  Every other key
    of the payload reaches the result unchanged, and a [name], [email]
    or [phone] that the payload carries is kept whatever its value
    (a null or a number included): the sentinel values only fill in
    for a key that is absent. *)
Theorem sanitize_keeps_untyped_keys (float_of_str : string -> option Q)
    (int_of_str : string -> option Z) (str_of_value : Json -> string)
    (fields data : PyDict.dict Json) (k : string) :
  sanitize float_of_str int_of_str str_of_value (JObj fields) = Some data ->
  let kept (key : string) (default : Json) :=
    PyDict.get key data
    = Some (match PyDict.get key fields with
            | Some v => v
            | None => default
            end) in
  (~ In k typed_keys -> PyDict.get k data = PyDict.get k fields)
  /\ kept "name" (JStr "Unknown Candidate")
  /\ kept "email" (JStr "unknown@error.com")
  /\ kept "phone" (JStr "").
Proof.
  unfold sanitize.
  destruct (py_float float_of_str _) as [years |]; [| discriminate].
  cbn [mbind option_bind].
  destruct (float_values float_of_str [] _) as [skills' |]; [| discriminate].
  cbn [mbind option_bind].
  destruct (py_int int_of_str _) as [bullets |]; [| discriminate].
  cbn [mbind option_bind]. intros [= <-]. cbv zeta. repeat split.
  - intros N. pose proof (not_typed_key k N) as E.
    rewrite get_sanitize_matches_other
      by (apply E; unfold typed_keys; simpl; tauto).
    rewrite !get_setdefault_other
      by (apply E; unfold typed_keys; simpl; tauto).
    rewrite !get_set.
    rewrite !E by (unfold typed_keys; simpl; tauto). reflexivity.
  - rewrite get_sanitize_matches_other by reflexivity.
    rewrite !get_setdefault_other by reflexivity.
    rewrite get_setdefault_same, !get_set.
    cbn [String.eqb Ascii.eqb Bool.eqb].
    destruct (PyDict.get "name" fields); reflexivity.
  - rewrite get_sanitize_matches_other by reflexivity.
    rewrite get_setdefault_other by reflexivity.
    rewrite get_setdefault_same, get_setdefault_other by reflexivity.
    rewrite !get_set. cbn [String.eqb Ascii.eqb Bool.eqb].
    destruct (PyDict.get "email" fields); reflexivity.
  - rewrite get_sanitize_matches_other by reflexivity.
    rewrite get_setdefault_same, !get_setdefault_other by reflexivity.
    rewrite !get_set. cbn [String.eqb Ascii.eqb Bool.eqb].
    destruct (PyDict.get "phone" fields); reflexivity.
Qed.

Lemma sanitize_keeps_untyped_keys_witness :
  PyDict.get "score" 
    [ ("name", JNull); ("score", JInt 99);
      ("total_years_experience", JFloat 0);
      ("recent_job_titles", JArr []);
      ("skills_with_years", JObj []);
      ("metrics_bullet_count", JInt 0);
      ("email", JStr "unknown@error.com");
      ("phone", JStr "") ]
  = PyDict.get "score" [("name", JNull); ("score", JInt 99)].
Proof.
  pose proof (sanitize_keeps_untyped_keys no_float no_int any_str
                [("name", JNull); ("score", JInt 99)]
                [ ("name", JNull); ("score", JInt 99);
                  ("total_years_experience", JFloat 0);
                  ("recent_job_titles", JArr []);
                  ("skills_with_years", JObj []);
                  ("metrics_bullet_count", JInt 0);
                  ("email", JStr "unknown@error.com");
                  ("phone", JStr "") ]
                "score" ltac:(reflexivity)) as H.
  cbv zeta in H. destruct H as [H _]. apply H.
  unfold typed_keys. simpl. intuition discriminate.
Defined.

End SanitizeProps.

(** ** The required skills typed into the form *)

Module BulkScreenFacts.
Import PyStr Extraction BulkScreen PyStrProps.

(** The skills that [bulk_screen_resumes] stores for a job are exactly
    the stripped pieces between the commas that are not blank: none of
    them is empty and none starts or ends with white space (stripping
    one again changes nothing). *)
Theorem skills_list_is_clean (required_skills : string) (s : string) :
  In s (skills_list required_skills)
  <-> (exists piece,
         In piece (split_char comma required_skills)
         /\ strip piece = s)
      /\ s <> EmptyString /\ strip s = s.
Proof.
  unfold skills_list. rewrite in_flat_map. split.
  - intros (piece & Hin & Hs).
    destruct (truthy (strip piece)) eqn:T; [| destruct Hs].
    destruct Hs as [<- | []].
    split; [exists piece; split; [exact Hin | reflexivity] |].
    split; [apply PyStrFacts.truthy_nonempty; exact T | apply strip_idem].
  - intros ((piece & Hin & <-) & Hne & _). exists piece.
    split; [exact Hin |]. apply PyStrFacts.truthy_nonempty in Hne.
    rewrite Hne. left. reflexivity.
Qed.

(** Blank entries and padding disappear. *)
Example skills_from_form :
  skills_list " Python, FastAPI ,, PostgreSQL ,  "
  = ["Python"; "FastAPI"; "PostgreSQL"].
Proof. reflexivity. Qed.

End BulkScreenFacts.

(** ** Normalisation of citations and resume text *)

Module NormalizeProps.
Import PyStr PyStrFacts PyStrProps WordSpec AiEngine PipelineSpec.

Lemma is_space_lower (c : ascii) : is_space (lower_ascii c) = is_space c.
Proof.
  destruct c as [[] [] [] [] [] [] [] []]; vm_compute; reflexivity.
Qed.

Lemma lower_append (a b : string) :
  lower (String.append a b) = String.append (lower a) (lower b).
Proof.
  induction a as [| c a IH]; [reflexivity |].
  rewrite append_cons. cbn [lower]. rewrite append_cons, IH. reflexivity.
Qed.

Lemma is_empty_lower (s : string) : is_empty (lower s) = is_empty s.
Proof. destruct s; reflexivity. Qed.

Lemma is_empty_snoc (s : string) (c : ascii) :
  is_empty (String.append s (String c EmptyString)) = false.
Proof. destruct s; reflexivity. Qed.

(** Lower-casing commutes with splitting. *)
Lemma split_acc_lower (acc s : string) :
  split_acc (lower acc) (lower s) = map lower (split_acc acc s).
Proof.
  revert acc. induction s as [| c s IH]; intros acc.
  - cbn [lower split_acc]. rewrite is_empty_lower.
    destruct (is_empty acc); reflexivity.
  - cbn [lower split_acc]. rewrite is_space_lower, is_empty_lower.
    destruct (is_space c).
    + destruct (is_empty acc).
      * apply (IH EmptyString).
      * cbn [map]. f_equal. apply (IH EmptyString).
    + rewrite <- IH, lower_append. reflexivity.
Qed.

Lemma lower_concat (ws : list string) :
  lower (String.concat " " ws) = String.concat " " (map lower ws).
Proof.
  induction ws as [| w ws IH]; [reflexivity |].
  destruct ws as [| w' ws']; [reflexivity |].
  cbn [String.concat map] in *. rewrite !lower_append, IH. reflexivity.
Qed.

Lemma space_free_snoc (s : string) (c : ascii) :
  space_free s = true -> is_space c = false ->
  space_free (String.append s (String c EmptyString)) = true.
Proof.
  intros Hs Hc. induction s as [| a s IH].
  - rewrite append_nil. cbn [space_free]. rewrite Hc. reflexivity.
  - rewrite append_cons. cbn [space_free] in *.
    apply andb_true_iff in Hs. destruct Hs as [H1 H2].
    rewrite H1, (IH H2). reflexivity.
Qed.

(** [split] returns words. *)
Lemma split_acc_words (acc s : string) :
  space_free acc = true -> forallb is_word (split_acc acc s) = true.
Proof.
  revert acc. induction s as [| c s IH]; intros acc Hacc.
  - cbn [split_acc]. destruct (is_empty acc) eqn:E; [reflexivity |].
    cbn [forallb]. unfold is_word, truthy. rewrite E, Hacc. reflexivity.
  - cbn [split_acc]. destruct (is_space c) eqn:Sp.
    + destruct (is_empty acc) eqn:E; [apply IH; reflexivity |].
      cbn [forallb]. unfold is_word at 1. unfold truthy.
      rewrite E, Hacc, (IH EmptyString eq_refl). reflexivity.
    + apply IH. apply space_free_snoc; assumption.
Qed.

(** Reading a word: the characters join the word being read. *)
Lemma split_acc_word (acc w rest : string) :
  space_free w = true ->
  split_acc acc (String.append w rest)
  = split_acc (String.append acc w) rest.
Proof.
  revert acc. induction w as [| c w IH]; intros acc Hw.
  - rewrite append_nil.
    replace (String.append acc EmptyString) with acc; [reflexivity |].
    clear. induction acc as [| a acc IH]; [reflexivity |].
    rewrite append_cons, <- IH. reflexivity.
  - cbn [space_free] in Hw. apply andb_true_iff in Hw.
    destruct Hw as [Hc Hw]. apply negb_true_iff in Hc.
    rewrite append_cons. cbn [split_acc]. rewrite Hc, (IH _ Hw).
    rewrite FenceFacts.append_assoc, append_cons, append_nil. reflexivity.
Qed.

(** Splitting the words joined by single spaces gives the words back. *)
Lemma split_join_words (ws : list string) :
  forallb is_word ws = true -> split (String.concat " " ws) = ws.
Proof.
  unfold split. induction ws as [| w ws IH]; [reflexivity |].
  cbn [forallb]. intros H. apply andb_true_iff in H. destruct H as [Hw Hws].
  unfold is_word in Hw. apply andb_true_iff in Hw. destruct Hw as [Ht Hf].
  assert (Ne : is_empty w = false)
    by (unfold truthy in Ht; apply negb_true_iff in Ht; exact Ht).
  destruct ws as [| w' ws'].
  - cbn [String.concat].
    replace w with (String.append w EmptyString) at 1.
    + rewrite (split_acc_word _ _ _ Hf), append_nil. cbn [split_acc].
      rewrite Ne. reflexivity.
    + clear. induction w as [| a w IH]; [reflexivity |].
      rewrite append_cons, IH. reflexivity.
  - cbn [String.concat] in *.
    rewrite (split_acc_word _ _ _ Hf), append_nil.
    change (String.append " " ?x) with (String " "%char x).
    cbn [split_acc]. change (is_space " "%char) with true. cbv iota.
    rewrite Ne. f_equal. apply IH. exact Hws.
Qed.

(** Normalising twice is normalising once. *)
Lemma normalize_idem (s : string) : normalize (normalize s) = normalize s.
Proof.
  unfold normalize. rewrite (lower_concat (split s)).
  assert (W : forallb is_word (map lower (split s)) = true).
  { unfold split. rewrite <- (split_acc_lower EmptyString s).
    apply split_acc_words. reflexivity. }
  rewrite (split_join_words _ W), <- lower_concat, lower_idem.
  reflexivity.
Qed.

(** The scorer reads the candidate's matches and the resume text only
    through the verifier's counters, the number of matches and the
    truthiness of the text. *)
Lemma score_through_verifier (c1 c2 : CandidateFacts)
    (required_skills : list string) (min_experience : Q)
    (job_title t1 t2 : string) :
  skills_with_years c1 = skills_with_years c2 ->
  total_years_experience c1 = total_years_experience c2 ->
  metrics_bullet_count c1 = metrics_bullet_count c2 ->
  length (jd_requirement_matches c1) = length (jd_requirement_matches c2) ->
  truthy t1 = truthy t2 ->
  verify_requirements (jd_requirement_matches c1) t1
  = verify_requirements (jd_requirement_matches c2) t2 ->
  calculate_deterministic_score c1 required_skills min_experience
    job_title t1
  = calculate_deterministic_score c2 required_skills min_experience
      job_title t2.
Proof.
  intros H1 H2 H3 H4 H5 H6.
  unfold calculate_deterministic_score, score_components.
  rewrite H1, H2, H3, H4, H5, H6. reflexivity.
Qed.

Lemma normalize_nonempty (s : string) :
  normalize s <> EmptyString -> truthy s = true.
Proof.
  destruct s; [intros H; exfalso; apply H |]; reflexivity.
Qed.

(** The scorer sees the resume and the citations only through their
    normal form (lower case, single spaces, no white space at the
    ends): with a resume text that holds a character other than white
    space, scoring against the normalised text gives the same result;
    and normalising a citation beforehand gives the same result as
    long as the citation holds a character other than white space. *)
Theorem verification_ignores_case_and_spacing (candidate : CandidateFacts)
    (required_skills : list string) (min_experience : Q)
    (job_title resume : string) (ms1 ms2 : list RequirementMatch)
    (req c : string) (met : bool) :
  let score cand text :=
    calculate_deterministic_score cand required_skills min_experience
      job_title text in
  (normalize resume <> EmptyString ->
   score candidate (normalize resume) = score candidate resume)
  /\ (normalize c <> EmptyString ->
      score (set_matches candidate
               (ms1 ++ mkMatch req met (Some (normalize c)) :: ms2)) resume
      = score (set_matches candidate
                 (ms1 ++ mkMatch req met (Some c) :: ms2)) resume).
Proof.
  intros score. subst score. cbv beta. split.
  - intros Hn. pose proof (normalize_nonempty _ Hn) as Tr.
    apply truthy_nonempty in Hn as Tn.
    apply score_through_verifier; try reflexivity.
    + rewrite Tn, Tr. reflexivity.
    + unfold verify_requirements. rewrite normalize_idem, Tn, Tr.
      reflexivity.
  - intros Hn. pose proof (normalize_nonempty _ Hn) as Tc.
    apply truthy_nonempty in Hn as Tn.
    apply score_through_verifier; try reflexivity.
    + cbn [set_matches jd_requirement_matches].
      rewrite !length_app. reflexivity.
    + cbn [set_matches jd_requirement_matches].
      unfold verify_requirements. rewrite !length_app. cbn [length].
      destruct ((0 <? Z.of_nat (length ms1 + S (length ms2)))%Z
                && truthy resume)%bool; [| reflexivity].
      rewrite !fold_left_app. cbn [fold_left]. f_equal.
      unfold verify_step.
      cbn [is_met citation_quote quote_truthy quote_str].
      rewrite normalize_idem, Tn, Tc. reflexivity.
Qed.

Lemma verification_ignores_case_and_spacing_witness :
  calculate_deterministic_score Examples.perfect_candidate ["python"] 3
    "Engineer" (normalize "Built  APIs with FastAPI")
  = calculate_deterministic_score Examples.perfect_candidate ["python"] 3
      "Engineer" "Built  APIs with FastAPI"
  /\ calculate_deterministic_score
       (set_matches Examples.perfect_candidate
          ([] ++ [mkMatch "r" true (Some (normalize "built APIS   with"))]))
       ["python"] 3 "Engineer" "Built  APIs with FastAPI"
     = calculate_deterministic_score
         (set_matches Examples.perfect_candidate
            ([] ++ [mkMatch "r" true (Some "built APIS   with")]))
         ["python"] 3 "Engineer" "Built  APIs with FastAPI".
Proof.
  pose proof (verification_ignores_case_and_spacing
                Examples.perfect_candidate ["python"] 3 "Engineer"
                "Built  APIs with FastAPI" [] [] "r" "built APIS   with"
                true) as H.
  cbv zeta in H. destruct H as [H1 H2].
  split; [apply H1 | apply H2]; vm_compute; discriminate.
Defined.

End NormalizeProps.

(** ** The rate limit of the public portal *)

Module RateLimitFacts.
Import PyNum PyNumFacts PublicPortal PyDictProps.

Lemma recent_iff (now window s : Q) :
  recent now window s = true <-> (now - s <= window)%Q.
Proof.
  unfold recent. rewrite negb_true_iff. apply Qltb_ge.
Qed.

(** On time stamps in ascending order, dropping the expired ones from
    the left keeps exactly the recent ones. *)
Lemma drop_expired_filter (now window : Q) (samples : list Q) :
  StronglySorted Qle samples ->
  drop_expired now window samples
  = List.filter (recent now window) samples.
Proof.
  induction 1 as [| s rest Hs IH Hall]; [reflexivity |].
  cbn [drop_expired List.filter]. unfold recent at 1.
  destruct (Qltb window (now - s)) eqn:E; cbn [negb]; [exact IH |].
  f_equal. apply Qltb_ge in E. clear IH Hs.
  induction Hall as [| r rest Hr Hrest IH]; [reflexivity |].
  cbn [List.filter].
  assert (R : recent now window r = true) by (apply recent_iff; lra).
  rewrite R. f_equal. exact IH.
Qed.

Lemma sorted_filter (p : Q -> bool) (l : list Q) :
  StronglySorted Qle l -> StronglySorted Qle (List.filter p l).
Proof.
  induction 1 as [| x l Hs IH Hall]; [constructor |].
  cbn [List.filter]. destruct (p x); [| exact IH].
  constructor; [exact IH |].
  rewrite List.Forall_forall in *. intros y Hy.
  apply filter_In in Hy. apply Hall. tauto.
Qed.

Lemma sorted_snoc (l : list Q) (x : Q) :
  StronglySorted Qle l -> Forall (fun s => (s <= x)%Q) l ->
  StronglySorted Qle (l ++ [x]).
Proof.
  induction 1 as [| y l Hs IH Hall]; intros Hx.
  - constructor; constructor.
  - inversion Hx as [| ? ? Hy Hx']; subst. cbn [app].
    constructor; [apply IH; exact Hx' |].
    apply Forall_app. split; [exact Hall |]. constructor; [exact Hy |].
    constructor.
Qed.

(** With the time stamps of a key in ascending order and not after
    [now], a request is refused exactly when at least [limit] earlier
    accepted requests of that key lie within the last
    [window_seconds]; the bucket then keeps those recent time stamps,
    with [now] added when the request is accepted; the other keys are
    untouched; the stored list stays in ascending order, not after
    [now], and within [limit] entries if it was. *)
Theorem rate_limit_counts_recent_requests
    (bucket : PyDict.dict (list Q)) (key : string)
    (limit window_seconds : Z) (now : Q) :
  let samples := match PyDict.get key bucket with
                 | Some l => l
                 | None => []
                 end in
  StronglySorted Qle samples ->
  Forall (fun s => (s <= now)%Q) samples ->
  let r := _is_rate_limited bucket key limit window_seconds now in
  let kept := List.filter (recent now (inject_Z window_seconds)) samples in
  let stored := if fst r then kept else kept ++ [now] in
  fst r = (limit <=? Z.of_nat (length kept))%Z
  /\ PyDict.get key (snd r) = Some stored
  /\ (forall k, k <> key -> PyDict.get k (snd r) = PyDict.get k bucket)
  /\ StronglySorted Qle stored
  /\ Forall (fun s => (s <= now)%Q) stored
  /\ ((Z.of_nat (length samples) <= limit)%Z ->
      (Z.of_nat (length stored) <= limit)%Z).
Proof.
  intros samples Hs Hn r kept stored.
  assert (Hk : Forall (fun s => (s <= now)%Q) kept).
  { subst kept. rewrite List.Forall_forall in *. intros y Hy.
    apply filter_In in Hy. apply Hn. tauto. }
  assert (Sk : StronglySorted Qle kept) by (apply sorted_filter; exact Hs).
  assert (Lk : length kept <= length samples) by apply filter_length_le.
  subst stored r. unfold _is_rate_limited. fold samples.
  rewrite (drop_expired_filter _ _ _ Hs). fold kept.
  destruct (limit <=? Z.of_nat (length kept))%Z eqn:E; cbn [fst snd].
  - apply Z.leb_le in E. split; [reflexivity |].
    split; [rewrite get_set_eqb, String.eqb_refl; reflexivity |].
    split.
    { intros k N. rewrite get_set_eqb.
      destruct (String.eqb_spec k key); [contradiction | reflexivity]. }
    split; [exact Sk |]. split; [exact Hk |]. lia.
  - apply Z.leb_gt in E. split; [reflexivity |].
    split; [rewrite get_set_eqb, String.eqb_refl; reflexivity |].
    split.
    { intros k N. rewrite get_set_eqb.
      destruct (String.eqb_spec k key); [contradiction | reflexivity]. }
    split; [apply sorted_snoc; assumption |].
    split.
    { apply Forall_app. split; [exact Hk |].
      constructor; [apply Qle_refl | constructor]. }
    rewrite length_app. cbn [length]. lia.
Qed.

Lemma rate_limit_counts_recent_requests_witness :
  fst (_is_rate_limited [("a@x.org", [1%Q; 50%Q; 70%Q])] "a@x.org" 2 60
         100)
  = (2 <=? Z.of_nat
             (length (List.filter (recent 100 (inject_Z 60))
                                  [1%Q; 50%Q; 70%Q])))%Z.
Proof.
  apply (rate_limit_counts_recent_requests
           [("a@x.org", [1%Q; 50%Q; 70%Q])] "a@x.org" 2 60 100).
  - simpl. repeat constructor; unfold Qle; simpl; lia.
  - simpl. repeat constructor; unfold Qle; simpl; lia.
Defined.

(** The second request of the last minute is accepted, the third is
    refused. *)
Example third_request_refused :
  let first := _is_rate_limited [("a@x.org", [1%Q; 50%Q])] "a@x.org" 2 60
                 100 in
  fst first = false
  /\ snd first = [("a@x.org", [50%Q; 100%Q])]
  /\ fst (_is_rate_limited (snd first) "a@x.org" 2 60 101) = true.
Proof. vm_compute. repeat split. Qed.

End RateLimitFacts.

(** ** The task of the public careers portal *)

Module PublicTaskFacts.
Import PyStr PyStrFacts PyStrProps NormalizeProps AiEngine Store.
Import PublicPortal PublicTask.

Lemma lstrip_lower (s : string) : lstrip (lower s) = lower (lstrip s).
Proof.
  induction s as [| c s IH]; [reflexivity |].
  cbn [lower lstrip]. rewrite is_space_lower.
  destruct (is_space c); [exact IH | reflexivity].
Qed.

Lemma rstrip_lower (s : string) : rstrip (lower s) = lower (rstrip s).
Proof.
  induction s as [| c s IH]; [reflexivity |].
  cbn [lower rstrip]. rewrite IH, is_space_lower.
  destruct (rstrip s); cbn [lower]; [destruct (is_space c) |]; reflexivity.
Qed.

(** An e-mail in normal form is its own normal form. *)
Lemma normalized_email_idem (e : string) :
  normalized_email (normalized_email e) = normalized_email e.
Proof.
  unfold normalized_email, strip.
  rewrite lstrip_lower, rstrip_lower, lower_idem.
  fold (strip e). fold (strip (strip e)). rewrite strip_idem. reflexivity.
Qed.

(** For an e-mail in the normal form that [submit_public_application]
    passes on: an application whose e-mail is already on file for the
    job is dropped before any extraction call; when the extraction call
    raises (no model in the worker), nothing is scored, stored or
    counted; and when it returns, the application is stored, under
    exactly the submitted e-mail, with the submitted name when one is
    given, also when the PDF yields too little text (the placeholder
    text is then extracted and scored), and the job's application
    count goes up once. *)
Theorem public_application_is_stored_under_its_email
    (job : Job) (db : list Applicant)
    (text submitted_name raw_email : string)
    (submitted_phone : option string)
    (extract : string -> option CandidateFacts) :
  let e := normalized_email raw_email in
  let run := process_public_resume (Some job) db text submitted_name e
               submitted_phone extract in
  let resume_text :=
    if (negb (truthy text) || Nat.ltb (String.length (strip text)) 50)%bool
    then unreadable else text in
  (find_applicant db (job_id job) e <> None ->
   run = ([Base EvDedupLookup], db))
  /\ (find_applicant db (job_id job) e = None ->
      extract resume_text = None ->
      run = ([Base EvDedupLookup; Base EvExtractFacts], db))
  /\ (forall facts,
        find_applicant db (job_id job) e = None ->
        extract resume_text = Some facts ->
        exists row score status,
          snd run = db ++ [row]
          /\ a_job_id row = job_id job
          /\ a_email row = e
          /\ a_name row = (if given submitted_name
                           then strip submitted_name else name facts)
          /\ fst run = [Base EvDedupLookup; Base EvExtractFacts;
                        Base EvScorer; Base (EvPersist score status);
                        EvCountApplication]).
Proof.
  intros e run resume_text. subst run. unfold process_public_resume.
  fold resume_text. repeat split.
  - intros H. destruct (find_applicant db (job_id job) e); [reflexivity |].
    contradiction.
  - intros H X. rewrite H, X. reflexivity.
  - intros facts H X. rewrite H, X. unfold insert_applicant.
    cbn [a_job_id a_email email].
    assert (E : lower (strip e) = e) by apply normalized_email_idem.
    rewrite E, H. eexists. eexists. eexists.
    cbn [fst snd]. split; [reflexivity |].
    cbn [a_job_id a_email a_name name email].
    repeat split.
Qed.

Lemma public_application_is_stored_under_its_email_witness :
  process_public_resume (Some Examples.backend_job)
    [Examples.applicant_scored "a@x.org" (Some 61%Z)] "" "Ann"
    (normalized_email "  A@X.org ") None
    (fun _ => Some Examples.rookie_candidate)
  = ([Base EvDedupLookup],
     [Examples.applicant_scored "a@x.org" (Some 61%Z)])
  /\ process_public_resume (Some Examples.backend_job) [] "" "Ann"
       (normalized_email "  A@X.org ") None (fun _ => None)
     = ([Base EvDedupLookup; Base EvExtractFacts], []).
Proof.
  split.
  - apply (public_application_is_stored_under_its_email
             Examples.backend_job
             [Examples.applicant_scored "a@x.org" (Some 61%Z)] "" "Ann"
             "  A@X.org " None (fun _ => Some Examples.rookie_candidate)).
    vm_compute. discriminate.
  - pose proof (public_application_is_stored_under_its_email
                  Examples.backend_job [] "" "Ann" "  A@X.org " None
                  (fun _ => None)) as H.
    cbv zeta in H. destruct H as (_ & H & _).
    apply H; reflexivity.
Defined.

(** An unreadable PDF sent through the portal is scored on the
    placeholder text and stored. *)
Example unreadable_pdf_is_stored :
  let run := process_public_resume (Some Examples.backend_job) [] "" " Ann "
               "ann@x.org" None
               (fun _ => Some Examples.rookie_candidate) in
  map (fun a => (a_name a, a_email a, a_match_score a)) (snd run)
  = [("Ann", "ann@x.org", Some 3%Z)].
Proof. vm_compute. reflexivity. Qed.

End PublicTaskFacts.
